(** * Cart, order and inventory core of the store backend

    A shallow embedding of

      - [backend/app/services/cart_service.py]  (CartService)
      - [backend/app/services/orders.py]        (OrderService)
      - [backend/app/services/inventory.py]     (InventoryService)
      - [backend/app/models/{cart,order,inventory_log,customer}.py]

    The SQLAlchemy session is modelled as a pair of stores: the rows as
    committed in the database and the rows as seen through the session
    (committed rows plus pending changes).  [db.commit()] publishes the
    working store, [db.rollback()] discards it.  Service methods are
    computations in a state-and-exception monad over that session; an
    ORM instance is the row of the working store under its primary key,
    so that every holder of the instance sees its updates.

    The first part gives the model, the second the definitions the
    properties are stated with, the third the proofs: the inventory
    ledger, the order status machine, the totals and their rounding,
    adding to a cart, cancellation, order creation and its undoing by
    cancellation; then status and payment updates, the status history, the
    bounds on stock and cart lines, the cart summary and promo codes, what
    a checkout needs and why it is refused, what an order is made of,
    paging through orders, the inventory service, and orders placed one
    after the other or at once. *)

From Stdlib Require Import ZArith QArith Qcanon Qround Lia Lqa.
From stdpp Require Import base option list gmap strings numbers sorting.

Local Open Scope string_scope.
Local Open Scope list_scope.
Local Open Scope Z_scope.

(** ** Decimal amounts

    [decimal.Decimal] arithmetic is exact for the operations used here
    (sums, products by an integer, product by 0.18) as long as the result
    has at most 28 significant digits, which [Numeric(12, 2)] amounts do.
    Canonical rationals give the same values with Leibniz equality. *)

Abbreviation Decimal := Qc.

Definition dec (z : Z) : Decimal := Q2Qc (inject_Z z).
Definition dec_ratio (n : Z) (d : positive) : Decimal := Q2Qc (n # d).

(** Truthiness of a [Decimal]: zero is falsy. *)
Definition dec_truthy (d : Decimal) : bool := negb (bool_decide (d = dec 0)).

(** [a or Decimal("0")] where [a] is a [Decimal]. *)
Definition dec_or_zero (a : Decimal) : Decimal :=
  if dec_truthy a then a else dec 0.

(** ** [Numeric(12, 2)] columns

    The totals of a cart and the amounts of an order are [Numeric(12, 2)]
    columns.  PostgreSQL, the database of the configuration
    ([core/config.py]), keeps a value written to such a column rounded to
    two decimals, a tie going away from zero, and that is the value the
    instance shows once it is loaded again after a commit or a refresh.
    (SQLite, on which the tests of the repository run, is handed the value
    as a float: there a tie may go either way.)  Numbers are taken within
    the range of their columns: amounts of at most ten integer digits,
    integers that fit. *)

(** The nearest integer, a tie going away from zero. *)
Definition round_half_away (x : Q) : Z :=
  if Qle_bool 0 x then Qfloor (x + (1 # 2)) else - Qfloor (- x + (1 # 2)).

(** The value a [Numeric(12, 2)] column keeps of [x]. *)
Definition numeric_12_2 (x : Decimal) : Decimal :=
  dec_ratio (round_half_away (x * dec 100)%Qc) 100.

(** An amount in whole hundredths. *)
Definition two_decimals (x : Decimal) : Prop := ∃ k : Z, x = dec_ratio k 100.

(** Truthiness of an [Optional[int]] and of an [Optional[str]]. *)
Definition opt_int_truthy (a : option Z) : bool :=
  match a with
  | Some z => negb (z =? 0)
  | None => false
  end.

Definition opt_str_truthy (a : option string) : bool :=
  match a with
  | Some s => negb (bool_decide (s = EmptyString))
  | None => false
  end.

(** ** Status enumerations ([str]-valued enums; the columns hold the strings) *)

Module OrderStatus.
Definition PENDING := "pending".
Definition CONFIRMED := "confirmed".
Definition PROCESSING := "processing".
Definition SHIPPED := "shipped".
Definition OUT_FOR_DELIVERY := "out_for_delivery".
Definition DELIVERED := "delivered".
Definition CANCELLED := "cancelled".
Definition REFUNDED := "refunded".
Definition ON_HOLD := "on_hold".
Definition FAILED := "failed".
End OrderStatus.

Module PaymentStatus.
Definition PENDING := "pending".
Definition PROCESSING := "processing".
Definition PAID := "paid".
Definition FAILED := "failed".
Definition REFUNDED := "refunded".
Definition PARTIALLY_REFUNDED := "partially_refunded".
Definition CANCELLED := "cancelled".
End PaymentStatus.

Module CartStatus.
Definition ACTIVE := "active".
Definition CONVERTED := "converted".
Definition EXPIRED := "expired".
Definition ABANDONED := "abandoned".
End CartStatus.

(** ** Rows *)

(** Modelled from the spec: [app/models/product.py], which declares
    [Product] and [ProductVariation], is missing.  The specification gives
    a product an id, a price, an integer stock and an active flag; the
    services also read its [name], and [product_id] and [stock] (which may
    be [None]: not tracked) of a variation.  The primary key is the key of
    the table. *)
Record Product := {
  p_name : string;
  p_price : Decimal;
  p_stock : Z;
  p_is_active : bool;
}.

Record ProductVariation := {
  v_product_id : Z;
  v_stock : option Z;
}.

(** [Address] ([models/customer.py]): the column the services read. *)
Record Address := {
  a_user_id : Z;
}.

Record Cart := {
  c_user_id : option Z;
  c_session_id : option string;
  c_status : string;
  c_subtotal : Decimal;
  c_tax_amount : Decimal;
  c_discount_amount : Decimal;
  c_total : Decimal;
  c_promo_code : option string;
}.

Record CartItem := {
  ci_cart_id : Z;
  ci_user_id : option Z;
  ci_product_id : Z;
  ci_variation_id : option Z;
  ci_quantity : Z;
  ci_unit_price : option Decimal;
}.

(** Times are microseconds since the epoch ([datetime] resolution). *)
Definition datetime := Z.

(** [admin_notes], [cancelled_at], [cancelled_by] and
    [cancellation_reason] are not columns of [Order]: the services set
    them as plain attributes of the instance.  [None] in [o_admin_notes]
    stands for an attribute that was never set. *)
Record Order := {
  o_user_id : option Z;
  o_address_id : option Z;
  o_order_number : string;
  o_total_amount : Decimal;
  o_shipping_cost : Decimal;
  o_tax_amount : Decimal;
  o_discount_amount : Decimal;
  o_coupon_code : option string;
  o_payment_method : string;
  o_payment_status : string;
  o_status : string;
  o_notes : option string;
  o_created_at : datetime;
  o_admin_notes : option string;
  o_cancelled_at : option datetime;
  o_cancelled_by : option Z;
  o_cancellation_reason : option string;
}.

Record OrderItem := {
  oi_order_id : Z;
  oi_product_id : option Z;
  oi_variation_id : option Z;
  oi_quantity : Z;
  oi_price : Decimal;
}.

Record OrderStatusHistory := {
  h_order_id : Z;
  h_from_status : option string;
  h_to_status : string;
  h_changed_by : option Z;
  h_notes : option string;
}.

Record InventoryLog := {
  l_product_id : Z;
  l_change_quantity : Z;
  l_new_stock : Z;
  l_reason : string;
  l_admin_id : option Z;
  l_order_id : option Z;
}.

(** ** The database and the session *)

Record Store := {
  products : gmap Z Product;
  product_variations : gmap Z ProductVariation;
  addresses : gmap Z Address;
  carts : gmap Z Cart;
  cart_items : list CartItem;
  orders : gmap Z Order;
  order_items : list OrderItem;
  order_status_history : list OrderStatusHistory;
  inventory_logs : list InventoryLog;
}.

Definition with_products (f : gmap Z Product → gmap Z Product) (st : Store) : Store :=
  {| products := f (products st); product_variations := product_variations st;
     addresses := addresses st; carts := carts st; cart_items := cart_items st;
     orders := orders st; order_items := order_items st;
     order_status_history := order_status_history st;
     inventory_logs := inventory_logs st |}.

Definition with_carts (f : gmap Z Cart → gmap Z Cart) (st : Store) : Store :=
  {| products := products st; product_variations := product_variations st;
     addresses := addresses st; carts := f (carts st); cart_items := cart_items st;
     orders := orders st; order_items := order_items st;
     order_status_history := order_status_history st;
     inventory_logs := inventory_logs st |}.

Definition with_cart_items (f : list CartItem → list CartItem) (st : Store) : Store :=
  {| products := products st; product_variations := product_variations st;
     addresses := addresses st; carts := carts st; cart_items := f (cart_items st);
     orders := orders st; order_items := order_items st;
     order_status_history := order_status_history st;
     inventory_logs := inventory_logs st |}.

Definition with_orders (f : gmap Z Order → gmap Z Order) (st : Store) : Store :=
  {| products := products st; product_variations := product_variations st;
     addresses := addresses st; carts := carts st; cart_items := cart_items st;
     orders := f (orders st); order_items := order_items st;
     order_status_history := order_status_history st;
     inventory_logs := inventory_logs st |}.

Definition with_order_items (f : list OrderItem → list OrderItem) (st : Store) : Store :=
  {| products := products st; product_variations := product_variations st;
     addresses := addresses st; carts := carts st; cart_items := cart_items st;
     orders := orders st; order_items := f (order_items st);
     order_status_history := order_status_history st;
     inventory_logs := inventory_logs st |}.

Definition with_history
    (f : list OrderStatusHistory → list OrderStatusHistory) (st : Store) : Store :=
  {| products := products st; product_variations := product_variations st;
     addresses := addresses st; carts := carts st; cart_items := cart_items st;
     orders := orders st; order_items := order_items st;
     order_status_history := f (order_status_history st);
     inventory_logs := inventory_logs st |}.

Definition with_logs (f : list InventoryLog → list InventoryLog) (st : Store) : Store :=
  {| products := products st; product_variations := product_variations st;
     addresses := addresses st; carts := carts st; cart_items := cart_items st;
     orders := orders st; order_items := order_items st;
     order_status_history := order_status_history st;
     inventory_logs := f (inventory_logs st) |}.

Definition with_addresses (f : gmap Z Address → gmap Z Address) (st : Store) : Store :=
  {| products := products st; product_variations := product_variations st;
     addresses := f (addresses st); carts := carts st; cart_items := cart_items st;
     orders := orders st; order_items := order_items st;
     order_status_history := order_status_history st;
     inventory_logs := inventory_logs st |}.

Definition with_variations
    (f : gmap Z ProductVariation → gmap Z ProductVariation) (st : Store) : Store :=
  {| products := products st; product_variations := f (product_variations st);
     addresses := addresses st; carts := carts st; cart_items := cart_items st;
     orders := orders st; order_items := order_items st;
     order_status_history := order_status_history st;
     inventory_logs := inventory_logs st |}.

Record Session := {
  committed : Store;
  working : Store;
}.

(** A session with nothing pending. *)
Definition clean_session (st : Store) : Session :=
  {| committed := st; working := st |}.

(** ** Exceptions

    One constructor per message the services build; [OrderError] and
    [CartError] carry the message and the HTTP status code they are raised
    with. *)

Inductive issue :=
| IssueCartEmpty
| IssueNoLongerAvailable (product_name : string)
| IssueOnlyInStock (product_name : string) (available quantity : Z).

Inductive message :=
| MsgCartIsEmpty
| MsgIssues (issues : list issue)
| MsgShippingAddressNotFound
| MsgFailedToCreateOrder (cause : message)
| MsgFailedToCreateGuestOrder (cause : message)
| MsgOrderNotFound
| MsgCannotTransition (old_status new_status : string)
| MsgOnlyCancelOwnOrders
| MsgStatusCannotBeCancelled (status : string)
| MsgCancelWithinHours (hours : Z)
| MsgProductIdNotFound (product_id : Z)
| MsgProductNotAvailable (product_name : string)
| MsgInsufficientStockFor (product_name : string)
| MsgInsufficientStockAvailable (product_name : string) (available : Z)
| MsgProductNotFoundOrNotAvailable
| MsgVariationNotFound
| MsgMaximumQuantity (limit : Z)
| MsgInsufficientStockOnly (available : Z)
| MsgProductNotFound
| MsgStockBelowZero
| MsgNoAttribute (object attribute : string)
| MsgNoSetter (object attribute : string).

Inductive exn :=
| OrderError (msg : message) (status_code : Z)
| CartError (msg : message) (status_code : Z)
| HTTPException (status_code : Z) (detail : message)
| AttributeError (msg : message).

(** [str(e)] *)
Definition str_exn (e : exn) : message :=
  match e with
  | OrderError m _ => m
  | CartError m _ => m
  | HTTPException _ m => m
  | AttributeError m => m
  end.

Definition HTTP_400_BAD_REQUEST := 400.
Definition HTTP_403_FORBIDDEN := 403.
Definition HTTP_404_NOT_FOUND := 404.
Definition HTTP_500_INTERNAL_SERVER_ERROR := 500.

(** ** The monad of service methods *)

Inductive result (A : Type) :=
| Ok (a : A)
| Raise (e : exn).
Arguments Ok {A} a.
Arguments Raise {A} e.

Definition M (A : Type) : Type := Session → result A * Session.

Definition ret {A} (a : A) : M A := λ s, (Ok a, s).
Definition raise {A} (e : exn) : M A := λ s, (Raise e, s).
Definition bind {A B} (m : M A) (k : A → M B) : M B :=
  λ s, match m s with
       | (Ok a, s') => k a s'
       | (Raise e, s') => (Raise e, s')
       end.

(** [try: body except Exception as e: handler e] *)
Definition try_except {A} (body : M A) (handler : exn → M A) : M A :=
  λ s, match body s with
       | (Ok a, s') => (Ok a, s')
       | (Raise e, s') => handler e s'
       end.

Notation "'let!' x ':=' m 'in' k" := (bind m (λ x, k))
  (at level 10, x name, m at level 100, k at level 200).
Notation "m ;;; k" := (bind m (λ _, k))
  (at level 100, right associativity).

(** Reading and changing the rows seen through the session. *)
Definition get_db : M Store := λ s, (Ok (working s), s).
Definition modify_db (f : Store → Store) : M unit :=
  λ s, (Ok tt, {| committed := committed s; working := f (working s) |}).

(** [db.commit()] and [db.rollback()].  The commit publishes the rows as
    the session holds them.  What the database does to a row on the way is
    accounted for elsewhere: the rounding of the [Numeric(12, 2)] columns
    where the amounts are assigned ([numeric_12_2]), and what it would
    refuse (an order number already taken, a variation that does not
    exist, a string too long for its column) by the hypotheses of the
    statements that a call succeeds. *)
Definition db_commit : M unit :=
  λ s, (Ok tt, {| committed := working s; working := working s |}).
Definition db_rollback : M unit :=
  λ s, (Ok tt, {| committed := committed s; working := committed s |}).

(** [for x in xs: body x] *)
Fixpoint for_each {A} (xs : list A) (body : A → M unit) : M unit :=
  match xs with
  | [] => ret tt
  | x :: rest => body x ;;; for_each rest body
  end.

(** A pure computation that may raise, lifted to the session. *)
Definition lift_result {A} (r : result A) : M A :=
  match r with
  | Ok a => ret a
  | Raise e => raise e
  end.

(** ** Table queries *)

(** [db.query(T).filter(...).first()] on a table keyed by its primary
    key.  Without an ORDER BY the database is free to pick any matching
    row; the model takes the first one in the enumeration of the table. *)
Definition query_first {V} (m : gmap Z V) (P : Z → V → bool) : option (Z * V) :=
  List.find (λ kv, P kv.1 kv.2) (map_to_list m).

(** [db.query(T).filter(and_(T.id == id, ...)).first()]: the filter
    names the primary key, so at most one row can match. *)
Definition query_by_id {V} (m : gmap Z V) (id : Z) (P : V → bool) : option V :=
  match m !! id with
  | Some v => if P v then Some v else None
  | None => None
  end.

(** The primary key the database gives to the next inserted row. *)
Definition next_id {V} (m : gmap Z V) : Z :=
  1 + map_fold (λ k _ acc, Z.max k acc) 0 m.

(** [cart.items] *)
Definition items_of_cart (st : Store) (cart_id : Z) : list CartItem :=
  filter (λ it, ci_cart_id it = cart_id) (cart_items st).

(** [order.items] *)
Definition items_of_order (st : Store) (order_id : Z) : list OrderItem :=
  filter (λ it, oi_order_id it = order_id) (order_items st).

(** [item.unit_price or item.product.price]: the snapshot when it is set
    and not zero, else the price of the product the line points to (an
    [AttributeError] on [None] when that product is gone). *)
Definition unit_price_or_product_price (st : Store) (it : CartItem) : result Decimal :=
  let product_price :=
    match products st !! ci_product_id it with
    | Some p => Ok (p_price p)
    | None => Raise (AttributeError (MsgNoAttribute "NoneType" "price"))
    end in
  match ci_unit_price it with
  | Some x => if dec_truthy x then Ok x else product_price
  | None => product_price
  end.

(** The available stock of a product line: the variation's stock when
    the variation is given and tracks its own stock. *)
Definition stock_of_product (p : Product) (variation : option ProductVariation) : Z :=
  match variation with
  | Some v => match v_stock v with
              | Some n => n
              | None => p_stock p
              end
  | None => p_stock p
  end.

Definition set_stock (p : Product) (n : Z) : Product :=
  {| p_name := p_name p; p_price := p_price p; p_stock := n;
     p_is_active := p_is_active p |}.

(** [db.add(log)] *)
Definition db_add_log (l : InventoryLog) : Store → Store :=
  with_logs (λ ls, ls ++ [l]).

(** * InventoryService ([services/inventory.py]) *)

Module InventoryService.

Definition update_stock (product_id change_quantity : Z) (reason : string)
    (admin_id : option Z) : M Product :=
  let! st := get_db in
  match products st !! product_id with
  | None => raise (HTTPException 404 MsgProductNotFound)
  | Some product =>
      let new_stock := p_stock product + change_quantity in
      if new_stock <? 0 then raise (HTTPException 400 MsgStockBelowZero)
      else
        modify_db (with_products <[product_id := set_stock product new_stock]>) ;;;
        modify_db (db_add_log
          {| l_product_id := product_id; l_change_quantity := change_quantity;
             l_new_stock := new_stock; l_reason := reason;
             l_admin_id := admin_id; l_order_id := None |}) ;;;
        db_commit ;;;
        ret (set_stock product new_stock)
  end.

Definition reserve_stock (product_id quantity : Z) (order_id : option Z) : M Product :=
  let! st := get_db in
  match products st !! product_id with
  | None => raise (HTTPException 404 MsgProductNotFound)
  | Some product =>
      if p_stock product <? quantity then
        raise (HTTPException 400
                 (MsgInsufficientStockAvailable (p_name product) (p_stock product)))
      else
        let new_stock := p_stock product - quantity in
        modify_db (with_products <[product_id := set_stock product new_stock]>) ;;;
        modify_db (db_add_log
          {| l_product_id := product_id; l_change_quantity := - quantity;
             l_new_stock := new_stock; l_reason := "order_reservation";
             l_admin_id := None; l_order_id := order_id |}) ;;;
        db_commit ;;;
        ret (set_stock product new_stock)
  end.

Definition release_stock (product_id quantity : Z) (order_id : option Z) : M Product :=
  let! st := get_db in
  match products st !! product_id with
  | None => raise (HTTPException 404 MsgProductNotFound)
  | Some product =>
      let new_stock := p_stock product + quantity in
      modify_db (with_products <[product_id := set_stock product new_stock]>) ;;;
      modify_db (db_add_log
        {| l_product_id := product_id; l_change_quantity := quantity;
           l_new_stock := new_stock;
           l_reason := if opt_int_truthy order_id then "order_cancellation"
                       else "admin_release";
           l_admin_id := None; l_order_id := order_id |}) ;;;
      db_commit ;;;
      ret (set_stock product new_stock)
  end.

End InventoryService.

(** * CartService ([services/cart_service.py]) *)

(** [CartItemCreate]: the body of an add-to-cart request. *)
Record CartItemCreate := {
  ic_product_id : Z;
  ic_variation_id : option Z;
  ic_quantity : Z;
}.

(** [CartSummary] ([schemas/cart.py]) *)
Record CartSummary := {
  cs_item_count : Z;
  cs_subtotal : Decimal;
  cs_tax_amount : Decimal;
  cs_shipping_estimate : Decimal;
  cs_discount_amount : Decimal;
  cs_total : Decimal;
}.

Module CartService.

Definition MAX_QUANTITY_PER_ITEM : Z := 10.
Definition TAX_RATE : Decimal := dec_ratio 18 100.
Definition FREE_SHIPPING_THRESHOLD : Decimal := dec 50000.
Definition SHIPPING_COST : Decimal := dec 5000.

Definition get_cart (user_id : option Z) (session_id : option string)
    : M (option (Z * Cart)) :=
  let! st := get_db in
  if opt_int_truthy user_id then
    ret (query_first (carts st) (λ _ c,
           bool_decide (c_user_id c = user_id)
           && bool_decide (c_status c = CartStatus.ACTIVE)))
  else if opt_str_truthy session_id then
    ret (query_first (carts st) (λ _ c,
           bool_decide (c_session_id c = session_id)
           && bool_decide (c_status c = CartStatus.ACTIVE)))
  else ret None.

(** The loop of [_update_cart_totals]: [subtotal] is the accumulator. *)
Fixpoint sum_items (st : Store) (items : list CartItem) (subtotal : Decimal)
    : result Decimal :=
  match items with
  | [] => Ok subtotal
  | item :: rest =>
      match unit_price_or_product_price st item with
      | Ok price => sum_items st rest (subtotal + price * dec (ci_quantity item))%Qc
      | Raise e => Raise e
      end
  end.

(** The local [shipping] of [_update_cart_totals]. *)
Definition shipping_of (subtotal : Decimal) : Decimal :=
  if bool_decide (subtotal < FREE_SHIPPING_THRESHOLD)%Qc
     && bool_decide (dec 0 < subtotal)%Qc
  then SHIPPING_COST else dec 0.

(** The assignments of [_update_cart_totals], as the commit that follows
    them writes them to the row: [subtotal], [tax_amount] and [total] are
    [Numeric(12, 2)] columns. *)
Definition store_totals (subtotal : Decimal) (c : Cart) : Cart :=
  let tax_amount := (subtotal * TAX_RATE)%Qc in
  let shipping := shipping_of subtotal in
  let discount := dec_or_zero (c_discount_amount c) in
  let total := (subtotal + tax_amount + shipping - discount)%Qc in
  {| c_user_id := c_user_id c; c_session_id := c_session_id c;
     c_status := c_status c;
     c_subtotal := numeric_12_2 subtotal;
     c_tax_amount := numeric_12_2 tax_amount;
     c_discount_amount := c_discount_amount c;
     c_total := numeric_12_2 total;
     c_promo_code := c_promo_code c |}.

(** The cart is an instance attached to the session: a row of the
    working store, named by its primary key. *)
Definition _update_cart_totals (cart_id : Z) : M unit :=
  let! st := get_db in
  let! subtotal := lift_result (sum_items st (items_of_cart st cart_id) (dec 0)) in
  modify_db (with_carts (alter (store_totals subtotal) cart_id)) ;;;
  db_commit.

Definition set_quantity_and_price (q : Z) (price : Decimal) (it : CartItem) : CartItem :=
  {| ci_cart_id := ci_cart_id it; ci_user_id := ci_user_id it;
     ci_product_id := ci_product_id it; ci_variation_id := ci_variation_id it;
     ci_quantity := q; ci_unit_price := Some price |}.

(** The row [add_item] looks for: same cart, product and variation. *)
Definition same_line (cart_id : Z) (item_data : CartItemCreate) (it : CartItem) : Prop :=
  ci_cart_id it = cart_id
  ∧ ci_product_id it = ic_product_id item_data
  ∧ ci_variation_id it = ic_variation_id item_data.

Definition add_item (cart_id : Z) (item_data : CartItemCreate) : M CartItem :=
  let! st := get_db in
  match query_by_id (products st) (ic_product_id item_data) p_is_active with
  | None => raise (CartError MsgProductNotFoundOrNotAvailable HTTP_404_NOT_FOUND)
  | Some product =>
      let! variation :=
        (if opt_int_truthy (ic_variation_id item_data) then
           match ic_variation_id item_data ≫= λ vid,
                   query_by_id (product_variations st) vid (λ v,
                     bool_decide (v_product_id v = ic_product_id item_data)) with
           | None => raise (CartError MsgVariationNotFound HTTP_404_NOT_FOUND)
           | Some v => ret (Some v)
           end
         else ret None) in
      let available_stock := stock_of_product product variation in
      let existing_item := list_find (same_line cart_id item_data) (cart_items st) in
      let new_quantity :=
        match existing_item with
        | Some (_, it) => ci_quantity it + ic_quantity item_data
        | None => ic_quantity item_data
        end in
      if MAX_QUANTITY_PER_ITEM <? new_quantity then
        raise (CartError (MsgMaximumQuantity MAX_QUANTITY_PER_ITEM) HTTP_400_BAD_REQUEST)
      else if available_stock <? new_quantity then
        raise (CartError (MsgInsufficientStockOnly available_stock) HTTP_400_BAD_REQUEST)
      else
        match existing_item with
        | Some (i, it) =>
            let it' := set_quantity_and_price new_quantity (p_price product) it in
            modify_db (with_cart_items <[i := it']>) ;;;
            db_commit ;;;
            _update_cart_totals cart_id ;;;
            ret it'
        | None =>
            let cart_item :=
              {| ci_cart_id := cart_id;
                 ci_user_id := carts st !! cart_id ≫= c_user_id;
                 ci_product_id := ic_product_id item_data;
                 ci_variation_id := ic_variation_id item_data;
                 ci_quantity := ic_quantity item_data;
                 ci_unit_price := Some (p_price product) |} in
            modify_db (with_cart_items (λ l, l ++ [cart_item])) ;;;
            db_commit ;;;
            _update_cart_totals cart_id ;;;
            ret cart_item
        end
  end.

(** [item.variation] when [item.variation_id and item.variation] holds. *)
Definition tracked_variation (st : Store) (it : CartItem) : option ProductVariation :=
  if opt_int_truthy (ci_variation_id it)
  then ci_variation_id it ≫= λ vid, product_variations st !! vid
  else None.

Definition issues_of_item (st : Store) (item : CartItem) : list issue :=
  match products st !! ci_product_id item with
  | None => [IssueNoLongerAvailable "Unknown"]
  | Some product =>
      if negb (p_is_active product) then [IssueNoLongerAvailable (p_name product)]
      else
        let available_stock := stock_of_product product (tracked_variation st item) in
        if available_stock <? ci_quantity item
        then [IssueOnlyInStock (p_name product) available_stock (ci_quantity item)]
        else []
  end.

Definition validate_cart_for_checkout (cart_id : Z) : M (bool * list issue) :=
  let! st := get_db in
  match items_of_cart st cart_id with
  | [] => ret (false, [IssueCartEmpty])
  | items =>
      let issues := concat (map (issues_of_item st) items) in
      ret (bool_decide (length issues = 0%nat), issues)
  end.

Definition set_cart_status (status : string) (c : Cart) : Cart :=
  {| c_user_id := c_user_id c; c_session_id := c_session_id c;
     c_status := status;
     c_subtotal := c_subtotal c; c_tax_amount := c_tax_amount c;
     c_discount_amount := c_discount_amount c; c_total := c_total c;
     c_promo_code := c_promo_code c |}.

Definition mark_cart_converted (cart_id : Z) : M unit :=
  modify_db (with_carts (alter (set_cart_status CartStatus.CONVERTED) cart_id)) ;;;
  db_commit.

(** [Cart.item_count] ([models/cart.py]): the quantities of the lines,
    summed from 0. *)
Definition item_count (st : Store) (cart_id : Z) : Z :=
  foldl (λ acc it, acc + ci_quantity it) 0 (items_of_cart st cart_id).

(** The four assignments of [clear_cart]. *)
Definition clear_totals (c : Cart) : Cart :=
  {| c_user_id := c_user_id c; c_session_id := c_session_id c;
     c_status := c_status c;
     c_subtotal := dec 0; c_tax_amount := dec 0;
     c_discount_amount := dec 0; c_total := dec 0;
     c_promo_code := c_promo_code c |}.

(** The bulk [delete()] removes the lines of the cart at once. *)
Definition clear_cart (cart_id : Z) : M bool :=
  modify_db (with_cart_items (filter (λ it, ci_cart_id it ≠ cart_id))) ;;;
  modify_db (with_carts (alter clear_totals cart_id)) ;;;
  db_commit ;;;
  ret true.

(** The cart is an attached instance, so its row exists; where the
    session has no such row there is no instance whose attributes could be
    read, which the model reports as an [AttributeError]. *)
Definition get_cart_summary (cart_id : Z) : M CartSummary :=
  _update_cart_totals cart_id ;;;
  let! st := get_db in
  match carts st !! cart_id with
  | None => raise (AttributeError (MsgNoAttribute "NoneType" "subtotal"))
  | Some cart =>
      let shipping_estimate :=
        if dec_truthy (c_subtotal cart)
           && bool_decide (c_subtotal cart < FREE_SHIPPING_THRESHOLD)%Qc
           && bool_decide (dec 0 < c_subtotal cart)%Qc
        then SHIPPING_COST else dec 0 in
      ret {| cs_item_count := item_count st cart_id;
             cs_subtotal := dec_or_zero (c_subtotal cart);
             cs_tax_amount := dec_or_zero (c_tax_amount cart);
             cs_shipping_estimate := shipping_estimate;
             cs_discount_amount := dec_or_zero (c_discount_amount cart);
             cs_total := dec_or_zero (c_total cart) |}
  end.

Definition set_promo_code (promo_code : string) (c : Cart) : Cart :=
  {| c_user_id := c_user_id c; c_session_id := c_session_id c;
     c_status := c_status c;
     c_subtotal := c_subtotal c; c_tax_amount := c_tax_amount c;
     c_discount_amount := c_discount_amount c; c_total := c_total c;
     c_promo_code := Some promo_code |}.

(** The assignment of [discount_amount] is commented out in the source:
    the code is stored and the totals are recomputed. *)
Definition apply_promo_code (cart_id : Z) (promo_code : string) : M (bool * string) :=
  modify_db (with_carts (alter (set_promo_code promo_code) cart_id)) ;;;
  db_commit ;;;
  _update_cart_totals cart_id ;;;
  ret (true, "Promo code applied").

End CartService.

(** * OrderService ([services/orders.py]) *)

(** [OrderFromCart], [OrderItemCreate] and [GuestOrderCreate]: request
    bodies. *)
Record OrderFromCart := {
  oc_address_id : Z;
  oc_payment_method : string;
  oc_notes : option string;
  oc_promo_code : option string;
}.

Record OrderItemCreate := {
  oic_product_id : Z;
  oic_variation_id : option Z;
  oic_quantity : Z;
}.

Record GuestOrderCreate := {
  g_guest_name : string;
  g_guest_email : string;
  g_guest_phone : string;
  g_items : list OrderItemCreate;
  g_payment_method : string;
}.

(** The dictionary [_calculate_order_totals] returns. *)
Record Totals := {
  t_subtotal : Decimal;
  t_tax : Decimal;
  t_shipping : Decimal;
  t_total : Decimal;
}.

(** The dictionaries [_validate_and_calculate_items] builds (the keys
    that are read afterwards). *)
Record ValidatedItem := {
  vi_product_id : Z;
  vi_variation_id : option Z;
  vi_quantity : Z;
  vi_price : Decimal;
}.

(** [Order.is_cancellable] ([models/order.py]) *)
Definition is_cancellable (o : Order) : bool :=
  bool_decide (o_status o ∈
    [OrderStatus.PENDING; OrderStatus.CONFIRMED; OrderStatus.PROCESSING]).

Definition update_order (f : Order → Order) (order_id : Z) : M unit :=
  modify_db (with_orders (alter f order_id)).

Definition set_order_status (status : string) (o : Order) : Order :=
  {| o_user_id := o_user_id o; o_address_id := o_address_id o;
     o_order_number := o_order_number o; o_total_amount := o_total_amount o;
     o_shipping_cost := o_shipping_cost o; o_tax_amount := o_tax_amount o;
     o_discount_amount := o_discount_amount o; o_coupon_code := o_coupon_code o;
     o_payment_method := o_payment_method o; o_payment_status := o_payment_status o;
     o_status := status; o_notes := o_notes o; o_created_at := o_created_at o;
     o_admin_notes := o_admin_notes o; o_cancelled_at := o_cancelled_at o;
     o_cancelled_by := o_cancelled_by o;
     o_cancellation_reason := o_cancellation_reason o |}.

Definition set_admin_notes (notes : option string) (o : Order) : Order :=
  {| o_user_id := o_user_id o; o_address_id := o_address_id o;
     o_order_number := o_order_number o; o_total_amount := o_total_amount o;
     o_shipping_cost := o_shipping_cost o; o_tax_amount := o_tax_amount o;
     o_discount_amount := o_discount_amount o; o_coupon_code := o_coupon_code o;
     o_payment_method := o_payment_method o; o_payment_status := o_payment_status o;
     o_status := o_status o; o_notes := o_notes o; o_created_at := o_created_at o;
     o_admin_notes := notes; o_cancelled_at := o_cancelled_at o;
     o_cancelled_by := o_cancelled_by o;
     o_cancellation_reason := o_cancellation_reason o |}.

Definition set_cancellation (at_ : datetime) (by_ : Z) (reason : option string)
    (o : Order) : Order :=
  {| o_user_id := o_user_id o; o_address_id := o_address_id o;
     o_order_number := o_order_number o; o_total_amount := o_total_amount o;
     o_shipping_cost := o_shipping_cost o; o_tax_amount := o_tax_amount o;
     o_discount_amount := o_discount_amount o; o_coupon_code := o_coupon_code o;
     o_payment_method := o_payment_method o; o_payment_status := o_payment_status o;
     o_status := o_status o; o_notes := o_notes o; o_created_at := o_created_at o;
     o_admin_notes := o_admin_notes o; o_cancelled_at := Some at_;
     o_cancelled_by := Some by_;
     o_cancellation_reason := reason |}.

(** A Python dictionary literal with string keys, read with
    [d.get(key, [])]. *)
Fixpoint dict_get (key : string) (d : list (string * list string)) : list string :=
  match d with
  | [] => []
  | (k, v) :: rest => if bool_decide (key = k) then v else dict_get key rest
  end.

(** [Order.subtotal] ([models/order.py]): from the items when there are
    any ([sum] starts from 0), else from the stored amounts. *)
Definition order_subtotal (st : Store) (order_id : Z) (o : Order) : Decimal :=
  match items_of_order st order_id with
  | [] => (o_total_amount o - o_shipping_cost o - o_tax_amount o
           + o_discount_amount o)%Qc
  | items => foldl (λ acc it, acc + oi_price it * dec (oi_quantity it))%Qc (dec 0) items
  end.

(** [Order.item_count] ([models/order.py]) *)
Definition order_item_count (st : Store) (order_id : Z) : Z :=
  foldl (λ acc it, acc + oi_quantity it) 0 (items_of_order st order_id).

Definition set_payment_status (payment_status : string) (o : Order) : Order :=
  {| o_user_id := o_user_id o; o_address_id := o_address_id o;
     o_order_number := o_order_number o; o_total_amount := o_total_amount o;
     o_shipping_cost := o_shipping_cost o; o_tax_amount := o_tax_amount o;
     o_discount_amount := o_discount_amount o; o_coupon_code := o_coupon_code o;
     o_payment_method := o_payment_method o; o_payment_status := payment_status;
     o_status := o_status o; o_notes := o_notes o; o_created_at := o_created_at o;
     o_admin_notes := o_admin_notes o; o_cancelled_at := o_cancelled_at o;
     o_cancelled_by := o_cancelled_by o;
     o_cancellation_reason := o_cancellation_reason o |}.

(** [OrderSummary] and [OrderListResponse] ([schemas/order.py]) *)
Record OrderSummary := {
  os_id : Z;
  os_order_number : string;
  os_status : string;
  os_payment_status : string;
  os_total_amount : Decimal;
  os_item_count : Z;
  os_created_at : datetime;
}.

Record OrderListResponse := {
  lr_items : list OrderSummary;
  lr_total : Z;
  lr_page : Z;
  lr_page_size : Z;
  lr_total_pages : Z;
  lr_has_next : bool;
  lr_has_prev : bool;
}.

(** [ORDER BY created_at DESC]: the newer order first.  Among orders of
    the same instant the database is free to choose; the model keeps the
    order the merge sort gives. *)
Definition newer_first (a b : Z * Order) : Prop :=
  o_created_at b.2 ≤ o_created_at a.2.

#[global] Instance newer_first_dec : RelDecision newer_first :=
  λ a b, decide (o_created_at b.2 ≤ o_created_at a.2).

Definition order_by_created_at_desc (rows : list (Z * Order)) : list (Z * Order) :=
  merge_sort newer_first rows.

Module OrderService.

Definition TAX_RATE : Decimal := dec_ratio 18 100.
Definition FREE_SHIPPING_THRESHOLD : Decimal := dec 50000.
Definition SHIPPING_COST : Decimal := dec 5000.
Definition ORDER_CANCELLATION_WINDOW_HOURS : Z := 24.

(** The loop of [_calculate_order_totals]. *)
Fixpoint sum_items (st : Store) (cart_items : list CartItem) (subtotal : Decimal)
    : result Decimal :=
  match cart_items with
  | [] => Ok subtotal
  | item :: rest =>
      match unit_price_or_product_price st item with
      | Ok price => sum_items st rest (subtotal + price * dec (ci_quantity item))%Qc
      | Raise e => Raise e
      end
  end.

Definition _calculate_order_totals (st : Store) (cart_items : list CartItem)
    : result Totals :=
  match sum_items st cart_items (dec 0) with
  | Raise e => Raise e
  | Ok subtotal =>
      let tax := (subtotal * TAX_RATE)%Qc in
      let shipping :=
        if bool_decide (subtotal < FREE_SHIPPING_THRESHOLD)%Qc
        then SHIPPING_COST else dec 0 in
      let total := (subtotal + tax + shipping)%Qc in
      Ok {| t_subtotal := subtotal; t_tax := tax;
            t_shipping := shipping; t_total := total |}
  end.

(** The loop of [_validate_and_calculate_items]. *)
Fixpoint validate_items (st : Store) (items : list OrderItemCreate)
    (validated_items : list ValidatedItem) (subtotal : Decimal)
    : result (list ValidatedItem * Decimal) :=
  match items with
  | [] => Ok (validated_items, subtotal)
  | item :: rest =>
      match products st !! oic_product_id item with
      | None =>
          Raise (OrderError (MsgProductIdNotFound (oic_product_id item))
                   HTTP_404_NOT_FOUND)
      | Some product =>
          if negb (p_is_active product) then
            Raise (OrderError (MsgProductNotAvailable (p_name product))
                     HTTP_400_BAD_REQUEST)
          else if p_stock product <? oic_quantity item then
            Raise (OrderError
                     (MsgInsufficientStockAvailable (p_name product) (p_stock product))
                     HTTP_400_BAD_REQUEST)
          else
            let item_subtotal := (p_price product * dec (oic_quantity item))%Qc in
            validate_items st rest
              (validated_items ++
                 [{| vi_product_id := oic_product_id item;
                     vi_variation_id := oic_variation_id item;
                     vi_quantity := oic_quantity item;
                     vi_price := p_price product |}])
              (subtotal + item_subtotal)%Qc
      end
  end.

Definition _validate_and_calculate_items (st : Store) (items : list OrderItemCreate)
    : result (list ValidatedItem * Totals) :=
  match validate_items st items [] (dec 0) with
  | Raise e => Raise e
  | Ok (validated_items, subtotal) =>
      let tax := (subtotal * TAX_RATE)%Qc in
      let shipping :=
        if bool_decide (subtotal < FREE_SHIPPING_THRESHOLD)%Qc
        then SHIPPING_COST else dec 0 in
      let total := (subtotal + tax + shipping)%Qc in
      Ok (validated_items,
          {| t_subtotal := subtotal; t_tax := tax;
             t_shipping := shipping; t_total := total |})
  end.

Definition _create_order_item (st : Store) (order_id : Z) (cart_item : CartItem)
    : result OrderItem :=
  match unit_price_or_product_price st cart_item with
  | Raise e => Raise e
  | Ok item_price =>
      Ok {| oi_order_id := order_id;
            oi_product_id := Some (ci_product_id cart_item);
            oi_variation_id := ci_variation_id cart_item;
            oi_quantity := ci_quantity cart_item;
            oi_price := item_price |}
  end.

Definition _reserve_stock (cart_item : CartItem) (order_id : Z) : M unit :=
  let! st := get_db in
  match products st !! ci_product_id cart_item with
  | None => raise (AttributeError (MsgNoAttribute "NoneType" "stock"))
  | Some product =>
      if p_stock product <? ci_quantity cart_item then
        raise (OrderError (MsgInsufficientStockFor (p_name product))
                 HTTP_400_BAD_REQUEST)
      else
        let new_stock := p_stock product - ci_quantity cart_item in
        modify_db (with_products
          <[ci_product_id cart_item := set_stock product new_stock]>) ;;;
        modify_db (db_add_log
          {| l_product_id := ci_product_id cart_item;
             l_change_quantity := - ci_quantity cart_item;
             l_new_stock := new_stock; l_reason := "order_placed";
             l_admin_id := None; l_order_id := Some order_id |})
  end.

Definition _reserve_stock_direct (product_id quantity order_id : Z) : M unit :=
  let! st := get_db in
  match products st !! product_id with
  | None => raise (OrderError (MsgProductIdNotFound product_id) HTTP_404_NOT_FOUND)
  | Some product =>
      if p_stock product <? quantity then
        raise (OrderError (MsgInsufficientStockFor (p_name product))
                 HTTP_400_BAD_REQUEST)
      else
        let new_stock := p_stock product - quantity in
        modify_db (with_products <[product_id := set_stock product new_stock]>) ;;;
        modify_db (db_add_log
          {| l_product_id := product_id; l_change_quantity := - quantity;
             l_new_stock := new_stock; l_reason := "order_placed";
             l_admin_id := None; l_order_id := Some order_id |})
  end.

Definition _release_stock (product_id : option Z) (quantity order_id : Z) : M unit :=
  let! st := get_db in
  match product_id ≫= λ pid, (λ p, (pid, p)) <$> products st !! pid with
  | Some (pid, product) =>
      let new_stock := p_stock product + quantity in
      modify_db (with_products <[pid := set_stock product new_stock]>) ;;;
      modify_db (db_add_log
        {| l_product_id := pid; l_change_quantity := quantity;
           l_new_stock := new_stock; l_reason := "order_cancelled";
           l_admin_id := None; l_order_id := Some order_id |})
  | None => ret tt
  end.

Definition _record_status_change (order_id : Z) (from_status : option string)
    (to_status : string) (changed_by : option Z) (notes : option string) : M unit :=
  modify_db (with_history (λ l, l ++
    [{| h_order_id := order_id; h_from_status := from_status;
        h_to_status := to_status; h_changed_by := changed_by;
        h_notes := notes |}])).

Definition transitions : list (string * list string) :=
  [ (OrderStatus.PENDING,
      [OrderStatus.CONFIRMED; OrderStatus.CANCELLED; OrderStatus.FAILED;
       OrderStatus.ON_HOLD]);
    (OrderStatus.CONFIRMED,
      [OrderStatus.PROCESSING; OrderStatus.CANCELLED; OrderStatus.ON_HOLD]);
    (OrderStatus.PROCESSING,
      [OrderStatus.SHIPPED; OrderStatus.CANCELLED; OrderStatus.ON_HOLD]);
    (OrderStatus.SHIPPED,
      [OrderStatus.OUT_FOR_DELIVERY; OrderStatus.DELIVERED]);
    (OrderStatus.OUT_FOR_DELIVERY, [OrderStatus.DELIVERED]);
    (OrderStatus.DELIVERED, [OrderStatus.REFUNDED]);
    (OrderStatus.ON_HOLD,
      [OrderStatus.PENDING; OrderStatus.PROCESSING; OrderStatus.CANCELLED]);
    (OrderStatus.CANCELLED, []);
    (OrderStatus.REFUNDED, []);
    (OrderStatus.FAILED, [OrderStatus.PENDING]) ].

Definition _get_valid_status_transitions (current_status : string) : list string :=
  dict_get current_status transitions.

(** [models/order.py] declares [shipped_at] and [delivered_at] as
    read-only properties and has no [admin_notes] at all: assigning the
    former and reading the latter before it was ever assigned raise
    [AttributeError]. *)
Definition assign_admin_notes (order_id : Z) (notes : option string) : M unit :=
  if opt_str_truthy notes then update_order (set_admin_notes notes) order_id
  else
    let! st := get_db in
    match orders st !! order_id ≫= o_admin_notes with
    | Some old => update_order (set_admin_notes (Some old)) order_id
    | None => raise (AttributeError (MsgNoAttribute "Order" "admin_notes"))
    end.

Definition update_order_status (order_id : Z) (new_status : string)
    (admin_id : option Z) (notes : option string) : M (Z * Order) :=
  let! st := get_db in
  match orders st !! order_id with
  | None => raise (OrderError MsgOrderNotFound HTTP_404_NOT_FOUND)
  | Some order =>
      let old_status := o_status order in
      let valid_transitions := _get_valid_status_transitions old_status in
      if negb (bool_decide (new_status ∈ valid_transitions)) then
        raise (OrderError (MsgCannotTransition old_status new_status)
                 HTTP_400_BAD_REQUEST)
      else
        update_order (set_order_status new_status) order_id ;;;
        assign_admin_notes order_id notes ;;;
        (if bool_decide (new_status = OrderStatus.SHIPPED) then
           raise (AttributeError (MsgNoSetter "Order" "shipped_at"))
         else if bool_decide (new_status = OrderStatus.DELIVERED) then
           raise (AttributeError (MsgNoSetter "Order" "delivered_at"))
         else ret tt) ;;;
        _record_status_change order_id (Some old_status) new_status admin_id notes ;;;
        db_commit ;;;
        let! st' := get_db in
        ret (order_id, default order (orders st' !! order_id))
  end.

(** [hours_since_order > ORDER_CANCELLATION_WINDOW_HOURS]: the elapsed
    time is a whole number of microseconds, and dividing it to hours in
    floating point keeps the comparison with 24 exact. *)
Definition window_expired (now created_at : datetime) : bool :=
  ORDER_CANCELLATION_WINDOW_HOURS * 3600 * 1000000 <? now - created_at.

(** [now] is [datetime.utcnow()], read for the window check and for
    [cancelled_at]. *)
Definition cancel_order (now : datetime) (order_id user_id : Z)
    (reason : option string) (is_admin : bool) : M (Z * Order) :=
  let! st := get_db in
  match orders st !! order_id with
  | None => raise (OrderError MsgOrderNotFound HTTP_404_NOT_FOUND)
  | Some order =>
      if negb is_admin && negb (bool_decide (o_user_id order = Some user_id)) then
        raise (OrderError MsgOnlyCancelOwnOrders HTTP_403_FORBIDDEN)
      else if negb (is_cancellable order) then
        raise (OrderError (MsgStatusCannotBeCancelled (o_status order))
                 HTTP_400_BAD_REQUEST)
      else if negb is_admin && window_expired now (o_created_at order) then
        raise (OrderError (MsgCancelWithinHours ORDER_CANCELLATION_WINDOW_HOURS)
                 HTTP_400_BAD_REQUEST)
      else
        let old_status := o_status order in
        for_each (items_of_order st order_id) (λ item,
          _release_stock (oi_product_id item) (oi_quantity item) order_id) ;;;
        update_order (set_order_status OrderStatus.CANCELLED) order_id ;;;
        update_order (set_cancellation now user_id reason) order_id ;;;
        _record_status_change order_id (Some old_status) OrderStatus.CANCELLED
          (Some user_id) reason ;;;
        db_commit ;;;
        let! st' := get_db in
        ret (order_id, default order (orders st' !! order_id))
  end.

(** The body of the loop of [create_order_from_cart]. *)
Definition place_cart_line (order_id : Z) (cart_item : CartItem) : M unit :=
  let! st := get_db in
  let! order_item := lift_result (_create_order_item st order_id cart_item) in
  modify_db (with_order_items (λ l, l ++ [order_item])) ;;;
  _reserve_stock cart_item order_id.

(** The [try] block of [create_order_from_cart].  [generate_order_number()]
    reads the clock and a random source; its result is the parameter
    [order_number].  [now] is the clock of the database ([created_at] has
    [server_default=func.now()]).  The amounts of the order are
    [Numeric(12, 2)] columns: the row holds them as the database keeps
    them, which is what [db.refresh(order)] loads into the order that is
    returned.  The constraints between rows are the database's and raise
    nothing here: the unique index on [order_number] and the foreign keys
    of [variation_id], as is the length of the [String(50)] columns; the
    statements that a creation succeeds take them as hypotheses
    ([order_row_accepted], [variation_known]). *)
Definition create_order_from_cart_try (now : datetime) (order_number : string)
    (user_id : Z) (order_data : OrderFromCart) (cart_id : Z)
    (cart_items : list CartItem) : M (Z * Order) :=
  let! st := get_db in
  let! totals := lift_result (_calculate_order_totals st cart_items) in
  let order :=
    {| o_user_id := Some user_id;
       o_address_id := Some (oc_address_id order_data);
       o_order_number := order_number;
       o_total_amount := numeric_12_2 (t_total totals);
       o_shipping_cost := numeric_12_2 (t_shipping totals);
       o_tax_amount := numeric_12_2 (t_tax totals);
       o_discount_amount := dec 0;
       o_coupon_code := oc_promo_code order_data;
       o_payment_method := oc_payment_method order_data;
       o_payment_status := PaymentStatus.PENDING;
       o_status := OrderStatus.PENDING;
       o_notes := oc_notes order_data;
       o_created_at := now;
       o_admin_notes := None; o_cancelled_at := None;
       o_cancelled_by := None; o_cancellation_reason := None |} in
  let order_id := next_id (orders st) in
  modify_db (with_orders <[order_id := order]>) ;;;
  for_each cart_items (place_cart_line order_id) ;;;
  _record_status_change order_id None OrderStatus.PENDING (Some user_id) None ;;;
  CartService.mark_cart_converted cart_id ;;;
  db_commit ;;;
  let! st' := get_db in
  ret (order_id, default order (orders st' !! order_id)).

Definition create_order_from_cart (now : datetime) (order_number : string)
    (user_id : Z) (order_data : OrderFromCart) : M (Z * Order) :=
  let! cart := CartService.get_cart (Some user_id) None in
  let! st := get_db in
  match cart with
  | None => raise (OrderError MsgCartIsEmpty HTTP_400_BAD_REQUEST)
  | Some (cart_id, _) =>
      let cart_items := items_of_cart st cart_id in
      if bool_decide (cart_items = []) then
        raise (OrderError MsgCartIsEmpty HTTP_400_BAD_REQUEST)
      else
        let! validation := CartService.validate_cart_for_checkout cart_id in
        if negb validation.1 then
          raise (OrderError (MsgIssues validation.2) HTTP_400_BAD_REQUEST)
        else
          match query_by_id (addresses st) (oc_address_id order_data) (λ a,
                  bool_decide (a_user_id a = user_id)) with
          | None => raise (OrderError MsgShippingAddressNotFound HTTP_404_NOT_FOUND)
          | Some _ =>
              try_except
                (create_order_from_cart_try now order_number user_id order_data
                   cart_id cart_items)
                (λ e,
                   db_rollback ;;;
                   raise (OrderError (MsgFailedToCreateOrder (str_exn e))
                            HTTP_500_INTERNAL_SERVER_ERROR))
          end
  end.

Definition guest_notes (order_data : GuestOrderCreate) : string :=
  String.append "Guest: "
    (String.append (g_guest_name order_data)
       (String.append " | "
          (String.append (g_guest_email order_data)
             (String.append " | " (g_guest_phone order_data))))).

(** The body of the loop of [create_guest_order]. *)
Definition place_guest_line (order_id : Z) (item_data : ValidatedItem) : M unit :=
  modify_db (with_order_items (λ l, l ++
    [{| oi_order_id := order_id;
        oi_product_id := Some (vi_product_id item_data);
        oi_variation_id := vi_variation_id item_data;
        oi_quantity := vi_quantity item_data;
        oi_price := vi_price item_data |}])) ;;;
  _reserve_stock_direct (vi_product_id item_data) (vi_quantity item_data) order_id.

(** The [try] block of [create_guest_order]; amounts and constraints as
    for [create_order_from_cart_try]. *)
Definition create_guest_order_try (now : datetime) (order_number : string)
    (order_data : GuestOrderCreate) (validated_items : list ValidatedItem)
    (totals : Totals) : M (Z * Order) :=
  let! st := get_db in
  let order :=
    {| o_user_id := None;
       o_address_id := None;
       o_order_number := order_number;
       o_total_amount := numeric_12_2 (t_total totals);
       o_shipping_cost := numeric_12_2 (t_shipping totals);
       o_tax_amount := numeric_12_2 (t_tax totals);
       o_discount_amount := dec 0;
       o_coupon_code := None;
       o_payment_method := g_payment_method order_data;
       o_payment_status := PaymentStatus.PENDING;
       o_status := OrderStatus.PENDING;
       o_notes := Some (guest_notes order_data);
       o_created_at := now;
       o_admin_notes := None; o_cancelled_at := None;
       o_cancelled_by := None; o_cancellation_reason := None |} in
  let order_id := next_id (orders st) in
  modify_db (with_orders <[order_id := order]>) ;;;
  for_each validated_items (place_guest_line order_id) ;;;
  _record_status_change order_id None OrderStatus.PENDING None None ;;;
  db_commit ;;;
  let! st' := get_db in
  ret (order_id, default order (orders st' !! order_id)).

Definition create_guest_order (now : datetime) (order_number : string)
    (order_data : GuestOrderCreate) : M (Z * Order) :=
  let! st := get_db in
  let! validated := lift_result (_validate_and_calculate_items st (g_items order_data)) in
  try_except
    (create_guest_order_try now order_number order_data validated.1 validated.2)
    (λ e,
       db_rollback ;;;
       raise (OrderError (MsgFailedToCreateGuestOrder (str_exn e))
                HTTP_500_INTERNAL_SERVER_ERROR)).

(** [user_id] is optional: the ownership filter is applied when it is
    given and truthy. *)
Definition get_order (order_id : Z) (user_id : option Z) : M (Z * Order) :=
  let! st := get_db in
  match query_by_id (orders st) order_id (λ o,
          if opt_int_truthy user_id then bool_decide (o_user_id o = user_id)
          else true) with
  | None => raise (OrderError MsgOrderNotFound HTTP_404_NOT_FOUND)
  | Some order => ret (order_id, order)
  end.

(** The rows [get_user_orders] counts and pages through. *)
Definition user_orders (st : Store) (user_id : Z) (status_filter : option string)
    : list (Z * Order) :=
  filter (λ kv, o_user_id kv.2 = Some user_id
                ∧ (opt_str_truthy status_filter = true
                   → Some (o_status kv.2) = status_filter))
    (map_to_list (orders st)).

Definition summary_of (st : Store) (kv : Z * Order) : OrderSummary :=
  {| os_id := kv.1;
     os_order_number := o_order_number kv.2;
     os_status := o_status kv.2;
     os_payment_status := o_payment_status kv.2;
     os_total_amount := o_total_amount kv.2;
     os_item_count := order_item_count st kv.1;
     os_created_at := o_created_at kv.2 |}.

(** What [get_user_orders] answers on the rows it reads.  [page] and
    [page_size] are at least 1: the routers declare them [Query(ge=1)]. *)
Definition list_user_orders (st : Store) (user_id : Z) (page page_size : positive)
    (status_filter : option string) : OrderListResponse :=
  let query := user_orders st user_id status_filter in
  let total := Z.of_nat (length query) in
  let orders :=
    take (Pos.to_nat page_size)
      (drop (Z.to_nat ((Z.pos page - 1) * Z.pos page_size))
         (order_by_created_at_desc query)) in
  let total_pages := (total + Z.pos page_size - 1) / Z.pos page_size in
  {| lr_items := summary_of st <$> orders;
     lr_total := total;
     lr_page := Z.pos page;
     lr_page_size := Z.pos page_size;
     lr_total_pages := total_pages;
     lr_has_next := Z.pos page <? total_pages;
     lr_has_prev := 1 <? Z.pos page |}.

Definition get_user_orders (user_id : Z) (page page_size : positive)
    (status_filter : option string) : M OrderListResponse :=
  let! st := get_db in
  ret (list_user_orders st user_id page page_size status_filter).

(** [payment_transaction_id] is a read-only property of [Order]
    ([models/order.py]): assigning it raises [AttributeError]. *)
Definition update_payment_status (order_id : Z) (payment_status : string)
    (transaction_id : option string) (admin_id : option Z) : M (Z * Order) :=
  let! st := get_db in
  match orders st !! order_id with
  | None => raise (OrderError MsgOrderNotFound HTTP_404_NOT_FOUND)
  | Some order =>
      update_order (set_payment_status payment_status) order_id ;;;
      (if opt_str_truthy transaction_id then
         raise (AttributeError (MsgNoSetter "Order" "payment_transaction_id"))
       else ret tt) ;;;
      (if bool_decide (payment_status = PaymentStatus.PAID) then
         if bool_decide (o_status order = OrderStatus.PENDING) then
           update_order_status order_id OrderStatus.CONFIRMED admin_id None ;;; ret tt
         else ret tt
       else ret tt) ;;;
      db_commit ;;;
      let! st' := get_db in
      ret (order_id, default order (orders st' !! order_id))
  end.

End OrderService.

(** * Properties: definitions *)

(** ** The inventory ledger *)

(** The sum of [change_quantity] over the ledger entries of a product. *)
Fixpoint ledger_sum (product_id : Z) (logs : list InventoryLog) : Z :=
  match logs with
  | [] => 0
  | l :: rest =>
      (if bool_decide (l_product_id l = product_id) then l_change_quantity l else 0)
      + ledger_sum product_id rest
  end.

(** [stock == baseline_stock + Σ(ledger.change_quantity)] for every product. *)
Definition ledger_consistent (baseline : Z → Z) (st : Store) : Prop :=
  ∀ product_id p,
    products st !! product_id = Some p →
    p_stock p = baseline product_id + ledger_sum product_id (inventory_logs st).

(** The stock-mutating operations: reservation at order creation (from a
    cart line, or directly for a guest order), release at cancellation,
    manual adjustment by an admin, and the reservation and release of the
    inventory service. *)
Inductive stock_mutation :=
| Reserve (cart_item : CartItem) (order_id : Z)
| ReserveDirect (product_id quantity order_id : Z)
| Release (product_id : option Z) (quantity order_id : Z)
| Adjust (product_id change_quantity : Z) (reason : string) (admin_id : option Z)
| InventoryReserve (product_id quantity : Z) (order_id : option Z)
| InventoryRelease (product_id quantity : Z) (order_id : option Z).

Definition run_mutation (m : stock_mutation) : M unit :=
  match m with
  | Reserve cart_item order_id => OrderService._reserve_stock cart_item order_id
  | ReserveDirect product_id quantity order_id =>
      OrderService._reserve_stock_direct product_id quantity order_id
  | Release product_id quantity order_id =>
      OrderService._release_stock product_id quantity order_id
  | Adjust product_id change_quantity reason admin_id =>
      InventoryService.update_stock product_id change_quantity reason admin_id ;;; ret tt
  | InventoryReserve product_id quantity order_id =>
      InventoryService.reserve_stock product_id quantity order_id ;;; ret tt
  | InventoryRelease product_id quantity order_id =>
      InventoryService.release_stock product_id quantity order_id ;;; ret tt
  end.

(** What an operation wrote to the ledger: nothing (and then it changed no
    stock either), or one entry at the end whose [new_stock] is the stock
    its product now has. *)
Definition entry_agrees_with_stock (st st' : Store) : Prop :=
  (inventory_logs st' = inventory_logs st ∧ products st' = products st)
  ∨ ∃ l p,
      inventory_logs st' = inventory_logs st ++ [l]
      ∧ products st' !! l_product_id l = Some p
      ∧ l_new_stock l = p_stock p.

(** ** The order status machine *)

(** The transition table of the specification, as (from, to) pairs. *)
Definition spec_transition_table : list (string * string) :=
  [ (OrderStatus.PENDING, OrderStatus.CONFIRMED);
    (OrderStatus.PENDING, OrderStatus.CANCELLED);
    (OrderStatus.PENDING, OrderStatus.FAILED);
    (OrderStatus.PENDING, OrderStatus.ON_HOLD);
    (OrderStatus.CONFIRMED, OrderStatus.PROCESSING);
    (OrderStatus.CONFIRMED, OrderStatus.CANCELLED);
    (OrderStatus.CONFIRMED, OrderStatus.ON_HOLD);
    (OrderStatus.PROCESSING, OrderStatus.SHIPPED);
    (OrderStatus.PROCESSING, OrderStatus.CANCELLED);
    (OrderStatus.PROCESSING, OrderStatus.ON_HOLD);
    (OrderStatus.SHIPPED, OrderStatus.OUT_FOR_DELIVERY);
    (OrderStatus.SHIPPED, OrderStatus.DELIVERED);
    (OrderStatus.OUT_FOR_DELIVERY, OrderStatus.DELIVERED);
    (OrderStatus.DELIVERED, OrderStatus.REFUNDED);
    (OrderStatus.ON_HOLD, OrderStatus.PENDING);
    (OrderStatus.ON_HOLD, OrderStatus.PROCESSING);
    (OrderStatus.ON_HOLD, OrderStatus.CANCELLED);
    (OrderStatus.FAILED, OrderStatus.PENDING) ].

(** The errors of the specification's taxonomy, as the exceptions the
    services raise for them. *)
Definition InvalidTransition (from to : string) : exn :=
  OrderError (MsgCannotTransition from to) HTTP_400_BAD_REQUEST.

(** ** Cart and order totals *)

(** The price a line is counted at: its snapshot [unit_price] when that is
    set and not zero, else the current price of its product. *)
Definition line_price (st : Store) (it : CartItem) : option Decimal :=
  match ci_unit_price it with
  | Some x => if bool_decide (x = dec 0) then p_price <$> products st !! ci_product_id it
              else Some x
  | None => p_price <$> products st !! ci_product_id it
  end.

(** Σ(price × quantity) over the lines, when every line has a price. *)
Fixpoint lines_total (st : Store) (items : list CartItem) : option Decimal :=
  match items with
  | [] => Some (dec 0)
  | it :: rest =>
      match line_price st it, lines_total st rest with
      | Some p, Some t => Some (p * dec (ci_quantity it) + t)%Qc
      | _, _ => None
      end
  end.

(** The shipping rule as the specification words it: the flat fee unless
    the subtotal reaches the free-shipping threshold. *)
Definition spec_shipping (subtotal : Decimal) : Decimal :=
  if bool_decide (dec 50000 ≤ subtotal)%Qc then dec 0 else dec 5000.

(** Σ(unit_price × quantity) over the snapshots of the lines. *)
Fixpoint snapshot_total (items : list CartItem) : Decimal :=
  match items with
  | [] => dec 0
  | it :: rest =>
      (default (dec 0) (ci_unit_price it) * dec (ci_quantity it)
       + snapshot_total rest)%Qc
  end.

(** The stored totals as the specification words them. *)
Definition totals_as_specified (items : list CartItem) (c : Cart) : Prop :=
  c_subtotal c = snapshot_total items
  ∧ c_tax_amount c = (c_subtotal c * dec_ratio 18 100)%Qc
  ∧ c_total c = (c_subtotal c + c_tax_amount c + spec_shipping (c_subtotal c)
                 - c_discount_amount c)%Qc.

(** The stored totals as the code computes them and the columns keep
    them, [subtotal] being Σ(price × quantity) over the lines: each amount
    is rounded to two decimals on its own, the total from the tax before
    rounding, and there is no shipping on a subtotal that is not positive.
    Where the rounding of the tax is all the rounding there is (subtotal
    and discount in whole hundredths, a subtotal that is not negative, a
    discount of at most subtotal + shipping), the stored amounts add up. *)
Definition totals_as_computed (subtotal : Decimal) (c c' : Cart) : Prop :=
  let tax := (subtotal * dec_ratio 18 100)%Qc in
  let shipping :=
    if bool_decide (dec 0 < subtotal ∧ subtotal < dec 50000)%Qc
    then dec 5000 else dec 0 in
  let discount := c_discount_amount c in
  c_subtotal c' = numeric_12_2 subtotal
  ∧ c_tax_amount c' = numeric_12_2 tax
  ∧ c_total c' = numeric_12_2 (subtotal + tax + shipping - discount)
  ∧ (two_decimals subtotal → two_decimals discount →
     (dec 0 ≤ subtotal)%Qc → (discount ≤ subtotal + shipping)%Qc →
     c_subtotal c' = subtotal
     ∧ c_total c' = (subtotal + c_tax_amount c' + shipping - discount)%Qc)
  ∧ c_discount_amount c' = c_discount_amount c
  ∧ c_status c' = c_status c
  ∧ c_user_id c' = c_user_id c.

(** The totals of an order agree with the totals its cart shows: the
    subtotal, tax and total the order is created with, as the columns keep
    them, are those of the cart row, and the shipping is the one the cart
    counts on that subtotal. *)
Definition order_totals_match_cart (t : Totals) (c' : Cart) : Prop :=
  numeric_12_2 (t_subtotal t) = c_subtotal c'
  ∧ numeric_12_2 (t_tax t) = c_tax_amount c'
  ∧ t_shipping t = CartService.shipping_of (t_subtotal t)
  ∧ numeric_12_2 (t_total t) = c_total c'.

(** ** What the database checks

    The constraints between rows and the length of a [String(50)] column
    are checked by the database when a row is written; the model writes
    the row in any case.  The statements that a call succeeds take them as
    hypotheses. *)

(** The string fits a [String(50)] column. *)
Definition fits_string_50 (s : string) : Prop := (String.length s ≤ 50)%nat.

(** No order carries the number yet: [orders.order_number] has a unique
    index. *)
Definition order_number_free (st : Store) (order_number : string) : Prop :=
  ∀ k o, orders st !! k = Some o → o_order_number o ≠ order_number.

(** The [orders] table takes a new row with this order number, payment
    method and coupon code: the number is free, and the three fit their
    [String(50)] columns. *)
Definition order_row_accepted (st : Store) (order_number payment_method : string)
    (coupon_code : option string) : Prop :=
  order_number_free st order_number
  ∧ fits_string_50 order_number
  ∧ fits_string_50 payment_method
  ∧ ∀ code, coupon_code = Some code → fits_string_50 code.

(** The variation a line names, when it names one, exists:
    [variation_id] is a foreign key to [product_variations.id], in
    [cart_items] and in [order_items]. *)
Definition variation_known (st : Store) (variation_id : option Z) : Prop :=
  ∀ vid, variation_id = Some vid → is_Some (product_variations st !! vid).

(** ** Adding to a cart *)

Definition NotFound_product : exn :=
  CartError MsgProductNotFoundOrNotAvailable HTTP_404_NOT_FOUND.
Definition NotFound_variation : exn :=
  CartError MsgVariationNotFound HTTP_404_NOT_FOUND.
Definition LimitExceeded : exn :=
  CartError (MsgMaximumQuantity 10) HTTP_400_BAD_REQUEST.
Definition InsufficientStock (available : Z) : exn :=
  CartError (MsgInsufficientStockOnly available) HTTP_400_BAD_REQUEST.

(** The variation a request names: [variation_id] when it is given and
    truthy. *)
Definition named_variation (req : CartItemCreate) : option Z :=
  match ic_variation_id req with
  | Some vid => if bool_decide (vid = 0) then None else Some vid
  | None => None
  end.

(** The variation [vid] of product [pid], when there is one. *)
Definition variation_of (st : Store) (pid vid : Z) : option ProductVariation :=
  match product_variations st !! vid with
  | Some v => if bool_decide (v_product_id v = pid) then Some v else None
  | None => None
  end.

(** The line of the cart for the same product and variation. *)
Definition matching_line (st : Store) (cart_id : Z) (req : CartItemCreate)
    : option (nat * CartItem) :=
  list_find (CartService.same_line cart_id req) (cart_items st).

(** Existing quantity in the matching line plus the requested quantity. *)
Definition resulting_quantity (st : Store) (cart_id : Z) (req : CartItemCreate) : Z :=
  match matching_line st cart_id req with
  | Some (_, it) => ci_quantity it + ic_quantity req
  | None => ic_quantity req
  end.

(** Every cart line has a price to be counted at. *)
Definition lines_priced (st : Store) : Prop :=
  Forall (λ it, is_Some (line_price st it)) (cart_items st).

(** What a successful [add_item] leaves behind. *)
Definition added (st : Store) (cart_id : Z) (req : CartItemCreate) (p : Product)
    (c : Cart) (item : CartItem) (s' : Session) : Prop :=
  ci_cart_id item = cart_id
  ∧ ci_product_id item = ic_product_id req
  ∧ ci_variation_id item = ic_variation_id req
  ∧ ci_quantity item = resulting_quantity st cart_id req
  ∧ ci_unit_price item = Some (p_price p)
  ∧ cart_items (working s')
    = match matching_line st cart_id req with
      | Some (i, _) => <[i := item]> (cart_items st)
      | None => cart_items st ++ [item]
      end
  ∧ (∃ subtotal c',
       lines_total (working s') (items_of_cart (working s') cart_id) = Some subtotal
       ∧ carts (working s') !! cart_id = Some c'
       ∧ totals_as_computed subtotal c c')
  ∧ committed s' = working s'.

(** ** Reservation and release *)

(** The quantity an order holds of a product. *)
Fixpoint ordered_quantity (product_id : Z) (items : list OrderItem) : Z :=
  match items with
  | [] => 0
  | it :: rest =>
      (if bool_decide (oi_product_id it = Some product_id) then oi_quantity it else 0)
      + ordered_quantity product_id rest
  end.

(** The quantity the lines of a cart ask of a product. *)
Fixpoint requested_quantity (product_id : Z) (items : list CartItem) : Z :=
  match items with
  | [] => 0
  | it :: rest =>
      (if bool_decide (ci_product_id it = product_id) then ci_quantity it else 0)
      + requested_quantity product_id rest
  end.

(** The product and quantity an order item gives back on cancellation:
    nothing when its product no longer exists. *)
Definition released (st : Store) (it : OrderItem) : option (Z * Z) :=
  match oi_product_id it with
  | Some pid => if bool_decide (is_Some (products st !! pid))
                then Some (pid, oi_quantity it) else None
  | None => None
  end.

(** A ledger entry as (product, signed quantity). *)
Definition movement (l : InventoryLog) : Z * Z :=
  (l_product_id l, l_change_quantity l).

(** The tables that stock operations do not touch. *)
Definition same_other_tables (st st' : Store) : Prop :=
  product_variations st' = product_variations st
  ∧ addresses st' = addresses st
  ∧ carts st' = carts st
  ∧ cart_items st' = cart_items st
  ∧ orders st' = orders st
  ∧ order_status_history st' = order_status_history st.

(** Every product of [st] is in [st'] with its stock moved by [delta] and
    nothing else changed; no product appears or disappears. *)
Definition stocks_moved (delta : Z → Z) (st st' : Store) : Prop :=
  ∀ pid, products st' !! pid
         = (λ p, set_stock p (p_stock p + delta pid)) <$> products st !! pid.

(** ** Cancellation *)

Definition Forbidden : exn :=
  OrderError MsgOnlyCancelOwnOrders HTTP_403_FORBIDDEN.
Definition NotCancellable (status : string) : exn :=
  OrderError (MsgStatusCannotBeCancelled status) HTTP_400_BAD_REQUEST.
Definition WindowExpired : exn :=
  OrderError (MsgCancelWithinHours 24) HTTP_400_BAD_REQUEST.

(** A number of hours as a duration. *)
Definition hours (n : Z) : Z := n * 3600 * 1000000.

(** The statuses an order can be cancelled from. *)
Definition cancellable_status (status : string) : Prop :=
  status ∈ [OrderStatus.PENDING; OrderStatus.CONFIRMED; OrderStatus.PROCESSING].

(** The actor may act on the order: an admin, or its owner. *)
Definition may_act_on (order : Order) (user_id : Z) (is_admin : bool) : Prop :=
  is_admin = true ∨ o_user_id order = Some user_id.

(** The order once cancelled. *)
Definition cancelled_order (now : datetime) (user_id : Z) (reason : option string)
    (order : Order) : Order :=
  set_cancellation now user_id reason (set_order_status OrderStatus.CANCELLED order).

Definition cancellation_row (order_id : Z) (order : Order) (user_id : Z)
    (reason : option string) : OrderStatusHistory :=
  {| h_order_id := order_id; h_from_status := Some (o_status order);
     h_to_status := OrderStatus.CANCELLED; h_changed_by := Some user_id;
     h_notes := reason |}.

(** What a successful [cancel_order] leaves behind. *)
Definition cancelled (s : Session) (now : datetime) (order_id : Z) (order : Order)
    (user_id : Z) (reason : option string) (r : Z * Order) (s' : Session)
    (new_logs : list InventoryLog) : Prop :=
  let st := working s in
  let st' := working s' in
  let items := items_of_order st order_id in
  r = (order_id, cancelled_order now user_id reason order)
  ∧ committed s' = st'
  ∧ orders st' = <[order_id := cancelled_order now user_id reason order]> (orders st)
  ∧ order_status_history st'
    = order_status_history st ++ [cancellation_row order_id order user_id reason]
  ∧ order_items st' = order_items st
  ∧ carts st' = carts st ∧ cart_items st' = cart_items st
  ∧ stocks_moved (λ pid, ordered_quantity pid items) st st'
  ∧ inventory_logs st' = inventory_logs st ++ new_logs
  ∧ movement <$> new_logs = omap (released st) items.

(** ** Order creation *)

(** The quantity a list of (product, quantity) lines asks of a product. *)
Fixpoint lines_quantity (product_id : Z) (lines : list (Z * Z)) : Z :=
  match lines with
  | [] => 0
  | (pid, q) :: rest =>
      (if bool_decide (pid = product_id) then q else 0) + lines_quantity product_id rest
  end.

(** An order item as (order, product, quantity). *)
Definition item_key (oi : OrderItem) : Z * option Z * Z :=
  (oi_order_id oi, oi_product_id oi, oi_quantity oi).

(** What the reservation of a list of lines for order [order_id] leaves
    behind: one order item and one ledger entry per line, in order, and
    every stock lowered by what the lines ask of it; the products of the
    lines all exist. *)
Definition reservation_effects (order_id : Z) (lines : list (Z * Z))
    (st st' : Store) : Prop :=
  (∃ new_items,
       order_items st' = order_items st ++ new_items
       ∧ item_key <$> new_items = (λ l, (order_id, Some l.1, l.2)) <$> lines)
  ∧ (∃ new_logs,
       inventory_logs st' = inventory_logs st ++ new_logs
       ∧ movement <$> new_logs = (λ l, (l.1, - l.2)) <$> lines
       ∧ Forall (λ l, l_order_id l = Some order_id ∧ l_reason l = "order_placed") new_logs)
  ∧ stocks_moved (λ pid, - lines_quantity pid lines) st st'
  ∧ Forall (λ l, is_Some (products st !! l.1)) lines.

Definition lines_reserved (order_id : Z) (lines : list (Z * Z)) (st st' : Store) : Prop :=
  same_other_tables st st' ∧ reservation_effects order_id lines st st'.

Definition cart_line (ci : CartItem) : Z * Z := (ci_product_id ci, ci_quantity ci).
Definition guest_line (it : OrderItemCreate) : Z * Z :=
  (oic_product_id it, oic_quantity it).
Definition validated_line (it : ValidatedItem) : Z * Z :=
  (vi_product_id it, vi_quantity it).

Definition initial_row (order_id : Z) (changed_by : option Z) : OrderStatusHistory :=
  {| h_order_id := order_id; h_from_status := None;
     h_to_status := OrderStatus.PENDING; h_changed_by := changed_by;
     h_notes := None |}.

(** What a successful order creation leaves behind, all of it committed:
    the order row under a fresh key, in status PENDING; its initial history
    row; one order item, one stock decrement and one ledger entry per
    line. *)
Definition order_created (changed_by : option Z) (lines : list (Z * Z))
    (s : Session) (r : Z * Order) (s' : Session) : Prop :=
  let st := working s in
  let st' := working s' in
  committed s' = st'
  ∧ r.1 = next_id (orders st)
  ∧ orders st' = <[r.1 := r.2]> (orders st)
  ∧ o_status r.2 = OrderStatus.PENDING
  ∧ order_status_history st'
    = order_status_history st ++ [initial_row r.1 changed_by]
  ∧ reservation_effects r.1 lines st st'
  ∧ product_variations st' = product_variations st
  ∧ addresses st' = addresses st
  ∧ cart_items st' = cart_items st.

(** A failed attempt applied nothing: the database is as before, and the
    session either was not touched or was rolled back to the database. *)
Definition nothing_applied (s s' : Session) : Prop :=
  committed s' = committed s ∧ (s' = s ∨ working s' = committed s).

(** The outcome of an order creation: all or nothing. *)
Definition all_or_nothing {A} (created : A → Session → Prop) (s : Session)
    (outcome : result A * Session) : Prop :=
  match outcome with
  | (Ok r, s') => created r s'
  | (Raise _, s') => nothing_applied s s'
  end.

(** Every order item belongs to an order (the foreign key of
    [order_items.order_id]). *)
Definition no_dangling_items (st : Store) : Prop :=
  ∀ it, it ∈ order_items st → is_Some (orders st !! oi_order_id it).

(** The opposite movement of the same product. *)
Definition opposite (m : Z * Z) : Z * Z := (m.1, - m.2).

(** Creation in session [s] led to [s1], cancellation then led to [s2]:
    the products are back to what they were, in the session and in the
    database, and the ledger entries of the cancellation are those of the
    creation, one for one, with the opposite sign. *)
Definition reservation_undone (s s1 s2 : Session) : Prop :=
  products (working s2) = products (working s)
  ∧ products (committed s2) = products (working s)
  ∧ ∃ placed released,
      inventory_logs (working s1) = inventory_logs (working s) ++ placed
      ∧ inventory_logs (working s2) = inventory_logs (working s1) ++ released
      ∧ movement <$> released = opposite ∘ movement <$> placed.

(** The exceptions the [except] clauses of order creation raise. *)
Definition create_order_handler (e : exn) : exn :=
  OrderError (MsgFailedToCreateOrder (str_exn e)) HTTP_500_INTERNAL_SERVER_ERROR.
Definition create_guest_order_handler (e : exn) : exn :=
  OrderError (MsgFailedToCreateGuestOrder (str_exn e)) HTTP_500_INTERNAL_SERVER_ERROR.

(** What a successful [create_order_from_cart] leaves behind: the order
    created from the lines of the user's active cart, and that cart marked
    CONVERTED. *)
Definition cart_order_created (user_id : Z) (s : Session) (r : Z * Order)
    (s' : Session) : Prop :=
  ∃ cart_id cart,
    CartService.get_cart (Some user_id) None s = (Ok (Some (cart_id, cart)), s)
    ∧ order_created (Some user_id)
        (cart_line <$> items_of_cart (working s) cart_id) s r s'
    ∧ carts (working s')
      = alter (CartService.set_cart_status CartStatus.CONVERTED) cart_id
          (carts (working s)).

(** What a successful [create_guest_order] leaves behind. *)
Definition guest_order_created (order_data : GuestOrderCreate) (s : Session)
    (r : Z * Order) (s' : Session) : Prop :=
  order_created None (guest_line <$> g_items order_data) s r s'
  ∧ carts (working s') = carts (working s).

(** The sum of the movements of a product. *)
Fixpoint movements_sum (product_id : Z) (ms : list (Z * Z)) : Z :=
  match ms with
  | [] => 0
  | (pid, q) :: rest =>
      (if bool_decide (pid = product_id) then q else 0) + movements_sum product_id rest
  end.

(** The ledger is consistent in the database and through the session. *)
Definition session_consistent (baseline : Z → Z) (s : Session) : Prop :=
  ledger_consistent baseline (committed s) ∧ ledger_consistent baseline (working s).

(** ** Status updates *)

Definition transition_row (order_id : Z) (from to : string) (changed_by : option Z)
    (notes : option string) : OrderStatusHistory :=
  {| h_order_id := order_id; h_from_status := Some from; h_to_status := to;
     h_changed_by := changed_by; h_notes := notes |}.

(** The order after [update_order_status]: the new status, and the new
    notes when some are given. *)
Definition updated_order (new_status : string) (notes : option string)
    (order : Order) : Order :=
  set_admin_notes (if opt_str_truthy notes then notes else o_admin_notes order)
    (set_order_status new_status order).

(** [admin_notes] can be assigned: notes are given, or the attribute was
    assigned before on this instance. *)
Definition notes_assignable (order : Order) (notes : option string) : Prop :=
  opt_str_truthy notes = true ∨ is_Some (o_admin_notes order).

(** The statuses whose timestamp [update_order_status] assigns. *)
Definition timestamped (new_status : string) : Prop :=
  new_status ∈ [OrderStatus.SHIPPED; OrderStatus.DELIVERED].

(** The tables a status or payment update does not touch. *)
Definition only_orders_touched (st st' : Store) : Prop :=
  products st' = products st
  ∧ inventory_logs st' = inventory_logs st
  ∧ order_items st' = order_items st
  ∧ carts st' = carts st
  ∧ cart_items st' = cart_items st.

(** What a successful [update_order_status] leaves behind. *)
Definition status_updated (s : Session) (order_id : Z) (order : Order)
    (new_status : string) (admin_id : option Z) (notes : option string)
    (r : Z * Order) (s' : Session) : Prop :=
  let st := working s in
  let st' := working s' in
  r = (order_id, updated_order new_status notes order)
  ∧ committed s' = st'
  ∧ orders st' = <[order_id := updated_order new_status notes order]> (orders st)
  ∧ order_status_history st'
    = order_status_history st
      ++ [transition_row order_id (o_status order) new_status admin_id notes]
  ∧ only_orders_touched st st'.

(** ** Payment updates *)

(** The payment confirms the order: it is paid while the order is
    pending. *)
Definition confirms (payment_status : string) (order : Order) : Prop :=
  payment_status = PaymentStatus.PAID ∧ o_status order = OrderStatus.PENDING.

(** The order after [update_payment_status]. *)
Definition paid_order (payment_status : string) (order : Order) : Order :=
  if bool_decide (confirms payment_status order)
  then updated_order OrderStatus.CONFIRMED None
         (set_payment_status payment_status order)
  else set_payment_status payment_status order.

(** What a successful [update_payment_status] leaves behind: the payment
    status, and for a confirming payment the status CONFIRMED with its
    history row. *)
Definition payment_updated (s : Session) (order_id : Z) (order : Order)
    (payment_status : string) (admin_id : option Z)
    (r : Z * Order) (s' : Session) : Prop :=
  let st := working s in
  let st' := working s' in
  r = (order_id, paid_order payment_status order)
  ∧ committed s' = st'
  ∧ orders st' = <[order_id := paid_order payment_status order]> (orders st)
  ∧ order_status_history st'
    = order_status_history st
      ++ (if bool_decide (confirms payment_status order)
          then [transition_row order_id OrderStatus.PENDING OrderStatus.CONFIRMED
                  admin_id None]
          else [])
  ∧ only_orders_touched st st'.

(** ** The status history *)

(** The status changes recorded for an order, oldest first. *)
Definition status_trail (st : Store) (order_id : Z) : list OrderStatusHistory :=
  filter (λ h, h_order_id h = order_id) (order_status_history st).

(** Following a trail of status changes from a status ([None]: the order
    did not exist yet): the status it leads to, when every row starts
    where the row before it ended. *)
Fixpoint follow (from : option string) (trail : list OrderStatusHistory)
    : option (option string) :=
  match trail with
  | [] => Some from
  | h :: rest =>
      if bool_decide (h_from_status h = from)
      then follow (Some (h_to_status h)) rest else None
  end.

(** The history is an unbroken chain: every row belongs to an order, and
    the rows of an order lead from its creation to its current status. *)
Definition history_tracks_status (st : Store) : Prop :=
  (∀ h, h ∈ order_status_history st → is_Some (orders st !! h_order_id h))
  ∧ ∀ order_id o,
      orders st !! order_id = Some o →
      follow None (status_trail st order_id) = Some (Some (o_status o)).

(** ** Stock never goes below zero *)

Definition stocks_nonneg (st : Store) : Prop :=
  ∀ pid p, products st !! pid = Some p → 0 ≤ p_stock p.

(** No stock is negative, in the database and through the session. *)
Definition session_nonneg (s : Session) : Prop :=
  stocks_nonneg (committed s) ∧ stocks_nonneg (working s).

(** ** Clearing a cart, its summary, promo codes *)

(** What [clear_cart] leaves behind. *)
Definition cart_cleared (s : Session) (cart_id : Z) (c : Cart) (s' : Session) : Prop :=
  let st := working s in
  let st' := working s' in
  committed s' = st'
  ∧ items_of_cart st' cart_id = []
  ∧ (∀ other, other ≠ cart_id → items_of_cart st' other = items_of_cart st other)
  ∧ carts st' = <[cart_id := CartService.clear_totals c]> (carts st)
  ∧ products st' = products st
  ∧ orders st' = orders st
  ∧ order_items st' = order_items st
  ∧ inventory_logs st' = inventory_logs st.

(** The numbers of a summary add up. *)
Definition summary_adds_up (sm : CartSummary) : Prop :=
  cs_total sm
  = (cs_subtotal sm + cs_tax_amount sm + cs_shipping_estimate sm
     - cs_discount_amount sm)%Qc.

(** ** What happens once *)

Definition CartIsEmpty : exn := OrderError MsgCartIsEmpty HTTP_400_BAD_REQUEST.

(** The user has no other active cart than [cart_id]. *)
Definition only_active_cart (st : Store) (user_id cart_id : Z) : Prop :=
  ∀ k c, carts st !! k = Some c →
         c_user_id c = Some user_id → c_status c = CartStatus.ACTIVE → k = cart_id.

(** ** Checkout *)

(** The line can be ordered: its product exists, is active, and has the
    quantity in stock (in the stock of the variation when the line names
    one that tracks its own). *)
Definition line_available (st : Store) (it : CartItem) : Prop :=
  ∃ p, products st !! ci_product_id it = Some p
       ∧ p_is_active p = true
       ∧ ci_quantity it ≤ stock_of_product p (CartService.tracked_variation st it).

(** The conditions under which a list of lines can be reserved one after
    the other: no negative quantity, every product there, and of every
    product at least as much in stock as the lines ask of it in all (for a
    product no line asks for: a stock that is not negative). *)
Definition lines_in_stock (st : Store) (lines : list (Z * Z)) : Prop :=
  Forall (λ l, 0 ≤ l.2 ∧ is_Some (products st !! l.1)) lines
  ∧ ∀ pid p, products st !! pid = Some p → lines_quantity pid lines ≤ p_stock p.

(** The address exists and belongs to the user. *)
Definition own_address (st : Store) (user_id address_id : Z) : Prop :=
  ∃ a, addresses st !! address_id = Some a ∧ a_user_id a = user_id.

(** The product of a guest order line exists and is active. *)
Definition product_on_sale (st : Store) (it : OrderItemCreate) : Prop :=
  ∃ p, products st !! oic_product_id it = Some p ∧ p_is_active p = true.

(** ** What an order is made of *)

(** The order item made from a cart line: its product, variation and
    quantity, at the price the line is counted at. *)
Definition item_of_line (st : Store) (order_id : Z) (ci : CartItem) (oi : OrderItem)
    : Prop :=
  oi_order_id oi = order_id
  ∧ oi_product_id oi = Some (ci_product_id ci)
  ∧ oi_variation_id oi = ci_variation_id ci
  ∧ oi_quantity oi = ci_quantity ci
  ∧ line_price st ci = Some (oi_price oi).

(** The order item made from a line of a guest order: at the current
    price of the product. *)
Definition item_of_guest_line (st : Store) (order_id : Z) (it : OrderItemCreate)
    (oi : OrderItem) : Prop :=
  oi_order_id oi = order_id
  ∧ oi_product_id oi = Some (oic_product_id it)
  ∧ oi_variation_id oi = oic_variation_id it
  ∧ oi_quantity oi = oic_quantity it
  ∧ p_price <$> products st !! oic_product_id it = Some (oi_price oi).

(** The amounts of an order follow from its subtotal ([Order.subtotal]):
    18% tax, the flat shipping fee below the threshold, no discount, each
    amount as its [Numeric(12, 2)] column keeps it, the total from the tax
    before rounding. *)
Definition order_amounts_consistent (st : Store) (order_id : Z) (o : Order) : Prop :=
  let subtotal := order_subtotal st order_id o in
  let tax := (subtotal * dec_ratio 18 100)%Qc in
  o_tax_amount o = numeric_12_2 tax
  ∧ o_shipping_cost o
    = (if bool_decide (subtotal < dec 50000)%Qc then dec 5000 else dec 0)
  ∧ o_discount_amount o = dec 0
  ∧ o_total_amount o = numeric_12_2 (subtotal + tax + o_shipping_cost o).

(** The sum [Order.subtotal] takes over the items. *)
Definition items_subtotal (acc : Decimal) (items : list OrderItem) : Decimal :=
  foldl (λ acc it, acc + oi_price it * dec (oi_quantity it))%Qc acc items.

(** The order item [create_guest_order] makes from a validated line. *)
Definition guest_item (order_id : Z) (vi : ValidatedItem) : OrderItem :=
  {| oi_order_id := order_id; oi_product_id := Some (vi_product_id vi);
     oi_variation_id := vi_variation_id vi; oi_quantity := vi_quantity vi;
     oi_price := vi_price vi |}.

(** ** Paging through the orders of a user *)

(** The order is one [get_user_orders] lists: of the user, and in the
    status asked for when a filter is given. *)
Definition listed (st : Store) (user_id : Z) (status_filter : option string)
    (kv : Z * Order) : Prop :=
  orders st !! kv.1 = Some kv.2
  ∧ o_user_id kv.2 = Some user_id
  ∧ (opt_str_truthy status_filter = true → Some (o_status kv.2) = status_filter).

(** The items of the first [n] pages, one page after the other. *)
Definition first_pages (st : Store) (user_id : Z) (page_size : positive)
    (status_filter : option string) (n : nat) : list OrderSummary :=
  concat ((λ i, lr_items (OrderService.list_user_orders st user_id
                            (Pos.of_succ_nat i) page_size status_filter))
          <$> seq 0 n).

(** ** The inventory service *)

(** What a reservation of [quantity] followed by its release leaves
    behind: the products as they were, and two ledger entries that cancel
    out. *)
Definition reserved_and_released (s : Session) (product_id quantity : Z)
    (p : Product) (reserved : Product) (s1 : Session) (released : Product)
    (s2 : Session) : Prop :=
  p_stock reserved = p_stock p - quantity
  ∧ products (committed s1) !! product_id = Some reserved
  ∧ released = p
  ∧ products (committed s2) = products (working s)
  ∧ committed s2 = working s2
  ∧ ∃ l1 l2,
      inventory_logs (committed s2) = inventory_logs (working s) ++ [l1; l2]
      ∧ movement l1 = (product_id, - quantity)
      ∧ movement l2 = (product_id, quantity)
      ∧ l_new_stock l1 = p_stock p - quantity
      ∧ l_new_stock l2 = p_stock p.

(** ** Looking an order up *)

Definition OrderNotFound : exn := OrderError MsgOrderNotFound HTTP_404_NOT_FOUND.

(** ** Orders that are refused *)

(** The line of a guest order passes the validation: its product exists,
    is active, and has the quantity in stock. *)
Definition line_orderable (st : Store) (it : OrderItemCreate) : Prop :=
  ∃ p, products st !! oic_product_id it = Some p
       ∧ p_is_active p = true
       ∧ oic_quantity it ≤ p_stock p.

(** The lines ask more of a product than it has in stock. *)
Definition oversold (st : Store) (lines : list (Z * Z)) : Prop :=
  ∃ pid p, products st !! pid = Some p ∧ p_stock p < lines_quantity pid lines.

(** The attempt was rolled back: database and session are as the database
    was. *)
Definition rolled_back (s s' : Session) : Prop :=
  committed s' = committed s ∧ working s' = committed s.

(** The error of a reservation that finds too little in stock. *)
Definition InsufficientStockFor (product_name : string) : exn :=
  OrderError (MsgInsufficientStockFor product_name) HTTP_400_BAD_REQUEST.

(** ** One order after the other *)

(** Guest orders placed one after the other in the same session, each at
    its time and under its order number: how many were accepted, and the
    session they leave. *)
Fixpoint guest_orders_in_turn (order_data : GuestOrderCreate)
    (tickets : list (datetime * string)) (s : Session) : nat * Session :=
  match tickets with
  | [] => (0%nat, s)
  | (now, order_number) :: rest =>
      match OrderService.create_guest_order now order_number order_data s with
      | (Ok _, s') =>
          let (accepted, s'') := guest_orders_in_turn order_data rest s' in
          (S accepted, s'')
      | (Raise _, s') => guest_orders_in_turn order_data rest s'
      end
  end.

(** A guest order of one unit of a product. *)
Definition one_unit_of (product_id : Z) (order_data : GuestOrderCreate) : Prop :=
  ∃ variation_id,
    g_items order_data
    = [{| oic_product_id := product_id; oic_variation_id := variation_id;
          oic_quantity := 1 |}].

(** ** Where the status machine leads *)

(** [to] is reached from [from] by transitions [update_order_status]
    accepts. *)
Inductive reachable : string → string → Prop :=
| reachable_refl status : reachable status status
| reachable_step from mid to :
    mid ∈ OrderService._get_valid_status_transitions from →
    reachable mid to →
    reachable from to.

(** The statuses of an order that has left the warehouse. *)
Definition dispatched (status : string) : Prop :=
  status ∈ [OrderStatus.SHIPPED; OrderStatus.OUT_FOR_DELIVERY;
            OrderStatus.DELIVERED; OrderStatus.REFUNDED].

(** ** The limit on a cart line *)

(** No cart line holds more than [MAX_QUANTITY_PER_ITEM] units. *)
Definition lines_within_limit (st : Store) : Prop :=
  Forall (λ it, ci_quantity it ≤ CartService.MAX_QUANTITY_PER_ITEM) (cart_items st).

Definition session_within_limit (s : Session) : Prop :=
  lines_within_limit (committed s) ∧ lines_within_limit (working s).

(** ** A checkout that is refused *)

(** The issues the validation finds in the lines. *)
Definition issues_of (st : Store) (items : list CartItem) : list issue :=
  concat (map (CartService.issues_of_item st) items).

Definition CheckoutIssues (issues : list issue) : exn :=
  OrderError (MsgIssues issues) HTTP_400_BAD_REQUEST.

Definition AddressNotFound : exn :=
  OrderError MsgShippingAddressNotFound HTTP_404_NOT_FOUND.

(** ** Example data *)

Definition widget : Product :=
  {| p_name := "Widget"; p_price := dec 100; p_stock := 5; p_is_active := true |}.

Definition empty_store : Store :=
  {| products := ∅; product_variations := ∅; addresses := ∅; carts := ∅;
     cart_items := []; orders := ∅; order_items := [];
     order_status_history := []; inventory_logs := [] |}.

Definition widget_store : Store := with_products <[1 := widget]> empty_store.

Definition widget_line : CartItem :=
  {| ci_cart_id := 1; ci_user_id := Some 7; ci_product_id := 1;
     ci_variation_id := None; ci_quantity := 2; ci_unit_price := Some (dec 100) |}.

Definition widget_order (status : string) (created_at : datetime) : Order :=
  {| o_user_id := Some 7; o_address_id := Some 3; o_order_number := "ORD-1";
     o_total_amount := dec 5236; o_shipping_cost := dec 5000;
     o_tax_amount := dec 36; o_discount_amount := dec 0; o_coupon_code := None;
     o_payment_method := "cod"; o_payment_status := PaymentStatus.PENDING;
     o_status := status; o_notes := None; o_created_at := created_at;
     o_admin_notes := None; o_cancelled_at := None; o_cancelled_by := None;
     o_cancellation_reason := None |}.

Definition widget_order_item : OrderItem :=
  {| oi_order_id := 1; oi_product_id := Some 1; oi_variation_id := None;
     oi_quantity := 2; oi_price := dec 100 |}.

(** A store holding order 1 (two widgets, already reserved: stock 3). *)
Definition ordered_store (status : string) (created_at : datetime) : Store :=
  with_order_items (λ _, [widget_order_item])
    (with_orders <[1 := widget_order status created_at]>
       (with_products <[1 := set_stock widget 3]> empty_store)).

Definition widget_cart (discount : Decimal) : Cart :=
  {| c_user_id := Some 7; c_session_id := None; c_status := CartStatus.ACTIVE;
     c_subtotal := dec 0; c_tax_amount := dec 0; c_discount_amount := discount;
     c_total := dec 0; c_promo_code := None |}.

(** Cart 1 of user 7, without lines. *)
Definition empty_cart_store : Store :=
  with_carts <[1 := widget_cart (dec 0)]> widget_store.

(** Cart 1 of user 7 with two widgets and a stored discount. *)
Definition cart_store (discount : Decimal) : Store :=
  with_cart_items (λ _, [widget_line])
    (with_carts <[1 := widget_cart discount]> widget_store).

(** Two widgets put in the cart when the widget was free. *)
Definition free_line : CartItem :=
  {| ci_cart_id := 1; ci_user_id := Some 7; ci_product_id := 1;
     ci_variation_id := None; ci_quantity := 2; ci_unit_price := Some (dec 0) |}.

(** Cart 1 with that line; the widget now costs 100. *)
Definition repriced_store : Store :=
  with_cart_items (λ _, [free_line])
    (with_carts <[1 := widget_cart (dec 0)]> widget_store).


Definition add_two_widgets : CartItemCreate :=
  {| ic_product_id := 1; ic_variation_id := None; ic_quantity := 2 |}.

Definition add_eleven_widgets : CartItemCreate :=
  {| ic_product_id := 1; ic_variation_id := None; ic_quantity := 11 |}.

(** Order 1 again, with a second item whose product (2) does not exist. *)
Definition orphan_order_item : OrderItem :=
  {| oi_order_id := 1; oi_product_id := Some 2; oi_variation_id := None;
     oi_quantity := 4; oi_price := dec 30 |}.

Definition orphan_store : Store :=
  with_order_items (λ l, l ++ [orphan_order_item])
    (ordered_store OrderStatus.CONFIRMED 0).

(** User 7 at checkout: cart 1 with two widgets, address 3. *)
Definition checkout_store : Store :=
  with_addresses <[3 := {| a_user_id := 7 |}]> (cart_store (dec 0)).

Definition checkout_data : OrderFromCart :=
  {| oc_address_id := 3; oc_payment_method := "cod"; oc_notes := None;
     oc_promo_code := None |}.

(** The same cart with a second line: four widgets in variation 5, which
    tracks its own stock (10) while the product has 5 in all. *)
Definition large_line : CartItem :=
  {| ci_cart_id := 1; ci_user_id := Some 7; ci_product_id := 1;
     ci_variation_id := Some 5; ci_quantity := 4; ci_unit_price := Some (dec 100) |}.

Definition overbooked_store : Store :=
  with_cart_items (λ l, l ++ [large_line])
    (with_variations <[5 := {| v_product_id := 1; v_stock := Some 10 |}]>
       checkout_store).

(** The value of a result, for examples. *)
Definition ok_or {A} (d : A) (r : result A) : A :=
  match r with
  | Ok a => a
  | Raise _ => d
  end.

(** Order 1 with the history row of its creation. *)
Definition tracked_store : Store :=
  with_history (λ _, [initial_row 1 (Some 7)]) (ordered_store OrderStatus.PENDING 0).

(** A guest order of two lines of three widgets each (five in stock). *)
Definition twice_three_widgets : GuestOrderCreate :=
  {| g_guest_name := "Ann"; g_guest_email := "ann@example.org";
     g_guest_phone := "12345";
     g_items := [{| oic_product_id := 1; oic_variation_id := None;
                    oic_quantity := 3 |};
                 {| oic_product_id := 1; oic_variation_id := None;
                    oic_quantity := 3 |}];
     g_payment_method := "cod" |}.

(** A guest order of a widget and of product 2, which does not exist. *)
Definition widget_and_unknown : GuestOrderCreate :=
  {| g_guest_name := "Ann"; g_guest_email := "ann@example.org";
     g_guest_phone := "12345";
     g_items := [{| oic_product_id := 1; oic_variation_id := None;
                    oic_quantity := 1 |};
                 {| oic_product_id := 2; oic_variation_id := None;
                    oic_quantity := 1 |}];
     g_payment_method := "cod" |}.

(** A guest order of one widget. *)
Definition one_widget : GuestOrderCreate :=
  {| g_guest_name := "Ann"; g_guest_email := "ann@example.org";
     g_guest_phone := "12345";
     g_items := [{| oic_product_id := 1; oic_variation_id := None;
                    oic_quantity := 1 |}];
     g_payment_method := "cod" |}.

(** Cart 1 with one widget at 99.99. *)
Definition odd_price_store : Store :=
  with_cart_items
    (λ _, [{| ci_cart_id := 1; ci_user_id := Some 7; ci_product_id := 1;
              ci_variation_id := None; ci_quantity := 1;
              ci_unit_price := Some (dec_ratio 9999 100) |}])
    (with_carts <[1 := widget_cart (dec 0)]>
       (with_products
          <[1 := {| p_name := "Widget"; p_price := dec_ratio 9999 100;
                    p_stock := 5; p_is_active := true |}]> empty_store)).

(** The last widget: one in stock, and one in the cart of user 7 (cart 1,
    address 3) as in the cart of user 8 (cart 2, address 4). *)
Definition last_unit_store : Store :=
  {| products := <[1 := set_stock widget 1]> ∅;
     product_variations := ∅;
     addresses := <[3 := {| a_user_id := 7 |}]> (<[4 := {| a_user_id := 8 |}]> ∅);
     carts :=
       <[1 := widget_cart (dec 0)]>
         (<[2 := {| c_user_id := Some 8; c_session_id := None;
                    c_status := CartStatus.ACTIVE;
                    c_subtotal := dec 0; c_tax_amount := dec 0;
                    c_discount_amount := dec 0; c_total := dec 0;
                    c_promo_code := None |}]> ∅);
     cart_items :=
       [{| ci_cart_id := 1; ci_user_id := Some 7; ci_product_id := 1;
           ci_variation_id := None; ci_quantity := 1;
           ci_unit_price := Some (dec 100) |};
        {| ci_cart_id := 2; ci_user_id := Some 8; ci_product_id := 1;
           ci_variation_id := None; ci_quantity := 1;
           ci_unit_price := Some (dec 100) |}];
     orders := ∅; order_items := []; order_status_history := [];
     inventory_logs := [] |}.

(** The checkout of user 8, to address 4. *)
Definition checkout_data_8 : OrderFromCart :=
  {| oc_address_id := 4; oc_payment_method := "cod"; oc_notes := None;
     oc_promo_code := None |}.



(** ** Proof automation *)

(** Enter [cancel_order] with the order found. *)
Ltac cancel_order_start Horder :=
  unfold OrderService.cancel_order; unfold bind at 1, get_db at 1;
  cbv beta iota; rewrite Horder.

(** * Properties: proofs *)

(** ** Running the monad *)

Lemma bind_ok {A B} (m : M A) (k : A → M B) s a s' :
  m s = (Ok a, s') → bind m k s = k a s'.
Proof. intros H. unfold bind. by rewrite H. Qed.

(** ** The ledger *)

Lemma ledger_sum_app product_id l1 l2 :
  ledger_sum product_id (l1 ++ l2)
  = ledger_sum product_id l1 + ledger_sum product_id l2.
Proof. induction l1 as [|l l1 IH]; simpl; [done | rewrite IH; lia]. Qed.

Lemma ledger_sum_snoc product_id logs l :
  ledger_sum product_id (logs ++ [l])
  = ledger_sum product_id logs
    + (if bool_decide (l_product_id l = product_id) then l_change_quantity l else 0).
Proof. rewrite ledger_sum_app. simpl. lia. Qed.

(** One stock change together with its ledger entry keeps the ledger
    consistent. *)
Lemma stock_change_consistent baseline st product_id p l :
  ledger_consistent baseline st →
  products st !! product_id = Some p →
  l_product_id l = product_id →
  ledger_consistent baseline
    (db_add_log l
       (with_products <[product_id := set_stock p (p_stock p + l_change_quantity l)]> st)).
Proof.
  intros Hinv Hp Hl q pq. simpl. rewrite ledger_sum_snoc, Hl.
  destruct (decide (product_id = q)) as [->|Hne].
  - rewrite lookup_insert_eq. intros [= <-]. simpl.
    rewrite bool_decide_eq_true_2 by done. rewrite (Hinv q p Hp). lia.
  - rewrite lookup_insert_ne by done. intros Hq.
    rewrite bool_decide_eq_false_2 by done. rewrite (Hinv q pq Hq). lia.
Qed.

Lemma stock_change_entry st product_id p l :
  l_product_id l = product_id →
  l_new_stock l = p_stock p + l_change_quantity l →
  entry_agrees_with_stock st
    (db_add_log l
       (with_products <[product_id := set_stock p (p_stock p + l_change_quantity l)]> st)).
Proof.
  intros Hl Hn. right. exists l, (set_stock p (p_stock p + l_change_quantity l)).
  simpl. rewrite Hl, lookup_insert_eq. done.
Qed.

(** C1. Ledger consistency: every completed stock mutation (reservation
    at order creation, release at cancellation, manual adjustment, and the
    inventory service's own reservation and release) keeps
    [stock = baseline + Σ change_quantity] for every product, and the entry
    it writes records the stock its product has right after the
    operation. *)
Theorem ledger_consistency_preserved baseline (m : stock_mutation) s s' :
  ledger_consistent baseline (working s) →
  run_mutation m s = (Ok tt, s') →
  ledger_consistent baseline (working s')
  ∧ entry_agrees_with_stock (working s) (working s').
Proof.
  intros Hinv Hrun. destruct s as [cm st]. simpl in Hinv.
  destruct m as [cart_item oid | pid q oid | pid q oid | pid chg reason adm
                 | pid q oid | pid q oid];
    cbn in Hrun.
  - (* reservation of a cart line *)
    unfold OrderService._reserve_stock, bind, get_db in Hrun; cbn in Hrun.
    destruct (products st !! ci_product_id cart_item) as [p|] eqn:Hp; [|done].
    destruct (p_stock p <? ci_quantity cart_item); [done|].
    cbn in Hrun. injection Hrun as <-. cbn.
    replace (p_stock p - ci_quantity cart_item)
      with (p_stock p + - ci_quantity cart_item) by lia.
    split.
    + by apply (stock_change_consistent baseline st _ p
                  {| l_change_quantity := - ci_quantity cart_item |}).
    + by apply (stock_change_entry st _ p
                  {| l_change_quantity := - ci_quantity cart_item |}).
  - (* reservation for a guest order *)
    unfold OrderService._reserve_stock_direct, bind, get_db in Hrun; cbn in Hrun.
    destruct (products st !! pid) as [p|] eqn:Hp; [|done].
    destruct (p_stock p <? q); [done|].
    cbn in Hrun. injection Hrun as <-. cbn.
    replace (p_stock p - q) with (p_stock p + - q) by lia.
    split.
    + by apply (stock_change_consistent baseline st _ p {| l_change_quantity := - q |}).
    + by apply (stock_change_entry st _ p {| l_change_quantity := - q |}).
  - (* release *)
    unfold OrderService._release_stock, bind, get_db in Hrun; cbn in Hrun.
    destruct pid as [pid|]; cbn in Hrun.
    + destruct (products st !! pid) as [p|] eqn:Hp; cbn in Hrun.
      * injection Hrun as <-. cbn. split.
        -- by apply (stock_change_consistent baseline st _ p {| l_change_quantity := q |}).
        -- by apply (stock_change_entry st _ p {| l_change_quantity := q |}).
      * injection Hrun as <-. split; [done | by left].
    + injection Hrun as <-. split; [done | by left].
  - (* manual adjustment *)
    unfold InventoryService.update_stock, bind, get_db in Hrun; cbn in Hrun.
    destruct (products st !! pid) as [p|] eqn:Hp; [|done].
    destruct (p_stock p + chg <? 0); [done|].
    cbn in Hrun. injection Hrun as <-. cbn. split.
    + by apply (stock_change_consistent baseline st _ p {| l_change_quantity := chg |}).
    + by apply (stock_change_entry st _ p {| l_change_quantity := chg |}).
  - (* reservation by the inventory service *)
    unfold InventoryService.reserve_stock, bind, get_db in Hrun; cbn in Hrun.
    destruct (products st !! pid) as [p|] eqn:Hp; [|done].
    destruct (p_stock p <? q); [done|].
    cbn in Hrun. injection Hrun as <-. cbn.
    replace (p_stock p - q) with (p_stock p + - q) by lia.
    split.
    + by apply (stock_change_consistent baseline st _ p {| l_change_quantity := - q |}).
    + by apply (stock_change_entry st _ p {| l_change_quantity := - q |}).
  - (* release by the inventory service *)
    unfold InventoryService.release_stock, bind, get_db in Hrun; cbn in Hrun.
    destruct (products st !! pid) as [p|] eqn:Hp; [|done].
    cbn in Hrun. injection Hrun as <-. cbn. split.
    + by apply (stock_change_consistent baseline st _ p {| l_change_quantity := q |}).
    + by apply (stock_change_entry st _ p {| l_change_quantity := q |}).
Qed.

Lemma widget_store_consistent : ledger_consistent (λ _, 5) widget_store.
Proof.
  intros pid p. unfold widget_store. simpl.
  rewrite lookup_insert. case_decide; [|by rewrite lookup_empty].
  by intros [= <-].
Qed.

Lemma ledger_consistency_preserved_witness :
  let s := clean_session widget_store in
  let m := Reserve widget_line 1 in
  ledger_consistent (λ _, 5) (working (run_mutation m s).2)
  ∧ entry_agrees_with_stock (working s) (working (run_mutation m s).2).
Proof.
  intros s m.
  apply (ledger_consistency_preserved (λ _, 5) m s (run_mutation m s).2).
  - exact widget_store_consistent.
  - reflexivity.
Defined.

(** ** The order status machine *)

(** Every transition the code accepts is in the table of the
    specification ... *)
Lemma valid_transition_in_table from to :
  to ∈ OrderService._get_valid_status_transitions from →
  (from, to) ∈ spec_transition_table.
Proof.
  unfold OrderService._get_valid_status_transitions, OrderService.transitions.
  simpl. repeat case_bool_decide; subst; intros Hin;
    repeat (apply elem_of_cons in Hin; destruct Hin as [->|Hin]);
    try (by apply elem_of_nil in Hin);
    apply (bool_decide_unpack _); vm_compute; exact I.
Qed.

(** ... and conversely. *)
Lemma table_transition_valid from to :
  (from, to) ∈ spec_transition_table →
  to ∈ OrderService._get_valid_status_transitions from.
Proof.
  unfold spec_transition_table. intros H.
  repeat (apply elem_of_cons in H; destruct H as [[= -> ->]|H];
          [apply (bool_decide_unpack _); vm_compute; exact I|]).
  by apply elem_of_nil in H.
Qed.

(** C2. Transition table completeness: for an existing order in status
    [from], [update_order_status] with a [to] such that (from, to) is not in
    the table fails with InvalidTransition and leaves the whole session,
    committed and pending rows alike, as it was: status, timestamps and
    status history are untouched. *)
Theorem transition_table_completeness s order_id order new_status admin_id notes :
  orders (working s) !! order_id = Some order →
  (o_status order, new_status) ∉ spec_transition_table →
  OrderService.update_order_status order_id new_status admin_id notes s
  = (Raise (InvalidTransition (o_status order) new_status), s).
Proof.
  intros Horder Hnot.
  unfold OrderService.update_order_status, bind, get_db. cbn. rewrite Horder.
  rewrite bool_decide_eq_false_2; [done|].
  intros Hin. by apply Hnot, valid_transition_in_table.
Qed.

Lemma transition_table_completeness_witness :
  let s := clean_session (ordered_store OrderStatus.PENDING 0) in
  OrderService.update_order_status 1 OrderStatus.DELIVERED (Some 99) None s
  = (Raise (InvalidTransition OrderStatus.PENDING OrderStatus.DELIVERED), s).
Proof.
  intros s.
  apply (transition_table_completeness s 1 (widget_order OrderStatus.PENDING 0)).
  - reflexivity.
  - apply (bool_decide_unpack _). vm_compute. exact I.
Defined.

(** ** Totals *)

Lemma dec_0 : dec 0 = 0%Qc.
Proof. apply Qc_is_canon. reflexivity. Qed.

Lemma dec_or_zero_id d : dec_or_zero d = d.
Proof.
  unfold dec_or_zero, dec_truthy. case_bool_decide; simpl; congruence.
Qed.

Lemma line_price_ok st it p :
  line_price st it = Some p → unit_price_or_product_price st it = Ok p.
Proof.
  unfold line_price, unit_price_or_product_price, dec_truthy.
  destruct (ci_unit_price it) as [x|]; [case_bool_decide; simpl|];
    destruct (products st !! ci_product_id it); simpl; congruence.
Qed.

Lemma lines_total_cons st it rest t :
  lines_total st (it :: rest) = Some t →
  ∃ p t', line_price st it = Some p ∧ lines_total st rest = Some t'
          ∧ t = (p * dec (ci_quantity it) + t')%Qc.
Proof.
  simpl. destruct (line_price st it) as [p|]; [|done].
  destruct (lines_total st rest) as [t'|]; [|done].
  intros [= <-]. eauto.
Qed.

(** The accumulating loops compute the sum over the lines. *)
Lemma cart_sum_items_total st items acc t :
  lines_total st items = Some t →
  CartService.sum_items st items acc = Ok (acc + t)%Qc.
Proof.
  revert acc t. induction items as [|it rest IH]; intros acc t Ht.
  - injection Ht as <-. simpl. f_equal. rewrite dec_0. ring.
  - apply lines_total_cons in Ht as (p & t' & Hp & Ht' & ->).
    simpl. rewrite (line_price_ok _ _ _ Hp), (IH _ _ Ht'). f_equal. ring.
Qed.

Lemma order_sum_items_total st items acc t :
  lines_total st items = Some t →
  OrderService.sum_items st items acc = Ok (acc + t)%Qc.
Proof.
  revert acc t. induction items as [|it rest IH]; intros acc t Ht.
  - injection Ht as <-. simpl. f_equal. rewrite dec_0. ring.
  - apply lines_total_cons in Ht as (p & t' & Hp & Ht' & ->).
    simpl. rewrite (line_price_ok _ _ _ Hp), (IH _ _ Ht'). f_equal. ring.
Qed.

Lemma dec_0_plus t : (dec 0 + t)%Qc = t.
Proof. rewrite dec_0. ring. Qed.

(** ** Rounding to two decimals *)

Lemma Qfloor_shift (k : Z) (y : Q) : Qfloor (inject_Z k + y) = k + Qfloor y.
Proof.
  pose proof (Qfloor_le y) as H1. pose proof (Qlt_floor y) as H2.
  pose proof (Qfloor_le (inject_Z k + y)) as H3.
  pose proof (Qlt_floor (inject_Z k + y)) as H4.
  rewrite inject_Z_plus in H2, H4. change (inject_Z 1) with 1%Q in *.
  assert (Hlt : (inject_Z (Qfloor (inject_Z k + y)) < inject_Z (k + Qfloor y) + 1)%Q)
    by (rewrite inject_Z_plus; lra).
  assert (Hgt : (inject_Z (k + Qfloor y) < inject_Z (Qfloor (inject_Z k + y)) + 1)%Q)
    by (rewrite inject_Z_plus; lra).
  assert (Qfloor (inject_Z k + y) < k + Qfloor y + 1).
  { rewrite Zlt_Qlt, inject_Z_plus. exact Hlt. }
  assert (k + Qfloor y < Qfloor (inject_Z k + y) + 1).
  { rewrite Zlt_Qlt, (inject_Z_plus (Qfloor _)). exact Hgt. }
  lia.
Qed.

Lemma round_half_away_comp x y : (x == y)%Q → round_half_away x = round_half_away y.
Proof.
  intros H. unfold round_half_away.
  assert (Qle_bool 0 x = Qle_bool 0 y) as ->.
  { apply eq_true_iff_eq. rewrite !Qle_bool_iff. by rewrite H. }
  destruct (Qle_bool 0 y); [|f_equal]; apply Qfloor_comp; by rewrite H.
Qed.

(** Rounding commutes with adding an integer, as long as the sign does
    not change. *)
Lemma round_half_away_shift (k : Z) (y : Q) :
  (0 <= y)%Q → (0 <= inject_Z k + y)%Q →
  round_half_away (inject_Z k + y) = k + round_half_away y.
Proof.
  intros Hy Hky. unfold round_half_away.
  rewrite (proj2 (Qle_bool_iff 0 y) Hy), (proj2 (Qle_bool_iff 0 _) Hky).
  rewrite <- Qfloor_shift. apply Qfloor_comp. ring.
Qed.

Lemma round_half_away_Z (k : Z) : round_half_away (inject_Z k) = k.
Proof.
  unfold round_half_away. destruct (Qle_bool 0 (inject_Z k)).
  - rewrite Qfloor_shift. change (Qfloor (1 # 2)) with 0. lia.
  - rewrite (Qfloor_comp _ (inject_Z (- k) + (1 # 2))).
    + rewrite Qfloor_shift. change (Qfloor (1 # 2)) with 0. lia.
    + rewrite inject_Z_opp. reflexivity.
Qed.

Lemma dec_ratio_plus k m :
  (dec_ratio k 100 + dec_ratio m 100)%Qc = dec_ratio (k + m) 100.
Proof.
  apply Qc_is_canon. unfold dec_ratio. cbn -[Qred Qplus].
  rewrite !Qred_correct. unfold Qeq. cbn. lia.
Qed.

Lemma dec_hundredths z : dec z = dec_ratio (100 * z) 100.
Proof.
  apply Qc_is_canon. unfold dec, dec_ratio. cbn -[Qred].
  rewrite !Qred_correct. unfold Qeq. cbn. lia.
Qed.

Lemma two_decimals_dec z : two_decimals (dec z).
Proof. exists (100 * z). apply dec_hundredths. Qed.

Lemma two_decimals_plus x y : two_decimals x → two_decimals y → two_decimals (x + y).
Proof. intros [k ->] [m ->]. exists (k + m). apply dec_ratio_plus. Qed.

Lemma two_decimals_minus x y : two_decimals x → two_decimals y → two_decimals (x - y).
Proof.
  intros [k ->] [m ->]. exists (k - m).
  apply Qc_is_canon. unfold dec_ratio. cbn -[Qred Qplus Qopp].
  rewrite !Qred_correct. unfold Qeq. cbn. lia.
Qed.

(** An amount in whole hundredths is kept as it is. *)
Lemma numeric_12_2_exact x : two_decimals x → numeric_12_2 x = x.
Proof.
  intros [k ->]. unfold numeric_12_2.
  rewrite (round_half_away_comp _ (inject_Z k)); [by rewrite round_half_away_Z|].
  unfold dec_ratio, dec. cbn -[Qred Qmult]. rewrite !Qred_correct.
  unfold Qeq. cbn. lia.
Qed.

Lemma numeric_12_2_dec z : numeric_12_2 (dec z) = dec z.
Proof. apply numeric_12_2_exact, two_decimals_dec. Qed.

(** Adding whole hundredths commutes with the rounding, as long as the
    sign does not change. *)
Lemma numeric_12_2_shift a t :
  two_decimals a → (dec 0 ≤ t)%Qc → (dec 0 ≤ a + t)%Qc →
  numeric_12_2 (a + t) = (a + numeric_12_2 t)%Qc.
Proof.
  intros [k ->] Ht Hat. unfold numeric_12_2.
  assert (Hk : (inject_Z k == (dec_ratio k 100 * dec 100)%Qc)%Q).
  { unfold dec_ratio, dec. cbn -[Qred Qmult]. rewrite !Qred_correct.
    unfold Qeq. cbn. lia. }
  assert (H100 : (0 <= dec 100)%Q) by done.
  unfold Qcle in Ht, Hat. change (this (dec 0)) with 0%Q in Ht, Hat.
  rewrite (round_half_away_comp _ (inject_Z k + (t * dec 100)%Qc)).
  - rewrite round_half_away_shift.
    + by rewrite dec_ratio_plus.
    + cbn -[Qred Qmult dec]. rewrite Qred_correct.
      by apply Qmult_le_0_compat.
    + rewrite Hk. cbn -[Qred Qmult Qplus dec dec_ratio] in *.
      rewrite !Qred_correct in *.
      assert (0 <= (dec_ratio k 100 + t) * dec 100)%Q by (by apply Qmult_le_0_compat).
      lra.
  - rewrite Hk. cbn -[Qred Qmult Qplus dec dec_ratio].
    rewrite !Qred_correct. ring.
Qed.

Lemma cart_shipping_of subtotal :
  CartService.shipping_of subtotal
  = if bool_decide (dec 0 < subtotal ∧ subtotal < dec 50000)%Qc
    then dec 5000 else dec 0.
Proof.
  unfold CartService.shipping_of, CartService.FREE_SHIPPING_THRESHOLD,
    CartService.SHIPPING_COST.
  repeat case_bool_decide; simpl; try done; tauto.
Qed.

Lemma tax_nonneg subtotal :
  (dec 0 ≤ subtotal)%Qc → (dec 0 ≤ subtotal * dec_ratio 18 100)%Qc.
Proof.
  intros H. rewrite dec_0 in *.
  replace 0%Qc with (0 * dec_ratio 18 100)%Qc by ring.
  by apply Qcmult_le_compat_r.
Qed.

Lemma Qcplus_nonneg x y : (dec 0 ≤ x)%Qc → (dec 0 ≤ y)%Qc → (dec 0 ≤ x + y)%Qc.
Proof.
  intros Hx Hy. rewrite dec_0 in *.
  replace 0%Qc with (0 + 0)%Qc by ring. by apply Qcplus_le_compat.
Qed.

(** The total a column keeps, when the tax is all there is to round. *)
Lemma numeric_12_2_total subtotal shipping discount :
  two_decimals subtotal → two_decimals shipping → two_decimals discount →
  (dec 0 ≤ subtotal)%Qc → (discount ≤ subtotal + shipping)%Qc →
  numeric_12_2 (subtotal + subtotal * dec_ratio 18 100 + shipping - discount)
  = (subtotal + numeric_12_2 (subtotal * dec_ratio 18 100) + shipping - discount)%Qc.
Proof.
  intros Hs Hsh Hd Hpos Hle.
  assert (Ha : (dec 0 ≤ subtotal + shipping - discount)%Qc).
  { rewrite dec_0. by apply Qcle_minus_iff in Hle. }
  replace (subtotal + subtotal * dec_ratio 18 100 + shipping - discount)%Qc
    with ((subtotal + shipping - discount) + subtotal * dec_ratio 18 100)%Qc by ring.
  rewrite numeric_12_2_shift.
  - ring.
  - by apply two_decimals_minus; [apply two_decimals_plus|].
  - by apply tax_nonneg.
  - apply Qcplus_nonneg; [done | by apply tax_nonneg].
Qed.

Lemma two_decimals_shipping (b : bool) : two_decimals (if b then dec 5000 else dec 0).
Proof. destruct b; apply two_decimals_dec. Qed.

Lemma store_totals_computed subtotal c :
  totals_as_computed subtotal c (CartService.store_totals subtotal c).
Proof.
  unfold totals_as_computed, CartService.store_totals. cbv zeta.
  cbn [c_subtotal c_tax_amount c_total c_discount_amount c_status c_user_id].
  rewrite dec_or_zero_id, cart_shipping_of.
  split; [done|]. split; [done|]. split; [done|]. split; [|done].
  intros Hs Hd Hpos Hle.
  split; [by apply numeric_12_2_exact|].
  by apply numeric_12_2_total; [|apply two_decimals_shipping|..].
Qed.

Lemma update_cart_totals_run s cart_id subtotal :
  lines_total (working s) (items_of_cart (working s) cart_id) = Some subtotal →
  CartService._update_cart_totals cart_id s
  = (Ok tt,
     clean_session
       (with_carts (alter (CartService.store_totals subtotal) cart_id) (working s))).
Proof.
  intros Ht. unfold CartService._update_cart_totals, bind, get_db. cbn.
  rewrite (cart_sum_items_total _ _ _ _ Ht), dec_0_plus. reflexivity.
Qed.

Lemma lines_total_products st st' items :
  products st' = products st → lines_total st' items = lines_total st items.
Proof.
  intros Hp. induction items as [|it rest IH]; simpl; [done|].
  rewrite IH. unfold line_price. by rewrite Hp.
Qed.

Lemma with_carts_alter_idem (f : Cart → Cart) cart_id st :
  (∀ c, f (f c) = f c) →
  with_carts (alter f cart_id) (with_carts (alter f cart_id) st)
  = with_carts (alter f cart_id) st.
Proof.
  intros Hf. unfold with_carts. simpl. f_equal.
  rewrite alter_alter_eq. apply alter_ext. intros c _. apply Hf.
Qed.

(** C7 as stated fails.  After the totals of a cart without lines are
    recomputed, no shipping is counted although the subtotal (zero) is
    below the free-shipping threshold.  A line whose snapshot price is
    zero is counted at the current price of its product.  And of a cart
    holding one widget at 99.99 the tax is stored as 18.00 and the total as
    5117.99, not as the 17.9982 that 18% of the subtotal are. *)
Lemma cart_totals_as_specified_fails :
  (∃ c', carts (working (CartService._update_cart_totals 1
                           (clean_session empty_cart_store)).2) !! 1 = Some c'
         ∧ ¬ totals_as_specified (items_of_cart empty_cart_store 1) c')
  ∧ (∃ c', carts (working (CartService._update_cart_totals 1
                             (clean_session repriced_store)).2) !! 1 = Some c'
           ∧ ¬ totals_as_specified (items_of_cart repriced_store 1) c')
  ∧ (∃ c', carts (working (CartService._update_cart_totals 1
                             (clean_session odd_price_store)).2) !! 1 = Some c'
           ∧ c_subtotal c' = dec_ratio 9999 100
           ∧ c_tax_amount c' = dec 18
           ∧ c_total c' = dec_ratio 511799 100
           ∧ ¬ totals_as_specified (items_of_cart odd_price_store 1) c').
Proof.
  split; [|split].
  - exists (CartService.store_totals (dec 0) (widget_cart (dec 0))).
    split; [vm_compute; reflexivity|].
    intros (_ & _ & H). apply (f_equal this) in H. vm_compute in H. discriminate.
  - eexists. split; [vm_compute; reflexivity|].
    intros (H & _). apply (f_equal this) in H. vm_compute in H. discriminate.
  - eexists. split; [vm_compute; reflexivity|].
    split; [apply Qc_is_canon; reflexivity|].
    split; [apply Qc_is_canon; reflexivity|].
    split; [apply Qc_is_canon; reflexivity|].
    intros (_ & H & _). apply (f_equal this) in H. vm_compute in H. discriminate.
Qed.

(** C7, amended. Recomputing the totals of a cart whose lines all have a
    price stores, each rounded to two decimals as its [Numeric(12, 2)]
    column keeps it: subtotal = Σ(price × quantity), the price of a line
    being its snapshot unit price when set and not zero and the product's
    price otherwise; tax = subtotal × 0.18; total = subtotal + subtotal ×
    0.18 + shipping − discount, where shipping is 5000 when 0 < subtotal <
    50000 and 0 otherwise.  Where subtotal and discount are in whole
    hundredths, the subtotal is not negative and the discount at most
    subtotal + shipping, the stored subtotal is the subtotal and the stored
    total is subtotal + stored tax + shipping − discount.  Recomputing again
    changes nothing. *)
Theorem cart_totals_recomputed s cart_id c subtotal :
  carts (working s) !! cart_id = Some c →
  lines_total (working s) (items_of_cart (working s) cart_id) = Some subtotal →
  ∃ s' c',
    CartService._update_cart_totals cart_id s = (Ok tt, s')
    ∧ carts (working s') !! cart_id = Some c'
    ∧ committed s' = working s'
    ∧ totals_as_computed subtotal c c'
    ∧ CartService._update_cart_totals cart_id s' = (Ok tt, s').
Proof.
  intros Hc Ht.
  eexists _, (CartService.store_totals subtotal c).
  split; [by apply update_cart_totals_run|].
  split; [simpl; by rewrite lookup_alter_eq, Hc|].
  split; [done|].
  split; [apply store_totals_computed|].
  rewrite (update_cart_totals_run _ _ subtotal).
  - simpl. by rewrite with_carts_alter_idem.
  - cbn [working clean_session].
    rewrite (lines_total_products (working s)) by done. exact Ht.
Qed.

Lemma cart_store_lines_total discount :
  lines_total (cart_store discount) (items_of_cart (cart_store discount) 1)
  = Some (dec 200).
Proof. simpl. f_equal; apply Qc_is_canon; reflexivity. Qed.

Lemma cart_totals_recomputed_witness :
  ∃ s' c',
    CartService._update_cart_totals 1 (clean_session (cart_store (dec 0))) = (Ok tt, s')
    ∧ carts (working s') !! 1 = Some c'
    ∧ committed s' = working s'
    ∧ totals_as_computed (dec 200) (widget_cart (dec 0)) c'
    ∧ CartService._update_cart_totals 1 s' = (Ok tt, s').
Proof.
  apply (cart_totals_recomputed (clean_session (cart_store (dec 0))) 1
           (widget_cart (dec 0)) (dec 200)).
  - reflexivity.
  - apply cart_store_lines_total.
Defined.

(** X28. Where the order is charged what the cart shows.  For the lines
    of an existing cart that all have a price, on a positive subtotal and
    without a stored discount: the subtotal, tax and total
    [_calculate_order_totals] computes are, once in their [Numeric(12, 2)]
    columns, those [_update_cart_totals] stores on the cart, and the
    shipping is the one the cart counts. *)
Theorem order_totals_match_cart_totals s cart_id c subtotal :
  carts (working s) !! cart_id = Some c →
  lines_total (working s) (items_of_cart (working s) cart_id) = Some subtotal →
  (dec 0 < subtotal)%Qc →
  c_discount_amount c = dec 0 →
  ∃ t s' c',
    OrderService._calculate_order_totals (working s)
      (items_of_cart (working s) cart_id) = Ok t
    ∧ CartService._update_cart_totals cart_id s = (Ok tt, s')
    ∧ carts (working s') !! cart_id = Some c'
    ∧ order_totals_match_cart t c'.
Proof.
  intros Hc Ht Hpos Hd.
  unfold OrderService._calculate_order_totals.
  rewrite (order_sum_items_total _ _ _ _ Ht), dec_0_plus.
  eexists _, _, (CartService.store_totals subtotal c).
  split; [reflexivity|].
  split; [by apply update_cart_totals_run|].
  split; [simpl; by rewrite lookup_alter_eq, Hc|].
  assert (Hship : (if bool_decide (subtotal < OrderService.FREE_SHIPPING_THRESHOLD)%Qc
                   then OrderService.SHIPPING_COST else dec 0)
                  = CartService.shipping_of subtotal).
  { unfold CartService.shipping_of.
    rewrite (bool_decide_eq_true_2 (dec 0 < subtotal)%Qc) by done.
    by rewrite andb_true_r. }
  unfold order_totals_match_cart. cbn.
  split; [done|]. split; [done|]. split; [done|].
  rewrite Hship, dec_or_zero_id, Hd, dec_0. f_equal.
  unfold OrderService.TAX_RATE, CartService.TAX_RATE. ring.
Qed.

Lemma order_totals_match_cart_totals_witness :
  ∃ t s' c',
    OrderService._calculate_order_totals (cart_store (dec 0))
      (items_of_cart (cart_store (dec 0)) 1) = Ok t
    ∧ CartService._update_cart_totals 1 (clean_session (cart_store (dec 0)))
      = (Ok tt, s')
    ∧ carts (working s') !! 1 = Some c'
    ∧ order_totals_match_cart t c'.
Proof.
  apply (order_totals_match_cart_totals (clean_session (cart_store (dec 0))) 1
           (widget_cart (dec 0)) (dec 200) eq_refl (cart_store_lines_total _)).
  - by vm_compute.
  - reflexivity.
Defined.


(** ** Adding to a cart *)

Lemma line_price_products st st' it :
  products st' = products st → line_price st' it = line_price st it.
Proof. intros Hp. unfold line_price. by rewrite Hp. Qed.

Lemma lines_total_is_Some st items :
  Forall (λ it, is_Some (line_price st it)) items → is_Some (lines_total st items).
Proof.
  induction 1 as [|it rest [p Hp] _ [t Ht]]; simpl; [by eexists|].
  rewrite Hp, Ht. by eexists.
Qed.

Lemma lines_priced_cart_total st st' cart_id :
  products st' = products st →
  Forall (λ it, is_Some (line_price st it)) (cart_items st') →
  is_Some (lines_total st' (items_of_cart st' cart_id)).
Proof.
  intros Hp Hall. apply lines_total_is_Some, list.Forall_forall.
  intros it Hit. apply list_elem_of_filter in Hit as [_ Hit].
  rewrite (line_price_products st) by done.
  by apply (proj1 (list.Forall_forall _ _) Hall).
Qed.

Lemma snapshot_priced st pid p it :
  products st !! pid = Some p →
  ci_product_id it = pid → ci_unit_price it = Some (p_price p) →
  is_Some (line_price st it).
Proof.
  intros Hp Hpid Hu. unfold line_price. rewrite Hu, Hpid, Hp. simpl.
  case_bool_decide; by eexists.
Qed.

(** The end of [add_item]: commit the line, recompute the totals. *)
Lemma add_item_finish s st' cart_id c (item : CartItem) :
  products st' = products (working s) →
  carts st' = carts (working s) →
  carts (working s) !! cart_id = Some c →
  Forall (λ it, is_Some (line_price (working s) it)) (cart_items st') →
  ∃ s' subtotal c',
    (db_commit ;;; CartService._update_cart_totals cart_id ;;; ret item)
      {| committed := committed s; working := st' |} = (Ok item, s')
    ∧ cart_items (working s') = cart_items st'
    ∧ lines_total (working s') (items_of_cart (working s') cart_id) = Some subtotal
    ∧ carts (working s') !! cart_id = Some c'
    ∧ totals_as_computed subtotal c c'
    ∧ committed s' = working s'.
Proof.
  intros Hp Hcarts Hc Hall.
  destruct (lines_priced_cart_total (working s) st' cart_id Hp Hall) as [subtotal Ht].
  exists (clean_session (with_carts (alter (CartService.store_totals subtotal) cart_id) st')),
    subtotal, (CartService.store_totals subtotal c).
  split.
  { cbv beta iota delta [bind db_commit working committed].
    rewrite (update_cart_totals_run {| committed := st'; working := st' |}
               cart_id subtotal Ht).
    reflexivity. }
  split; [done|].
  split; [cbn [working clean_session]; by rewrite (lines_total_products st')|].
  split; [simpl; by rewrite lookup_alter_eq, Hcarts, Hc|].
  split; [apply store_totals_computed | done].
Qed.

Lemma add_item_variation st req :
  (if opt_int_truthy (ic_variation_id req) then
     match ic_variation_id req ≫= λ vid,
             query_by_id (product_variations st) vid (λ v,
               bool_decide (v_product_id v = ic_product_id req)) with
     | None => raise (CartError MsgVariationNotFound HTTP_404_NOT_FOUND)
     | Some v => ret (Some v)
     end
   else ret None)
  = match named_variation req with
    | Some vid =>
        match variation_of st (ic_product_id req) vid with
        | None => raise NotFound_variation
        | Some v => ret (Some v)
        end
    | None => ret None
    end.
Proof.
  unfold named_variation, variation_of, query_by_id, opt_int_truthy.
  destruct (ic_variation_id req) as [vid|]; [|done]. simpl.
  destruct (Z.eqb_spec vid 0); case_bool_decide; simpl; done.
Qed.

(** C8. [add_item] fails with NotFound when the product is missing or
    inactive, or when the variation the request names (its [variation_id],
    given and truthy) does not exist for that product; otherwise with
    LimitExceeded when the resulting quantity
    of the line (existing plus requested) exceeds 10; otherwise with
    InsufficientStock when the resulting quantity exceeds the stock of the
    variation if it tracks stock, else of the product.  Every failure
    leaves the session untouched.  Otherwise, when the [variation_id] of
    the request names an existing variation or none (the foreign key of the
    line: an id of 0 is not looked up), it succeeds: the matching line is
    updated in place or a new line is appended, the line carries the
    resulting quantity and the product's current price as its snapshot, the
    totals of the cart are recomputed, stored as their [Numeric(12, 2)]
    columns keep them, and everything is committed. *)
Theorem add_item_outcomes s cart_id req :
  let st := working s in
  let pid := ic_product_id req in
  let resulting := resulting_quantity st cart_id req in
  ((∀ p, products st !! pid = Some p → p_is_active p = false) →
   CartService.add_item cart_id req s = (Raise NotFound_product, s))
  ∧ (∀ p, products st !! pid = Some p → p_is_active p = true →
     (∀ vid, named_variation req = Some vid → variation_of st pid vid = None →
      CartService.add_item cart_id req s = (Raise NotFound_variation, s))
     ∧ (∀ variation,
        match named_variation req with
        | Some vid => variation_of st pid vid = variation ∧ is_Some variation
        | None => variation = None
        end →
        let available := stock_of_product p variation in
        (10 < resulting →
         CartService.add_item cart_id req s = (Raise LimitExceeded, s))
        ∧ (resulting ≤ 10 → available < resulting →
           CartService.add_item cart_id req s
           = (Raise (InsufficientStock available), s))
        ∧ (resulting ≤ 10 → resulting ≤ available →
           variation_known st (ic_variation_id req) →
           ∀ c, carts st !! cart_id = Some c → lines_priced st →
           ∃ item s',
             CartService.add_item cart_id req s = (Ok item, s')
             ∧ added st cart_id req p c item s'))).
Proof.
  intros st pid resulting. split.
  { (* product missing or inactive *)
    intros Hno. unfold CartService.add_item. unfold bind at 1, get_db at 1.
    cbv beta iota. unfold query_by_id at 1. fold st. fold pid.
    destruct (products st !! pid) as [p|] eqn:Hp; [|done].
    by rewrite (Hno p eq_refl). }
  intros p Hp Hact.
  assert (Hstart : ∀ r,
    (∀ k, bind (match named_variation req with
                | Some vid =>
                    match variation_of st pid vid with
                    | Some v => ret (Some v)
                    | None => raise NotFound_variation
                    end
                | None => ret None
                end) k s = r k) →
    ∃ k, CartService.add_item cart_id req s = r k
         ∧ k = (λ variation,
                 if CartService.MAX_QUANTITY_PER_ITEM <? resulting then raise LimitExceeded
                 else if stock_of_product p variation <? resulting
                 then raise (InsufficientStock (stock_of_product p variation))
                 else
                   match matching_line st cart_id req with
                   | Some (i, it) =>
                       let it' :=
                         CartService.set_quantity_and_price resulting (p_price p) it in
                       modify_db (with_cart_items <[i := it']>) ;;;
                       db_commit ;;; CartService._update_cart_totals cart_id ;;; ret it'
                   | None =>
                       let cart_item :=
                         {| ci_cart_id := cart_id;
                            ci_user_id := carts st !! cart_id ≫= c_user_id;
                            ci_product_id := pid;
                            ci_variation_id := ic_variation_id req;
                            ci_quantity := ic_quantity req;
                            ci_unit_price := Some (p_price p) |} in
                       modify_db (with_cart_items (λ l, l ++ [cart_item])) ;;;
                       db_commit ;;; CartService._update_cart_totals cart_id ;;;
                       ret cart_item
                   end)).
  { intros r Hr. eexists. split; [|reflexivity].
    unfold CartService.add_item. unfold bind at 1, get_db at 1. cbv beta iota.
    unfold query_by_id at 1. fold st. fold pid. rewrite Hp, Hact.
    rewrite add_item_variation. fold st. fold pid. rewrite Hr. reflexivity. }
  split.
  { (* the named variation does not exist *)
    intros vid Hnamed Hnone.
    destruct (Hstart (λ _, (Raise NotFound_variation, s))) as (k & -> & _); [|done].
    intros k. by rewrite Hnamed, Hnone. }
  intros variation Hvar available.
  destruct (Hstart (λ k, k variation s)) as (k & Hadd & ->).
  { intros k. destruct (named_variation req) as [vid|].
    - destruct Hvar as [-> [v Hv]]. by rewrite Hv.
    - by subst variation. }
  rewrite Hadd. fold available. unfold CartService.MAX_QUANTITY_PER_ITEM.
  split; [|split].
  - intros Hlim. by rewrite (proj2 (Z.ltb_lt _ _) Hlim).
  - intros Hlim Hstock.
    rewrite (proj2 (Z.ltb_ge _ _) Hlim). by rewrite (proj2 (Z.ltb_lt _ _) Hstock).
  - intros Hlim Hstock _ c Hc Hpriced.
    rewrite (proj2 (Z.ltb_ge _ _) Hlim), (proj2 (Z.ltb_ge _ _) Hstock).
    unfold added, resulting, resulting_quantity.
    destruct (matching_line st cart_id req) as [[i it]|] eqn:Hline.
    + apply list_find_Some in Hline as (Hi & (Hcart & Hpid & Hvid) & _).
      set (it' := CartService.set_quantity_and_price _ _ it).
      destruct (add_item_finish s (with_cart_items <[i := it']> st) cart_id c it')
        as (s' & subtotal & c' & Hrun & Hitems & Htotal & Hc' & Hcomp & Hcommit);
        [done | done | done | |].
      { apply Forall_insert; [exact Hpriced|].
        by apply (snapshot_priced st pid p). }
      exists it', s'. split; [exact Hrun|].
      repeat split; try done. by exists subtotal, c'.
    + set (it' := {| ci_cart_id := cart_id |}).
      destruct (add_item_finish s (with_cart_items (λ l, l ++ [it']) st) cart_id c it')
        as (s' & subtotal & c' & Hrun & Hitems & Htotal & Hc' & Hcomp & Hcommit);
        [done | done | done | |].
      { apply list.Forall_app. split; [exact Hpriced|].
        constructor; [|constructor].
        by apply (snapshot_priced st pid p). }
      exists it', s'. split; [exact Hrun|].
      repeat split; try done. by exists subtotal, c'.
Qed.

Lemma add_item_outcomes_witness :
  let s := clean_session empty_cart_store in
  CartService.add_item 1 add_eleven_widgets s = (Raise LimitExceeded, s)
  ∧ ∃ item s',
      CartService.add_item 1 add_two_widgets s = (Ok item, s')
      ∧ added empty_cart_store 1 add_two_widgets widget (widget_cart (dec 0)) item s'.
Proof.
  intros s. split.
  - destruct (add_item_outcomes s 1 add_eleven_widgets) as [_ H].
    destruct (H widget eq_refl eq_refl) as [_ Hv].
    destruct (Hv None eq_refl) as (Hlimit & _ & _).
    apply Hlimit. reflexivity.
  - destruct (add_item_outcomes s 1 add_two_widgets) as [_ H].
    destruct (H widget eq_refl eq_refl) as [_ Hv].
    destruct (Hv None eq_refl) as (_ & _ & Hok).
    apply (Hok ltac:(by vm_compute) ltac:(by vm_compute) ltac:(by intros ? ?)
             (widget_cart (dec 0)) eq_refl).
    constructor.
Defined.

(** ** Stock loops *)

Lemma set_stock_same p : set_stock p (p_stock p) = p.
Proof. by destruct p. Qed.

Lemma stocks_moved_refl st : stocks_moved (λ _, 0) st st.
Proof.
  intros pid. destruct (products st !! pid) as [p|]; simpl; [|done].
  by rewrite Z.add_0_r, set_stock_same.
Qed.

Lemma stocks_moved_trans d1 d2 st1 st2 st3 :
  stocks_moved d1 st1 st2 → stocks_moved d2 st2 st3 →
  stocks_moved (λ pid, d1 pid + d2 pid) st1 st3.
Proof.
  intros H1 H2 pid. rewrite H2, H1.
  destruct (products st1 !! pid) as [p|]; simpl; [|done].
  do 2 f_equal. lia.
Qed.

Lemma stocks_moved_ext d d' st st' :
  (∀ pid, d pid = d' pid) → stocks_moved d st st' → stocks_moved d' st st'.
Proof. intros Hd H pid. by rewrite H, Hd. Qed.

(** One stock update moves the stock of its product only. *)
Lemma stocks_moved_insert st pid p q :
  products st !! pid = Some p →
  stocks_moved (λ k, if bool_decide (k = pid) then q else 0) st
    (with_products <[pid := set_stock p (p_stock p + q)]> st).
Proof.
  intros Hp k. simpl. rewrite lookup_insert. case_decide as Hk.
  - subst k. rewrite Hp. simpl. by rewrite bool_decide_eq_true_2.
  - rewrite bool_decide_eq_false_2 by done.
    destruct (products st !! k) as [pk|]; simpl; [|done].
    by rewrite Z.add_0_r, set_stock_same.
Qed.

Lemma stocks_moved_is_Some d st st' pid :
  stocks_moved d st st' →
  is_Some (products st' !! pid) ↔ is_Some (products st !! pid).
Proof. intros H. rewrite H. apply fmap_is_Some. Qed.

Lemma released_moved d st st' it :
  stocks_moved d st st' → released st' it = released st it.
Proof.
  intros H. unfold released. destruct (oi_product_id it) as [pid|]; [|done].
  apply (stocks_moved_is_Some _ _ _ pid) in H.
  repeat case_bool_decide; tauto.
Qed.

Lemma same_other_tables_refl st : same_other_tables st st.
Proof. by repeat split. Qed.

Lemma same_other_tables_trans st1 st2 st3 :
  same_other_tables st1 st2 → same_other_tables st2 st3 → same_other_tables st1 st3.
Proof.
  intros (?&?&?&?&?&?) (?&?&?&?&?&?). repeat split; congruence.
Qed.

(** [_release_stock] never fails; it gives the quantity back to the
    product when it exists and writes the matching ledger entry. *)
Lemma release_stock_run s product_id quantity order_id :
  ∃ s' new_logs,
    OrderService._release_stock product_id quantity order_id s = (Ok tt, s')
    ∧ committed s' = committed s
    ∧ same_other_tables (working s) (working s')
    ∧ order_items (working s') = order_items (working s)
    ∧ stocks_moved (λ pid, if bool_decide (product_id = Some pid) then quantity else 0)
        (working s) (working s')
    ∧ inventory_logs (working s') = inventory_logs (working s) ++ new_logs
    ∧ movement <$> new_logs
      = match product_id with
        | Some pid => if bool_decide (is_Some (products (working s) !! pid))
                      then [(pid, quantity)] else []
        | None => []
        end.
Proof.
  destruct s as [cm st].
  unfold OrderService._release_stock, bind, get_db. cbn.
  destruct product_id as [pid|]; cbn.
  - destruct (products st !! pid) as [p|] eqn:Hp; cbn.
    + eexists _, [_]. split; [reflexivity|]. cbn.
      repeat split; try done; [|by rewrite ?bool_decide_eq_true_2 by done..].
      eapply stocks_moved_ext;
        [|exact (stocks_moved_insert st pid p quantity Hp)].
      intros k. cbn. repeat case_bool_decide; congruence.
    + exists {| committed := cm; working := st |}, []. cbn.
      rewrite app_nil_r.
      repeat split; try done;
        [|rewrite ?bool_decide_eq_false_2; [done|by intros [? ?]]..].
      intros k. cbn. case_bool_decide as Hk.
      * injection Hk as <-. by rewrite Hp.
      * destruct (products st !! k); simpl; [|done].
        by rewrite Z.add_0_r, set_stock_same.
  - exists {| committed := cm; working := st |}, []. cbn.
    rewrite app_nil_r. repeat split; try done.
    eapply stocks_moved_ext; [|apply stocks_moved_refl]. done.
Qed.

(** The loop of [cancel_order]. *)
Lemma release_loop_run order_id items s :
  ∃ s' new_logs,
    for_each items (λ item,
      OrderService._release_stock (oi_product_id item) (oi_quantity item) order_id) s
    = (Ok tt, s')
    ∧ committed s' = committed s
    ∧ same_other_tables (working s) (working s')
    ∧ order_items (working s') = order_items (working s)
    ∧ stocks_moved (λ pid, ordered_quantity pid items) (working s) (working s')
    ∧ inventory_logs (working s') = inventory_logs (working s) ++ new_logs
    ∧ movement <$> new_logs = omap (released (working s)) items.
Proof.
  revert s. induction items as [|it rest IH]; intros s.
  - exists s, []. cbn. rewrite app_nil_r.
    repeat split; try done. apply stocks_moved_refl.
  - destruct (release_stock_run s (oi_product_id it) (oi_quantity it) order_id)
      as (s1 & new1 & Hrun1 & Hcm1 & Hsame1 & Hoi1 & Hmv1 & Hlog1 & Hnew1).
    destruct (IH s1) as (s' & new2 & Hrun2 & Hcm2 & Hsame2 & Hoi2 & Hmv2 & Hlog2 & Hnew2).
    exists s', (new1 ++ new2). cbn [for_each].
    rewrite (bind_ok _ _ _ _ _ Hrun1), Hrun2.
    split; [done|]. split; [congruence|].
    split; [by eapply same_other_tables_trans|].
    split; [congruence|].
    split.
    { eapply stocks_moved_ext; [|by eapply stocks_moved_trans]. done. }
    split; [by rewrite Hlog2, Hlog1, app_assoc|].
    rewrite fmap_app, Hnew1, Hnew2. cbn [omap list_omap].
    rewrite (list_omap_ext (released (working s1)) (released (working s)) rest rest);
      [|apply Forall2_same_length_lookup_2; [done|];
        intros i x y Hx Hy; rewrite Hx in Hy; injection Hy as <-;
        by apply (released_moved _ _ _ _ Hmv1)].
    unfold released at 2.
    destruct (oi_product_id it) as [pid|]; [|done].
    by case_bool_decide.
Qed.

(** ** Cancellation *)

Lemma is_cancellable_status order :
  is_cancellable order = true ↔ cancellable_status (o_status order).
Proof. unfold is_cancellable, cancellable_status. apply bool_decide_eq_true. Qed.

Lemma window_expired_hours now created_at :
  OrderService.window_expired now created_at = true ↔ hours 24 < now - created_at.
Proof.
  unfold OrderService.window_expired, OrderService.ORDER_CANCELLATION_WINDOW_HOURS, hours.
  apply Z.ltb_lt.
Qed.

Lemma cancel_order_run s now order_id order user_id reason is_admin :
  orders (working s) !! order_id = Some order →
  may_act_on order user_id is_admin →
  cancellable_status (o_status order) →
  (is_admin = true ∨ now - o_created_at order ≤ hours 24) →
  ∃ r s' new_logs,
    OrderService.cancel_order now order_id user_id reason is_admin s = (Ok r, s')
    ∧ cancelled s now order_id order user_id reason r s' new_logs.
Proof.
  intros Horder Hact Hstatus Hwindow.
  destruct (release_loop_run order_id (items_of_order (working s) order_id) s)
    as (s1 & new_logs & Hloop & Hcm & (Hv & Ha & Hc & Hci & Ho & Hh) & Hoi & Hmv & Hlog & Hnew).
  cancel_order_start Horder.
  assert (negb is_admin && negb (bool_decide (o_user_id order = Some user_id)) = false)
    as ->.
  { destruct Hact as [->| ->]; [done|]. rewrite bool_decide_eq_true_2 by done.
    by destruct is_admin. }
  rewrite (proj2 (is_cancellable_status order) Hstatus). cbn [negb].
  assert (negb is_admin && OrderService.window_expired now (o_created_at order) = false)
    as ->.
  { destruct Hwindow as [->|Hw]; [done|].
    destruct (OrderService.window_expired now (o_created_at order)) eqn:He.
    - apply window_expired_hours in He. lia.
    - by destruct is_admin. }
  rewrite (bind_ok _ _ _ _ _ Hloop).
  destruct s1 as [cm1 st1]. cbn in *.
  unfold update_order, OrderService._record_status_change, bind, modify_db, db_commit,
    get_db, ret. cbn.
  rewrite !lookup_alter_eq, Ho, Horder. cbn.
  eexists _, _, new_logs. split; [reflexivity|].
  unfold cancelled. cbn.
  repeat split; try done.
  - rewrite alter_alter_eq, Ho. apply map_eq. intros k.
    rewrite lookup_alter, lookup_insert. case_decide; [subst k|done].
    by rewrite Horder.
  - by rewrite Hh.
Qed.

(** C9 as stated fails: an actor who is neither an admin nor the owner
    gets Forbidden, not NotCancellable, on an order that cannot be
    cancelled. *)
Lemma cancel_by_stranger_is_forbidden :
  let s := clean_session (ordered_store OrderStatus.SHIPPED 0) in
  orders (working s) !! 1 = Some (widget_order OrderStatus.SHIPPED 0)
  ∧ ¬ cancellable_status OrderStatus.SHIPPED
  ∧ OrderService.cancel_order 0 1 8 None false s = (Raise Forbidden, s)
  ∧ OrderService.cancel_order 0 1 8 None false s
    ≠ (Raise (NotCancellable OrderStatus.SHIPPED), s).
Proof.
  intros s. split; [reflexivity|]. split.
  { intros H. by apply (bool_decide_pack _) in H. }
  split; [reflexivity|].
  intros H. apply (f_equal fst) in H. vm_compute in H. discriminate.
Qed.

(** C9, amended. For an existing order: an actor who is neither an admin
    nor the owner gets Forbidden.  For an admin or the owner, [cancel_order]
    fails with NotCancellable unless the status is PENDING, CONFIRMED or
    PROCESSING; for the owner (not an admin) it fails with WindowExpired
    when more than 24 hours have passed since creation.  All these failures
    leave the session unchanged.  An admin cancels a cancellable order
    however old it is, and the stock of every product is raised by the
    quantity the order holds of it. *)
Theorem cancellation_preconditions s now order_id order user_id reason is_admin :
  orders (working s) !! order_id = Some order →
  let cancel := OrderService.cancel_order now order_id user_id reason is_admin s in
  (¬ may_act_on order user_id is_admin → cancel = (Raise Forbidden, s))
  ∧ (may_act_on order user_id is_admin → ¬ cancellable_status (o_status order) →
     cancel = (Raise (NotCancellable (o_status order)), s))
  ∧ (is_admin = false → o_user_id order = Some user_id →
     cancellable_status (o_status order) →
     hours 24 < now - o_created_at order →
     cancel = (Raise WindowExpired, s))
  ∧ (is_admin = true → cancellable_status (o_status order) →
     ∃ r s' new_logs,
       cancel = (Ok r, s')
       ∧ cancelled s now order_id order user_id reason r s' new_logs).
Proof.
  intros Horder cancel. subst cancel.
  split; [|split; [|split]].
  - intros Hno. unfold may_act_on in Hno. cancel_order_start Horder.
    destruct is_admin; [tauto|]. cbn [negb andb].
    rewrite bool_decide_eq_false_2 by tauto. done.
  - intros Hact Hstatus. cancel_order_start Horder.
    assert (negb is_admin && negb (bool_decide (o_user_id order = Some user_id)) = false)
      as ->.
    { destruct Hact as [->| ->]; [done|]. rewrite bool_decide_eq_true_2 by done.
      by destruct is_admin. }
    destruct (is_cancellable order) eqn:Hc; [|done].
    by apply is_cancellable_status in Hc.
  - intros -> Howner Hstatus Hlate. cancel_order_start Horder. cbn [negb andb].
    rewrite bool_decide_eq_true_2 by done. cbn [negb].
    rewrite (proj2 (is_cancellable_status order) Hstatus). cbn [negb].
    by rewrite (proj2 (window_expired_hours _ _) Hlate).
  - intros -> Hstatus.
    apply (cancel_order_run s now order_id order user_id reason true Horder);
      [by left | done | by left].
Qed.

Lemma cancellation_preconditions_witness :
  let s := clean_session (ordered_store OrderStatus.PENDING 0) in
  let order := widget_order OrderStatus.PENDING 0 in
  OrderService.cancel_order (hours 25) 1 7 None false s = (Raise WindowExpired, s)
  ∧ ∃ r s' new_logs,
      OrderService.cancel_order (hours 25) 1 99 None true s = (Ok r, s')
      ∧ cancelled s (hours 25) 1 order 99 None r s' new_logs.
Proof.
  intros s order. split.
  - destruct (cancellation_preconditions s (hours 25) 1 order 7 None false eq_refl)
      as (_ & _ & Hlate & _).
    apply Hlate; [reflexivity | reflexivity | | reflexivity].
    apply (bool_decide_unpack _). vm_compute. exact I.
  - destruct (cancellation_preconditions s (hours 25) 1 order 99 None true eq_refl)
      as (_ & _ & _ & Hadmin).
    apply Hadmin; [reflexivity|].
    apply (bool_decide_unpack _). vm_compute. exact I.
Defined.

Lemma length_omap_le {A B} (f : A → option B) (l : list A) :
  (length (omap f l) ≤ length l)%nat.
Proof. induction l as [|y l IH]; cbn; [done|]. destruct (f y); cbn; lia. Qed.

Lemma length_omap_lt {A B} (f : A → option B) (l : list A) x :
  x ∈ l → f x = None → (length (omap f l) < length l)%nat.
Proof.
  intros Hx Hf. induction l as [|y l IH]; [by apply elem_of_nil in Hx|].
  apply elem_of_cons in Hx as [<-|Hx]; cbn.
  - rewrite Hf. pose proof (length_omap_le f l) as Hle. lia.
  - specialize (IH Hx). destruct (f y); cbn; lia.
Qed.

(** C10. When a cancellable order has an item whose product no longer
    exists, [cancel_order] (called by an admin, or by the owner within the
    window) still succeeds: the order becomes CANCELLED with its
    cancellation metadata and a history row, while the ledger receives
    entries for the items with an existing product only.  Nothing is
    written or restocked for the missing product, so fewer entries are
    written than the order has items. *)
Theorem cancel_skips_missing_product s now order_id order user_id reason is_admin item :
  orders (working s) !! order_id = Some order →
  may_act_on order user_id is_admin →
  cancellable_status (o_status order) →
  (is_admin = true ∨ now - o_created_at order ≤ hours 24) →
  item ∈ items_of_order (working s) order_id →
  (∀ pid, oi_product_id item = Some pid → products (working s) !! pid = None) →
  ∃ r s' new_logs,
    OrderService.cancel_order now order_id user_id reason is_admin s = (Ok r, s')
    ∧ o_status r.2 = OrderStatus.CANCELLED
    ∧ o_cancelled_at r.2 = Some now
    ∧ o_cancelled_by r.2 = Some user_id
    ∧ o_cancellation_reason r.2 = reason
    ∧ orders (working s') !! order_id = Some r.2
    ∧ order_status_history (working s')
      = order_status_history (working s)
        ++ [cancellation_row order_id order user_id reason]
    ∧ inventory_logs (working s') = inventory_logs (working s) ++ new_logs
    ∧ (length new_logs < length (items_of_order (working s) order_id))%nat
    ∧ (∀ l, l ∈ new_logs →
         is_Some (products (working s) !! l_product_id l)
         ∧ oi_product_id item ≠ Some (l_product_id l))
    ∧ (∀ pid, oi_product_id item = Some pid → products (working s') !! pid = None).
Proof.
  intros Horder Hact Hstatus Hwindow Hitem Hmissing.
  destruct (cancel_order_run s now order_id order user_id reason is_admin
              Horder Hact Hstatus Hwindow)
    as (r & s' & new_logs & Hrun & -> & Hcm & Ho & Hh & Hoi & Hc & Hci & Hmv & Hlog & Hnew).
  assert (Hnone : released (working s) item = None).
  { unfold released. destruct (oi_product_id item) as [pid|]; [|done].
    rewrite (Hmissing pid eq_refl). rewrite bool_decide_eq_false_2; [done|].
    by intros [? ?]. }
  assert (Hlogs : ∀ l, l ∈ new_logs → is_Some (products (working s) !! l_product_id l)).
  { intros l Hl.
    assert (Hm : movement l ∈ omap (released (working s))
                   (items_of_order (working s) order_id)).
    { rewrite <- Hnew. by apply list_elem_of_fmap_2. }
    apply list_elem_of_omap in Hm as (it & _ & Hit).
    unfold released in Hit. destruct (oi_product_id it) as [pid|]; [|done].
    case_bool_decide as Hp; [|done]. injection Hit as Hit _. by rewrite <- Hit. }
  exists (order_id, cancelled_order now user_id reason order), s', new_logs.
  split; [exact Hrun|]. cbn [snd].
  split; [done|]. split; [done|]. split; [done|]. split; [done|].
  split; [by rewrite Ho, lookup_insert_eq|].
  split; [done|]. split; [done|].
  split.
  { rewrite <- (length_fmap movement), Hnew. by apply (length_omap_lt _ _ item). }
  split.
  - intros l Hl. split; [by apply Hlogs|].
    intros Heq. destruct (Hlogs l Hl) as [p Hp].
    by rewrite (Hmissing _ Heq) in Hp.
  - intros pid Hpid. by rewrite Hmv, (Hmissing pid Hpid).
Qed.

Lemma cancel_skips_missing_product_witness :
  let s := clean_session orphan_store in
  ∃ r s' new_logs,
    OrderService.cancel_order 5 1 7 (Some "changed my mind") false s = (Ok r, s')
    ∧ o_status r.2 = OrderStatus.CANCELLED
    ∧ o_cancelled_at r.2 = Some 5
    ∧ o_cancelled_by r.2 = Some 7
    ∧ o_cancellation_reason r.2 = Some "changed my mind"
    ∧ orders (working s') !! 1 = Some r.2
    ∧ order_status_history (working s')
      = order_status_history (working s)
        ++ [cancellation_row 1 (widget_order OrderStatus.CONFIRMED 0) 7
              (Some "changed my mind")]
    ∧ inventory_logs (working s') = inventory_logs (working s) ++ new_logs
    ∧ (length new_logs < length (items_of_order (working s) 1))%nat
    ∧ (∀ l, l ∈ new_logs →
         is_Some (products (working s) !! l_product_id l)
         ∧ oi_product_id orphan_order_item ≠ Some (l_product_id l))
    ∧ (∀ pid, oi_product_id orphan_order_item = Some pid →
         products (working s') !! pid = None).
Proof.
  intros s.
  apply (cancel_skips_missing_product s 5 1 (widget_order OrderStatus.CONFIRMED 0)
           7 (Some "changed my mind") false orphan_order_item).
  - reflexivity.
  - by right.
  - apply (bool_decide_unpack _). vm_compute. exact I.
  - right. by vm_compute.
  - vm_compute. repeat constructor.
  - intros pid [= <-]. reflexivity.
Defined.

(** ** Order creation *)

Lemma lines_reserved_nil order_id st : lines_reserved order_id [] st st.
Proof.
  split; [apply same_other_tables_refl|].
  split; [exists []; by rewrite app_nil_r|].
  split; [exists []; by rewrite app_nil_r|].
  split; [apply stocks_moved_refl | constructor].
Qed.

Lemma lines_reserved_cons order_id line lines st1 st2 st3 :
  lines_reserved order_id [line] st1 st2 →
  lines_reserved order_id lines st2 st3 →
  lines_reserved order_id (line :: lines) st1 st3.
Proof.
  intros (Hs1 & (it1 & Hi1 & Hk1) & (lg1 & Hl1 & Hm1 & Hf1) & Hmv1 & Hex1)
         (Hs2 & (it2 & Hi2 & Hk2) & (lg2 & Hl2 & Hm2 & Hf2) & Hmv2 & Hex2).
  split; [by eapply same_other_tables_trans|].
  split.
  { exists (it1 ++ it2). split; [by rewrite Hi2, Hi1, app_assoc|].
    by rewrite fmap_app, Hk1, Hk2. }
  split.
  { exists (lg1 ++ lg2). split; [by rewrite Hl2, Hl1, app_assoc|].
    split; [by rewrite fmap_app, Hm1, Hm2|]. by apply list.Forall_app. }
  split.
  { eapply stocks_moved_ext; [|by eapply stocks_moved_trans].
    intros pid. destruct line as [p q]. cbn. lia. }
  apply list.Forall_cons. split; [by apply Forall_inv in Hex1|].
  eapply list.Forall_impl; [exact Hex2|].
  intros l Hl. by apply (stocks_moved_is_Some _ _ _ l.1 Hmv1).
Qed.

(** [_reserve_stock_direct]: it commits nothing; when it fails the session
    is as before; when it succeeds the line is reserved. *)
Lemma reserve_stock_direct_run product_id quantity order_id s :
  match OrderService._reserve_stock_direct product_id quantity order_id s with
  | (Raise _, s') => s' = s
  | (Ok _, s') =>
      committed s' = committed s
      ∧ same_other_tables (working s) (working s')
      ∧ order_items (working s') = order_items (working s)
      ∧ (∃ l, inventory_logs (working s') = inventory_logs (working s) ++ [l]
              ∧ movement l = (product_id, - quantity)
              ∧ l_order_id l = Some order_id ∧ l_reason l = "order_placed")
      ∧ stocks_moved (λ pid, if bool_decide (pid = product_id) then - quantity else 0)
          (working s) (working s')
      ∧ is_Some (products (working s) !! product_id)
  end.
Proof.
  destruct s as [cm st].
  unfold OrderService._reserve_stock_direct, bind, get_db. cbn.
  destruct (products st !! product_id) as [p|] eqn:Hp; [|done].
  destruct (p_stock p <? quantity); [done|]. cbn.
  split; [done|]. split; [by repeat split|]. split; [done|].
  split; [by eexists|]. split; [|by eexists].
  replace (p_stock p - quantity) with (p_stock p + - quantity) by lia.
  exact (stocks_moved_insert st product_id p (- quantity) Hp).
Qed.

(** [_reserve_stock] on a cart line behaves as the direct reservation of
    its product and quantity, up to the exception it raises. *)
Lemma reserve_stock_as_direct cart_item order_id s :
  match OrderService._reserve_stock cart_item order_id s,
        OrderService._reserve_stock_direct (ci_product_id cart_item)
          (ci_quantity cart_item) order_id s with
  | (Ok _, s1), (Ok _, s2) => s1 = s2
  | (Raise _, s1), (Raise _, s2) => s1 = s2
  | _, _ => False
  end.
Proof.
  unfold OrderService._reserve_stock, OrderService._reserve_stock_direct, bind, get_db.
  cbn. destruct (products (working s) !! ci_product_id cart_item) as [p|]; [|done].
  by destruct (p_stock p <? ci_quantity cart_item).
Qed.

Section reservation_loop.
Context {A : Type} (line_of : A → Z * Z) (order_id : Z) (body : A → M unit).

Hypothesis body_run : ∀ x s,
  match body x s with
  | (Raise _, s') => committed s' = committed s
  | (Ok _, s') =>
      committed s' = committed s
      ∧ lines_reserved order_id [line_of x] (working s) (working s')
  end.

Lemma reservation_loop_run items s :
  match for_each items body s with
  | (Raise _, s') => committed s' = committed s
  | (Ok _, s') =>
      committed s' = committed s
      ∧ lines_reserved order_id (line_of <$> items) (working s) (working s')
  end.
Proof.
  revert s. induction items as [|x rest IH]; intros s.
  - cbn. split; [done | apply lines_reserved_nil].
  - cbn [for_each]. unfold bind. pose proof (body_run x s) as Hx.
    destruct (body x s) as [[[]|e] s1]; [|done].
    destruct Hx as [Hcm1 Hres1]. pose proof (IH s1) as Hrest.
    destruct (for_each rest body s1) as [[[]|e] s2]; [|congruence].
    destruct Hrest as [Hcm2 Hres2].
    split; [congruence|]. rewrite fmap_cons.
    by eapply lines_reserved_cons.
Qed.
End reservation_loop.

Lemma place_guest_line_run order_id item_data s :
  match OrderService.place_guest_line order_id item_data s with
  | (Raise _, s') => committed s' = committed s
  | (Ok _, s') =>
      committed s' = committed s
      ∧ lines_reserved order_id [validated_line item_data] (working s) (working s')
  end.
Proof.
  unfold OrderService.place_guest_line. unfold bind at 1, modify_db at 1.
  cbv beta iota.
  match goal with |- context [OrderService._reserve_stock_direct ?p ?q ?o ?s1] =>
    pose proof (reserve_stock_direct_run p q o s1) as Hrun;
    destruct (OrderService._reserve_stock_direct p q o s1) as [[[]|e] s2]
  end.
  - destruct Hrun as (Hcm & (Hv & Ha & Hc & Hci & Ho & Hh) & Hoi
                      & (l & Hl & Hm & Hlo & Hlr) & Hmv & Hex).
    split; [done|]. split; [by repeat split|].
    split; [eexists [_]; split; [exact Hoi | reflexivity]|].
    split; [|split].
    + exists [l]. split; [done|]. split; [by rewrite list_fmap_singleton, Hm|].
      by repeat constructor.
    + eapply stocks_moved_ext; [|exact Hmv].
      intros pid. cbn. repeat case_bool_decide; try lia; congruence.
    + by repeat constructor.
  - by subst s2.
Qed.

Lemma place_cart_line_run order_id cart_item s :
  match OrderService.place_cart_line order_id cart_item s with
  | (Raise _, s') => committed s' = committed s
  | (Ok _, s') =>
      committed s' = committed s
      ∧ lines_reserved order_id [cart_line cart_item] (working s) (working s')
  end.
Proof.
  unfold OrderService.place_cart_line. unfold bind at 1, get_db at 1.
  cbv beta iota. unfold OrderService._create_order_item.
  destruct (unit_price_or_product_price (working s) cart_item) as [price|e];
    cbn [lift_result]; [|done].
  unfold bind at 1, ret at 1. cbv beta iota.
  unfold bind at 1, modify_db at 1. cbv beta iota.
  match goal with |- context [OrderService._reserve_stock ?c ?o ?s1] =>
    pose proof (reserve_stock_as_direct c o s1) as Hdirect;
    pose proof (reserve_stock_direct_run (ci_product_id c) (ci_quantity c) o s1) as Hrun;
    destruct (OrderService._reserve_stock c o s1) as [[[]|e] s2];
    destruct (OrderService._reserve_stock_direct (ci_product_id c) (ci_quantity c) o s1)
      as [[[]|e'] s3]; try done; subst s3
  end.
  - destruct Hrun as (Hcm & (Hv & Ha & Hc & Hci & Ho & Hh) & Hoi
                      & (l & Hl & Hm & Hlo & Hlr) & Hmv & Hex).
    split; [done|]. split; [by repeat split|].
    split; [eexists [_]; split; [exact Hoi | reflexivity]|].
    split; [|split].
    + exists [l]. split; [done|]. split; [by rewrite list_fmap_singleton, Hm|].
      by repeat constructor.
    + eapply stocks_moved_ext; [|exact Hmv].
      intros pid. cbn. repeat case_bool_decide; try lia; congruence.
    + by repeat constructor.
  - by subst s2.
Qed.

Lemma try_except_rollback_run {A} (body : M A) (f : exn → exn) s :
  match body s with
  | (Raise _, s') => committed s' = committed s
  | (Ok _, _) => True
  end →
  match try_except body (λ e, db_rollback ;;; raise (f e)) s with
  | (Raise _, s') => committed s' = committed s ∧ working s' = committed s
  | (Ok r, s') => body s = (Ok r, s')
  end.
Proof.
  unfold try_except. destruct (body s) as [[r|e] s1]; [done|].
  intros Hcm. unfold bind, db_rollback, raise. cbn. by rewrite Hcm.
Qed.

Lemma create_order_from_cart_try_run now order_number user_id order_data cart_id items s :
  match OrderService.create_order_from_cart_try now order_number user_id order_data
          cart_id items s with
  | (Raise _, s') => committed s' = committed s
  | (Ok r, s') =>
      order_created (Some user_id) (cart_line <$> items) s r s'
      ∧ carts (working s')
        = alter (CartService.set_cart_status CartStatus.CONVERTED) cart_id
            (carts (working s))
  end.
Proof.
  unfold OrderService.create_order_from_cart_try.
  unfold bind at 1, get_db at 1. cbv beta iota.
  destruct (OrderService._calculate_order_totals (working s) items) as [totals|e];
    cbn [lift_result]; [|done].
  unfold bind at 1, ret at 1. cbv beta iota zeta.
  unfold bind at 1, modify_db at 1. cbv beta iota.
  unfold bind at 1.
  match goal with |- context [for_each items ?body ?s1] =>
    pose proof (reservation_loop_run cart_line _ body
                  (place_cart_line_run _) items s1) as Hloop;
    destruct (for_each items body s1) as [[[]|e] [cm2 st2]]
  end; [|exact Hloop].
  cbn in Hloop.
  destruct Hloop as (-> & (Hv & Ha & Hc & Hci & Ho & Hh) & Heff).
  unfold OrderService._record_status_change, CartService.mark_cart_converted,
    bind, modify_db, db_commit, get_db, ret. cbn in *.
  rewrite Ho, lookup_insert_eq. cbn.
  split; [|by rewrite Hc].
  unfold order_created. cbn. rewrite Hh.
  do 5 (split; [done|]). split; [exact Heff | done].
Qed.

Lemma create_guest_order_try_run now order_number order_data items totals s :
  match OrderService.create_guest_order_try now order_number order_data items totals s with
  | (Raise _, s') => committed s' = committed s
  | (Ok r, s') =>
      order_created None (validated_line <$> items) s r s'
      ∧ carts (working s') = carts (working s)
  end.
Proof.
  unfold OrderService.create_guest_order_try.
  unfold bind at 1, get_db at 1. cbv beta iota zeta.
  unfold bind at 1, modify_db at 1. cbv beta iota.
  unfold bind at 1.
  match goal with |- context [for_each items ?body ?s1] =>
    pose proof (reservation_loop_run validated_line _ body
                  (place_guest_line_run _) items s1) as Hloop;
    destruct (for_each items body s1) as [[[]|e] [cm2 st2]]
  end; [|exact Hloop].
  cbn in Hloop.
  destruct Hloop as (-> & (Hv & Ha & Hc & Hci & Ho & Hh) & Heff).
  unfold OrderService._record_status_change,
    bind, modify_db, db_commit, get_db, ret. cbn in *.
  rewrite Ho, lookup_insert_eq. cbn.
  split; [|done].
  unfold order_created. cbn. rewrite Hh.
  do 5 (split; [done|]). split; [exact Heff | done].
Qed.

Lemma validate_items_lines st items acc subtotal validated total :
  OrderService.validate_items st items acc subtotal = Ok (validated, total) →
  validated_line <$> validated = (validated_line <$> acc) ++ (guest_line <$> items).
Proof.
  revert acc subtotal. induction items as [|it rest IH]; intros acc subtotal; cbn.
  - intros [= <- _]. by rewrite app_nil_r.
  - destruct (products st !! oic_product_id it) as [p|]; [|done].
    destruct (negb (p_is_active p)); [done|].
    destruct (p_stock p <? oic_quantity it); [done|].
    intros H. rewrite (IH _ _ H), fmap_app, <- app_assoc. done.
Qed.

Lemma get_cart_run user_id session_id s :
  ∃ cart, CartService.get_cart user_id session_id s = (Ok cart, s).
Proof.
  unfold CartService.get_cart, bind, get_db. cbn.
  destruct (opt_int_truthy user_id); [by eexists|].
  destruct (opt_str_truthy session_id); by eexists.
Qed.

Lemma validate_cart_for_checkout_run cart_id s :
  ∃ v, CartService.validate_cart_for_checkout cart_id s = (Ok v, s).
Proof.
  unfold CartService.validate_cart_for_checkout, bind, get_db. cbn.
  destruct (items_of_cart (working s) cart_id); by eexists.
Qed.

(** [create_order_from_cart] fails before it changes anything, or enters
    its [try] block with the lines of the user's active cart. *)
Lemma create_order_from_cart_cases now order_number user_id order_data s :
  (∃ e, OrderService.create_order_from_cart now order_number user_id order_data s
        = (Raise e, s))
  ∨ (∃ cart_id cart,
       CartService.get_cart (Some user_id) None s = (Ok (Some (cart_id, cart)), s)
       ∧ OrderService.create_order_from_cart now order_number user_id order_data s
         = try_except
             (OrderService.create_order_from_cart_try now order_number user_id
                order_data cart_id (items_of_cart (working s) cart_id))
             (λ e, db_rollback ;;; raise (create_order_handler e)) s).
Proof.
  remember (OrderService.create_order_from_cart now order_number user_id order_data s)
    as outcome eqn:Hout.
  unfold OrderService.create_order_from_cart in Hout.
  destruct (get_cart_run (Some user_id) None s) as [cart Hcart].
  rewrite (bind_ok _ _ _ _ _ Hcart) in Hout.
  unfold bind at 1, get_db at 1 in Hout. cbv beta iota in Hout.
  destruct cart as [[cart_id cart]|]; [|left; by eexists].
  cbv zeta in Hout. case_bool_decide; [left; by eexists|].
  destruct (validate_cart_for_checkout_run cart_id s) as [v Hv].
  rewrite (bind_ok _ _ _ _ _ Hv) in Hout.
  destruct (negb v.1); [left; by eexists|].
  destruct (query_by_id _ _ _); [|left; by eexists].
  right. by exists cart_id, cart.
Qed.

(** [create_guest_order] fails on validation before it changes anything,
    or enters its [try] block with the validated lines. *)
Lemma create_guest_order_cases now order_number order_data s :
  (∃ e, OrderService.create_guest_order now order_number order_data s = (Raise e, s))
  ∨ (∃ validated totals,
       validated_line <$> validated = guest_line <$> g_items order_data
       ∧ OrderService.create_guest_order now order_number order_data s
         = try_except
             (OrderService.create_guest_order_try now order_number order_data
                validated totals)
             (λ e, db_rollback ;;; raise (create_guest_order_handler e)) s).
Proof.
  remember (OrderService.create_guest_order now order_number order_data s)
    as outcome eqn:Hout.
  unfold OrderService.create_guest_order in Hout.
  unfold bind at 1, get_db at 1 in Hout. cbv beta iota in Hout.
  unfold OrderService._validate_and_calculate_items in Hout.
  destruct (OrderService.validate_items (working s) (g_items order_data) [] (dec 0))
    as [[validated subtotal]|e] eqn:Hval; cbn [lift_result] in Hout;
    [|left; exists e; subst outcome; reflexivity].
  unfold bind at 1, ret at 1 in Hout. cbv beta iota in Hout. cbn [fst snd] in Hout.
  right. eexists validated, _. split; [|exact Hout].
  by apply validate_items_lines in Hval.
Qed.

(** A [try] block that commits nothing unless it succeeds, under a handler
    that rolls back, is all or nothing. *)
Lemma try_except_all_or_nothing {A} (body : M A) (f : exn → exn)
    (created : A → Session → Prop) s :
  match body s with
  | (Raise _, s') => committed s' = committed s
  | (Ok r, s') => created r s'
  end →
  all_or_nothing created s (try_except body (λ e, db_rollback ;;; raise (f e)) s).
Proof.
  intros Hbody.
  pose proof (try_except_rollback_run body f s) as Hexc.
  destruct (body s) as [[r|e] s1] eqn:Hrun.
  - unfold try_except in *. by rewrite Hrun.
  - specialize (Hexc Hbody).
    destruct (try_except _ _ s) as [[r|e'] s']; [done|].
    destruct Hexc as [Hcm Hw]. split; [done | by right].
Qed.

(** C3. Order creation is all or nothing.  [create_order_from_cart] and
    [create_guest_order] either fail, and then nothing is applied: the
    database (products, ledger, orders, order items, history, carts) is
    exactly as before the call and the session holds no pending change of
    the attempt; or they succeed, and then the order row, one order item,
    one stock decrement and one ledger entry per line, and the initial
    history row are committed together (with the cart marked CONVERTED for
    a cart order). *)
Theorem order_creation_atomic now order_number s :
  (∀ user_id order_data,
     all_or_nothing (cart_order_created user_id s) s
       (OrderService.create_order_from_cart now order_number user_id order_data s))
  ∧ (∀ order_data,
       all_or_nothing (guest_order_created order_data s) s
         (OrderService.create_guest_order now order_number order_data s)).
Proof.
  split.
  - intros user_id order_data.
    destruct (create_order_from_cart_cases now order_number user_id order_data s)
      as [[e ->]|(cart_id & cart & Hcart & ->)].
    + split; [done | by left].
    + apply try_except_all_or_nothing.
      pose proof (create_order_from_cart_try_run now order_number user_id order_data
                    cart_id (items_of_cart (working s) cart_id) s) as Htry.
      destruct (OrderService.create_order_from_cart_try _ _ _ _ _ _ s) as [[r|e] s'];
        [|done].
      exists cart_id, cart. by destruct Htry.
  - intros order_data.
    destruct (create_guest_order_cases now order_number order_data s)
      as [[e ->]|(validated & totals & Hlines & ->)].
    + split; [done | by left].
    + apply try_except_all_or_nothing.
      pose proof (create_guest_order_try_run now order_number order_data
                    validated totals s) as Htry.
      destruct (OrderService.create_guest_order_try _ _ _ _ _ s) as [[r|e] s'];
        [|done].
      unfold guest_order_created. by rewrite <- Hlines.
Qed.

(** Order creation does succeed, and does fail half-way: with two lines
    of the same product the pre-check passes on the variation's stock, the
    first line is reserved, the second finds the product's stock too low,
    and the rollback leaves the session as it was. *)
Example create_order_succeeds :
  let s := clean_session checkout_store in
  let c := OrderService.create_order_from_cart 1000 "ORD-1" 7 checkout_data s in
  (ok_or (0, widget_order EmptyString 0) c.1).1 = 1
  ∧ p_stock <$> products (committed c.2) !! 1 = Some 3
  ∧ movement <$> inventory_logs (committed c.2) = [(1, -2)].
Proof. by vm_compute. Qed.

Example create_order_rolls_back :
  let s := clean_session overbooked_store in
  OrderService.create_order_from_cart 1000 "ORD-1" 7 checkout_data s
  = (Raise (OrderError (MsgFailedToCreateOrder (MsgInsufficientStockFor "Widget"))
              HTTP_500_INTERNAL_SERVER_ERROR), s).
Proof. reflexivity. Qed.

(** ** Cancellation undoes the reservation *)

Lemma next_id_above {V} (m : gmap Z V) k :
  is_Some (m !! k) → k < next_id m.
Proof.
  unfold next_id.
  apply (map_fold_weak_ind
           (λ r (m : gmap Z V), is_Some (m !! k) → k < 1 + r)
           (λ k _ acc, Z.max k acc) 0).
  - rewrite lookup_empty. by intros [? ?].
  - intros i x m' r _ IH. rewrite lookup_insert. case_decide; [lia|].
    intros H'. specialize (IH H'). lia.
Qed.

Lemma next_id_fresh {V} (m : gmap Z V) : m !! next_id m = None.
Proof.
  destruct (m !! next_id m) eqn:H; [|done].
  assert (next_id m < next_id m) by (apply next_id_above; by eexists). lia.
Qed.

Lemma filter_all {A} (P : A → Prop) `{∀ x, Decision (P x)} (l : list A) :
  Forall P l → filter P l = l.
Proof.
  induction 1 as [|x l Hx _ IH]; [done|]. by rewrite filter_cons_True, IH.
Qed.

Lemma filter_none {A} (P : A → Prop) `{∀ x, Decision (P x)} (l : list A) :
  Forall (λ x, ¬ P x) l → filter P l = [].
Proof.
  induction 1 as [|x l Hx _ IH]; [done|]. by rewrite filter_cons_False, IH.
Qed.

Lemma item_keys_order order_id (lines : list (Z * Z)) items :
  item_key <$> items = (λ l, (order_id, Some l.1, l.2)) <$> lines →
  Forall (λ it, oi_order_id it = order_id) items.
Proof.
  revert lines. induction items as [|it rest IH]; intros lines Hk; [constructor|].
  destruct lines as [|l lines]; [done|].
  rewrite !fmap_cons in Hk. injection Hk as Ho Hp Hq Hrest. 
  constructor; [done|by eapply IH].
Qed.

Lemma ordered_quantity_lines order_id (lines : list (Z * Z)) items pid :
  item_key <$> items = (λ l, (order_id, Some l.1, l.2)) <$> lines →
  ordered_quantity pid items = lines_quantity pid lines.
Proof.
  revert lines. induction items as [|it rest IH]; intros lines Hk;
    destruct lines as [|[p q] lines]; try done.
  rewrite !fmap_cons in Hk. injection Hk as Ho Hp Hq Hrest.
  cbn. rewrite (IH _ Hrest), Hp, Hq. cbn.
  repeat case_bool_decide; congruence.
Qed.

Lemma released_lines st order_id (lines : list (Z * Z)) items :
  item_key <$> items = (λ l, (order_id, Some l.1, l.2)) <$> lines →
  Forall (λ l, is_Some (products st !! l.1)) lines →
  omap (released st) items = lines.
Proof.
  revert lines. induction items as [|it rest IH]; intros lines Hk Hex;
    destruct lines as [|[p q] lines]; try done.
  rewrite !fmap_cons in Hk. injection Hk as Ho Hp Hq Hrest.
  apply list.Forall_cons in Hex as [Hpx Hex].
  cbn. rewrite (IH _ Hrest Hex).
  unfold released. rewrite Hp, Hq. cbn in *.
  by rewrite bool_decide_eq_true_2.
Qed.

(** A cancellation that succeeded passed the checks. *)
Lemma cancel_order_ok_inv s now order_id user_id reason is_admin r s' :
  OrderService.cancel_order now order_id user_id reason is_admin s = (Ok r, s') →
  ∃ order new_logs,
    orders (working s) !! order_id = Some order
    ∧ cancelled s now order_id order user_id reason r s' new_logs.
Proof.
  intros Hrun.
  destruct (orders (working s) !! order_id) as [order|] eqn:Horder.
  2: { unfold OrderService.cancel_order in Hrun.
       unfold bind at 1, get_db at 1 in Hrun. by rewrite Horder in Hrun. }
  assert (Hpre : may_act_on order user_id is_admin
                 ∧ cancellable_status (o_status order)
                 ∧ (is_admin = true ∨ now - o_created_at order ≤ hours 24)).
  { unfold OrderService.cancel_order in Hrun.
    unfold bind at 1, get_db at 1 in Hrun. rewrite Horder in Hrun.
    destruct (negb is_admin && negb (bool_decide (o_user_id order = Some user_id)))
      eqn:H1; [done|].
    destruct (is_cancellable order) eqn:H2; [|done]. cbn [negb] in Hrun.
    destruct (negb is_admin && OrderService.window_expired now (o_created_at order))
      eqn:H3; [done|].
    split; [|split].
    - unfold may_act_on. destruct is_admin; [by left|right].
      cbn in H1. apply negb_false_iff in H1. by apply bool_decide_eq_true in H1.
    - by apply is_cancellable_status.
    - destruct is_admin; [by left|right]. cbn in H3.
      destruct (Z.le_gt_cases (now - o_created_at order) (hours 24)) as [?|Hlate];
        [done|].
      apply window_expired_hours in Hlate. congruence. }
  destruct Hpre as (Hact & Hstatus & Hwindow).
  destruct (cancel_order_run s now order_id order user_id reason is_admin
              Horder Hact Hstatus Hwindow)
    as (r0 & s0 & new_logs & Hrun0 & Hcancelled).
  rewrite Hrun0 in Hrun. injection Hrun as <- <-. eauto.
Qed.

Lemma cancel_after_creation changed_by lines s r s1
    now user_id reason is_admin r' s2 :
  no_dangling_items (working s) →
  order_created changed_by lines s r s1 →
  OrderService.cancel_order now r.1 user_id reason is_admin s1 = (Ok r', s2) →
  reservation_undone s s1 s2.
Proof.
  intros Hfk (Hcm1 & Hid & Ho1 & Hst1 & Hh1
              & ((new_items & Hoi1 & Hkeys) & (placed & Hlog1 & Hplaced & _)
                 & Hmv1 & Hex) & _) Hcancel.
  apply cancel_order_ok_inv in Hcancel
    as (order & released_logs & Horder
        & (_ & Hcm2 & _ & _ & _ & _ & _ & Hmv2 & Hlog2 & Hreleased)).
  assert (Hitems : items_of_order (working s1) r.1 = new_items).
  { unfold items_of_order. rewrite Hoi1, list.filter_app.
    rewrite filter_none, filter_all; [done | by eapply item_keys_order |].
    apply list.Forall_forall. intros it Hit Heq.
    apply Hfk in Hit as [o Ho]. rewrite Heq, Hid, next_id_fresh in Ho. done. }
  rewrite Hitems in Hmv2, Hreleased.
  assert (Hproducts : products (working s2) = products (working s)).
  { apply map_eq. intros pid. rewrite Hmv2, Hmv1.
    rewrite (ordered_quantity_lines _ _ _ _ Hkeys).
    destruct (products (working s) !! pid) as [p|]; [|done].
    destruct p. unfold set_stock. cbn. do 2 f_equal. lia. }
  split; [done|]. split; [by rewrite Hcm2|].
  exists placed, released_logs. split; [done|]. split; [done|].
  rewrite Hreleased, list_fmap_compose, Hplaced.
  rewrite (released_lines _ _ _ _ Hkeys).
  - rewrite <- list_fmap_compose. rewrite <- (list_fmap_id lines) at 1.
    apply list_fmap_ext. intros _ [p q] _. unfold opposite. cbn. f_equal. lia.
  - eapply list.Forall_impl; [exact Hex|].
    intros l Hl. by apply (stocks_moved_is_Some _ _ _ l.1 Hmv1).
Qed.

Lemma create_order_from_cart_ok now order_number user_id order_data s r s1 :
  OrderService.create_order_from_cart now order_number user_id order_data s
  = (Ok r, s1) →
  ∃ cart_id,
    order_created (Some user_id)
      (cart_line <$> items_of_cart (working s) cart_id) s r s1.
Proof.
  intros Hcreate.
  destruct (create_order_from_cart_cases now order_number user_id order_data s)
    as [[e He]|(cart_id & cart & _ & Hcase)]; [congruence|].
  rewrite Hcase in Hcreate. exists cart_id.
  pose proof (create_order_from_cart_try_run now order_number user_id order_data
                cart_id (items_of_cart (working s) cart_id) s) as Htry.
  unfold try_except in Hcreate.
  destruct (OrderService.create_order_from_cart_try _ _ _ _ _ _ s) as [[r0|e] s0].
  - injection Hcreate as <- <-. by destruct Htry.
  - unfold bind, db_rollback, raise in Hcreate. discriminate.
Qed.

Lemma create_guest_order_ok now order_number order_data s r s1 :
  OrderService.create_guest_order now order_number order_data s = (Ok r, s1) →
  order_created None (guest_line <$> g_items order_data) s r s1.
Proof.
  intros Hcreate.
  destruct (create_guest_order_cases now order_number order_data s)
    as [[e He]|(validated & totals & Hlines & Hcase)]; [congruence|].
  rewrite Hcase in Hcreate. rewrite <- Hlines.
  pose proof (create_guest_order_try_run now order_number order_data
                validated totals s) as Htry.
  unfold try_except in Hcreate.
  destruct (OrderService.create_guest_order_try _ _ _ _ _ s) as [[r0|e] s0].
  - injection Hcreate as <- <-. by destruct Htry.
  - unfold bind, db_rollback, raise in Hcreate. discriminate.
Qed.

(** C4. Cancellation is the exact inverse of reservation.  A successful
    [cancel_order] raises the stock of every product by the quantity the
    items of the order hold of it, and touches no other product.  When
    the order was created by [create_order_from_cart] or
    [create_guest_order], which lower the stock of each line's product by
    the line's quantity, and is then cancelled, every product has the stock
    it had before the order, and the ledger entries written by the
    cancellation name the same products with the same quantities as those
    written by the creation, with the opposite sign. *)
Theorem cancel_restores_reserved_stock now order_number s r s1
    now' actor reason is_admin r' s2 :
  OrderService.cancel_order now' r.1 actor reason is_admin s1 = (Ok r', s2) →
  stocks_moved (λ pid, ordered_quantity pid (items_of_order (working s1) r.1))
    (working s1) (working s2)
  ∧ (no_dangling_items (working s) →
     ((∃ user_id order_data,
         OrderService.create_order_from_cart now order_number user_id order_data s
         = (Ok r, s1))
      ∨ (∃ order_data,
         OrderService.create_guest_order now order_number order_data s = (Ok r, s1))) →
     reservation_undone s s1 s2).
Proof.
  intros Hcancel. split.
  - apply cancel_order_ok_inv in Hcancel as (order & new_logs & _ & Hcancelled).
    by destruct Hcancelled as (_ & _ & _ & _ & _ & _ & _ & Hmv & _).
  - intros Hfk Hcreate.
    destruct Hcreate as [(user_id & order_data & Hcreate)|(order_data & Hcreate)].
    + apply create_order_from_cart_ok in Hcreate as [cart_id Hcreated].
      by eapply cancel_after_creation.
    + apply create_guest_order_ok in Hcreate.
      by eapply cancel_after_creation.
Qed.

Lemma checkout_store_no_dangling : no_dangling_items checkout_store.
Proof. intros it Hit. by apply elem_of_nil in Hit. Qed.

Lemma cancel_restores_reserved_stock_witness :
  let s := clean_session checkout_store in
  let c := OrderService.create_order_from_cart 1000 "ORD-1" 7 checkout_data s in
  let r := ok_or (0, widget_order EmptyString 0) c.1 in
  let x := OrderService.cancel_order 2000 r.1 7 None false c.2 in
  stocks_moved (λ pid, ordered_quantity pid (items_of_order (working c.2) r.1))
    (working c.2) (working x.2)
  ∧ reservation_undone s c.2 x.2.
Proof.
  intros s c r x.
  destruct (cancel_restores_reserved_stock 1000 "ORD-1" s r c.2 2000 7 None false
              (ok_or (0, widget_order EmptyString 0) x.1) x.2) as [Hmoved Hundone].
  - vm_compute. reflexivity.
  - split; [exact Hmoved|]. apply Hundone.
    + exact checkout_store_no_dangling.
    + left. exists 7, checkout_data. vm_compute. reflexivity.
Defined.

(** ** The ledger across whole service calls *)

Lemma ledger_sum_movements pid logs :
  ledger_sum pid logs = movements_sum pid (movement <$> logs).
Proof. induction logs as [|l logs IH]; cbn; [done|]. by rewrite IH. Qed.

Lemma movements_sum_reserved pid (lines : list (Z * Z)) :
  movements_sum pid ((λ l, (l.1, - l.2)) <$> lines) = - lines_quantity pid lines.
Proof.
  induction lines as [|[p q] lines IH]; cbn; [done|].
  rewrite IH. case_bool_decide; lia.
Qed.

Lemma movements_sum_released st pid items :
  is_Some (products st !! pid) →
  movements_sum pid (omap (released st) items) = ordered_quantity pid items.
Proof.
  intros Hp. induction items as [|it items IH]; cbn; [done|].
  unfold released at 1. destruct (oi_product_id it) as [p|].
  - case_bool_decide as Hex; cbn.
    + rewrite IH. repeat case_bool_decide; congruence.
    + rewrite IH. case_bool_decide as Heq; [|done].
      injection Heq as ->. done.
  - rewrite IH. by rewrite bool_decide_eq_false_2.
Qed.

(** Stocks moved by [delta] and a ledger extended by entries that sum to
    [delta]: the ledger stays consistent. *)
Lemma moved_and_logged_consistent baseline st st' delta new_logs :
  ledger_consistent baseline st →
  stocks_moved delta st st' →
  inventory_logs st' = inventory_logs st ++ new_logs →
  (∀ pid, is_Some (products st !! pid) → ledger_sum pid new_logs = delta pid) →
  ledger_consistent baseline st'.
Proof.
  intros Hinv Hmv Hlog Hsum pid p'. rewrite Hmv, Hlog, ledger_sum_app.
  destruct (products st !! pid) as [p|] eqn:Hp; [|done].
  intros [= <-]. cbn. rewrite (Hinv pid p Hp), Hsum by (by eexists). lia.
Qed.

Lemma order_created_consistent baseline changed_by lines s r s' :
  ledger_consistent baseline (working s) →
  order_created changed_by lines s r s' →
  session_consistent baseline s'.
Proof.
  intros Hinv (Hcm & _ & _ & _ & _ & (_ & (placed & Hlog & Hplaced & _) & Hmv & _) & _).
  assert (ledger_consistent baseline (working s')).
  { eapply moved_and_logged_consistent; [done..|].
    intros pid _. by rewrite ledger_sum_movements, Hplaced, movements_sum_reserved. }
  split; [by rewrite Hcm | done].
Qed.

Lemma nothing_applied_consistent baseline s s' :
  session_consistent baseline s → nothing_applied s s' →
  session_consistent baseline s'.
Proof.
  intros [Hcm Hw] [Hsame [->|Hrolled]]; [done|].
  split; by rewrite ?Hsame, ?Hrolled.
Qed.

Lemma create_order_from_cart_raise now order_number user_id order_data s e s' :
  OrderService.create_order_from_cart now order_number user_id order_data s
  = (Raise e, s') →
  nothing_applied s s'.
Proof.
  intros Hrun.
  destruct (create_order_from_cart_cases now order_number user_id order_data s)
    as [[e0 He]|(cart_id & cart & _ & Hcase)].
  { rewrite He in Hrun. injection Hrun as _ <-. split; [done | by left]. }
  rewrite Hcase in Hrun.
  pose proof (try_except_rollback_run
                (OrderService.create_order_from_cart_try now order_number user_id
                   order_data cart_id (items_of_cart (working s) cart_id))
                create_order_handler s) as Hexc.
  rewrite Hrun in Hexc. destruct Hexc as [Hcm Hw]; [|split; [done | by right]].
  pose proof (create_order_from_cart_try_run now order_number user_id order_data
                cart_id (items_of_cart (working s) cart_id) s) as Htry.
  by destruct (OrderService.create_order_from_cart_try _ _ _ _ _ _ s) as [[?|?] ?].
Qed.

Lemma create_guest_order_raise now order_number order_data s e s' :
  OrderService.create_guest_order now order_number order_data s = (Raise e, s') →
  nothing_applied s s'.
Proof.
  intros Hrun.
  destruct (create_guest_order_cases now order_number order_data s)
    as [[e0 He]|(validated & totals & _ & Hcase)].
  { rewrite He in Hrun. injection Hrun as _ <-. split; [done | by left]. }
  rewrite Hcase in Hrun.
  pose proof (try_except_rollback_run
                (OrderService.create_guest_order_try now order_number order_data
                   validated totals)
                create_guest_order_handler s) as Hexc.
  rewrite Hrun in Hexc. destruct Hexc as [Hcm Hw]; [|split; [done | by right]].
  pose proof (create_guest_order_try_run now order_number order_data
                validated totals s) as Htry.
  by destruct (OrderService.create_guest_order_try _ _ _ _ _ s) as [[?|?] ?].
Qed.

(** X23. The ledger accounts for the stock across whole service calls.
    When [stock = baseline + Σ change_quantity] holds of every product, in
    the database and through the session, it still does after any call of
    [create_order_from_cart], [create_guest_order], [cancel_order] or
    [update_stock], whatever the arguments and whether the call returns or
    raises. *)
Lemma services_keep_ledger_consistent baseline s :
  session_consistent baseline s →
  (∀ now order_number user_id order_data,
     session_consistent baseline
       (OrderService.create_order_from_cart now order_number user_id order_data s).2)
  ∧ (∀ now order_number order_data,
       session_consistent baseline
         (OrderService.create_guest_order now order_number order_data s).2)
  ∧ (∀ now order_id user_id reason is_admin,
       session_consistent baseline
         (OrderService.cancel_order now order_id user_id reason is_admin s).2)
  ∧ (∀ product_id change_quantity reason admin_id,
       session_consistent baseline
         (InventoryService.update_stock product_id change_quantity reason admin_id s).2).
Proof.
  intros Hs. pose proof Hs as [Hcm Hw]. split; [|split; [|split]].
  - intros now order_number user_id order_data.
    destruct (OrderService.create_order_from_cart now order_number user_id order_data s)
      as [[r|e] s'] eqn:Hrun; cbn.
    + apply create_order_from_cart_ok in Hrun as [cart_id Hcreated].
      by eapply order_created_consistent.
    + apply create_order_from_cart_raise in Hrun.
      by eapply nothing_applied_consistent.
  - intros now order_number order_data.
    destruct (OrderService.create_guest_order now order_number order_data s)
      as [[r|e] s'] eqn:Hrun; cbn.
    + apply create_guest_order_ok in Hrun.
      by eapply order_created_consistent.
    + apply create_guest_order_raise in Hrun.
      by eapply nothing_applied_consistent.
  - intros now order_id user_id reason is_admin.
    destruct (OrderService.cancel_order now order_id user_id reason is_admin s)
      as [[r|e] s'] eqn:Hrun.
    + cbn. apply cancel_order_ok_inv in Hrun
        as (order & new_logs & _
            & (_ & Hcm' & _ & _ & _ & _ & _ & Hmv & Hlog & Hnew)).
      assert (ledger_consistent baseline (working s')).
      { eapply moved_and_logged_consistent; [done..|].
        intros pid Hp. by rewrite ledger_sum_movements, Hnew, movements_sum_released. }
      split; [by rewrite Hcm' | done].
    + cbn. unfold OrderService.cancel_order in Hrun.
      unfold bind at 1, get_db at 1 in Hrun.
      destruct (orders (working s) !! order_id) as [order|]; [|by injection Hrun as _ <-].
      destruct (negb is_admin && negb (bool_decide (o_user_id order = Some user_id)));
        [by injection Hrun as _ <-|].
      destruct (negb (is_cancellable order)); [by injection Hrun as _ <-|].
      destruct (negb is_admin && OrderService.window_expired now (o_created_at order));
        [by injection Hrun as _ <-|].
      destruct (release_loop_run order_id (items_of_order (working s) order_id) s)
        as (s1 & logs & Hloop & _).
      rewrite (bind_ok _ _ _ _ _ Hloop) in Hrun.
      unfold update_order, OrderService._record_status_change, bind, modify_db,
        db_commit, get_db, ret in Hrun. discriminate.
  - intros product_id change_quantity reason admin_id.
    destruct s as [cm st]. cbn in Hw.
    unfold InventoryService.update_stock, bind, get_db. cbn.
    destruct (products st !! product_id) as [p|] eqn:Hp; [|done].
    destruct (p_stock p + change_quantity <? 0); [done|]. cbn.
    split; by apply (stock_change_consistent baseline st _ p
                       {| l_change_quantity := change_quantity |}).
Qed.

Lemma services_keep_ledger_consistent_witness :
  let s := clean_session checkout_store in
  session_consistent (λ _, 5)
    (OrderService.create_order_from_cart 1000 "ORD-1" 7 checkout_data s).2
  ∧ session_consistent (λ _, 5)
      (InventoryService.update_stock 1 (-2) "recount" (Some 99) s).2.
Proof.
  destruct (services_keep_ledger_consistent (λ _, 5) (clean_session checkout_store)
              (conj widget_store_consistent widget_store_consistent))
    as (Hcart & _ & _ & Hupdate).
  split; [apply Hcart | apply Hupdate].
Defined.

(** ** Status updates *)

Lemma alter_as_insert {V} (f : V → V) (m : gmap Z V) k v :
  m !! k = Some v → alter f k m = <[k := f v]> m.
Proof.
  intros Hk. apply map_eq. intros i. destruct (decide (i = k)) as [->|Hne].
  - by rewrite lookup_alter_eq, lookup_insert_eq, Hk.
  - by rewrite lookup_alter_ne, lookup_insert_ne.
Qed.

Lemma not_timestamped new_status :
  new_status ≠ OrderStatus.SHIPPED → new_status ≠ OrderStatus.DELIVERED →
  ¬ timestamped new_status.
Proof. by intros ?? [?|[?|?%elem_of_nil]%elem_of_cons]%elem_of_cons. Qed.

(** [update_order_status] commits nothing unless it returns.  It returns
    exactly for a valid transition to a status without timestamp, with
    notes that can be assigned; a valid transition that fails does so with
    an [AttributeError]. *)
Lemma update_order_status_run order_id new_status admin_id notes s :
  match OrderService.update_order_status order_id new_status admin_id notes s with
  | (Raise e, s') =>
      committed s' = committed s
      ∧ ∀ order,
          orders (working s) !! order_id = Some order →
          new_status ∈ OrderService._get_valid_status_transitions (o_status order) →
          (∃ m, e = AttributeError m)
          ∧ (timestamped new_status ∨ ¬ notes_assignable order notes)
  | (Ok r, s') =>
      ∃ order,
        orders (working s) !! order_id = Some order
        ∧ new_status ∈ OrderService._get_valid_status_transitions (o_status order)
        ∧ ¬ timestamped new_status
        ∧ notes_assignable order notes
        ∧ status_updated s order_id order new_status admin_id notes r s'
  end.
Proof.
  unfold OrderService.update_order_status. unfold bind at 1, get_db at 1.
  cbv beta iota.
  destruct (orders (working s) !! order_id) as [order|] eqn:Horder; [|done].
  cbv zeta. case_bool_decide as Hvalid; cbn [negb];
    [|split; [done | by intros ? [= <-]]].
  unfold bind at 1, update_order at 1, modify_db at 1. cbv beta iota.
  unfold bind at 1. unfold OrderService.assign_admin_notes.
  assert (Hlook : ∀ f, alter f order_id (orders (working s)) !! order_id
                       = Some (f order)).
  { intros f. by rewrite lookup_alter_eq, Horder. }
  assert (Hshipped : timestamped OrderStatus.SHIPPED) by (by left).
  assert (Hdelivered : timestamped OrderStatus.DELIVERED) by (right; by left).
  destruct (opt_str_truthy notes) eqn:Hnotes.
  - unfold update_order, modify_db. cbn.
    unfold bind at 1. case_bool_decide as Hs;
      [subst; split; [done|]; intros ? [= <-] _; split; [by eexists | by left]|].
    case_bool_decide as Hd;
      [subst; split; [done|]; intros ? [= <-] _; split; [by eexists | by left]|].
    unfold OrderService._record_status_change, bind, modify_db, db_commit,
      get_db, ret. cbn.
    exists order. split; [done|]. split; [done|].
    split; [by apply not_timestamped|].
    split; [by left|].
    unfold status_updated, updated_order. cbn. rewrite Hnotes.
    rewrite alter_alter_eq, Hlook. cbn.
    rewrite (alter_as_insert _ _ _ _ Horder). cbn.
    by repeat split.
  - unfold bind at 1, get_db at 1. cbn. rewrite Hlook. cbn.
    destruct (o_admin_notes order) as [old|] eqn:Hold.
    2:{ split; [done|]. intros ? [= <-] _. split; [by eexists|].
        right. intros [Hn|Hn]; [congruence|]. rewrite Hold in Hn.
        by destruct Hn. }
    unfold update_order, modify_db. cbn.
    unfold bind at 1. case_bool_decide as Hs;
      [subst; split; [done|]; intros ? [= <-] _; split; [by eexists | by left]|].
    case_bool_decide as Hd;
      [subst; split; [done|]; intros ? [= <-] _; split; [by eexists | by left]|].
    unfold OrderService._record_status_change, bind, modify_db, db_commit,
      get_db, ret. cbn.
    exists order. split; [done|]. split; [done|].
    split; [by apply not_timestamped|].
    split; [right; by rewrite Hold|].
    unfold status_updated, updated_order. cbn. rewrite Hnotes, Hold.
    rewrite alter_alter_eq, Hlook. cbn.
    rewrite (alter_as_insert _ _ _ _ Horder). cbn.
    by repeat split.
Qed.

(** X1. A status update that can go through does, and is committed as a
    whole.  For an existing order, a transition the table of
    [_get_valid_status_transitions] allows, to a status other than shipped
    and delivered, with non-empty notes (or notes assigned earlier on the
    instance): [update_order_status] returns the order with the new status
    and notes, appends the history row (old status, new status, admin,
    notes), commits, and touches neither products, ledger, order items nor
    carts. *)
Theorem status_update_applied s order_id order new_status admin_id notes :
  orders (working s) !! order_id = Some order →
  new_status ∈ OrderService._get_valid_status_transitions (o_status order) →
  ¬ timestamped new_status →
  notes_assignable order notes →
  ∃ r s',
    OrderService.update_order_status order_id new_status admin_id notes s = (Ok r, s')
    ∧ status_updated s order_id order new_status admin_id notes r s'.
Proof.
  intros Horder Hvalid Hts Hnotes.
  pose proof (update_order_status_run order_id new_status admin_id notes s) as Hrun.
  destruct (OrderService.update_order_status _ _ _ _ s) as [[r|e] s'].
  - destruct Hrun as (order' & Horder' & _ & _ & _ & Hupd).
    assert (order' = order) as -> by congruence. by exists r, s'.
  - destruct Hrun as [_ Hfail]. destruct (Hfail order Horder Hvalid) as [_ [?|?]]; done.
Qed.

Lemma status_update_applied_witness :
  let s := clean_session (ordered_store OrderStatus.PENDING 0) in
  ∃ r s',
    OrderService.update_order_status 1 OrderStatus.CONFIRMED (Some 99)
      (Some "paid by phone") s = (Ok r, s')
    ∧ status_updated s 1 (widget_order OrderStatus.PENDING 0) OrderStatus.CONFIRMED
        (Some 99) (Some "paid by phone") r s'.
Proof.
  apply (status_update_applied (clean_session (ordered_store OrderStatus.PENDING 0))).
  - reflexivity.
  - apply (bool_decide_unpack _). vm_compute. exact I.
  - apply not_timestamped; intros H; vm_compute in H; discriminate.
  - left. reflexivity.
Defined.

(** X2. The other valid transitions never go through.  For an existing
    order and a transition the table allows, when the new status is shipped
    or delivered ([shipped_at] and [delivered_at] are read-only properties of
    [Order]) or when no notes are given and none were assigned before
    ([Order] has no [admin_notes]): [update_order_status] raises an
    [AttributeError] and the database is unchanged. *)
Theorem status_update_attribute_error s order_id order new_status admin_id notes :
  orders (working s) !! order_id = Some order →
  new_status ∈ OrderService._get_valid_status_transitions (o_status order) →
  timestamped new_status ∨ ¬ notes_assignable order notes →
  ∃ m s',
    OrderService.update_order_status order_id new_status admin_id notes s
    = (Raise (AttributeError m), s')
    ∧ committed s' = committed s.
Proof.
  intros Horder Hvalid Hcause.
  pose proof (update_order_status_run order_id new_status admin_id notes s) as Hrun.
  destruct (OrderService.update_order_status _ _ _ _ s) as [[r|e] s'].
  - destruct Hrun as (order' & Horder' & _ & Hts & Hnotes & _).
    assert (order' = order) as -> by congruence. by destruct Hcause.
  - destruct Hrun as [Hcm Hfail].
    destruct (Hfail order Horder Hvalid) as [[m ->] _]. by exists m, s'.
Qed.

Lemma status_update_attribute_error_witness :
  let s := clean_session (ordered_store OrderStatus.PROCESSING 0) in
  ∃ m s',
    OrderService.update_order_status 1 OrderStatus.SHIPPED (Some 99)
      (Some "handed to courier") s = (Raise (AttributeError m), s')
    ∧ committed s' = committed s.
Proof.
  apply (status_update_attribute_error
           (clean_session (ordered_store OrderStatus.PROCESSING 0)) 1
           (widget_order OrderStatus.PROCESSING 0)).
  - reflexivity.
  - apply (bool_decide_unpack _). vm_compute. exact I.
  - left. left.
Defined.

(** ** Payment updates *)

(** [update_payment_status] commits nothing unless it returns; it fails on
    an existing order only with an [AttributeError]: for a transaction id,
    or for a confirming payment on an order without assigned notes. *)
Lemma update_payment_status_run order_id payment_status transaction_id admin_id s :
  match OrderService.update_payment_status order_id payment_status transaction_id
          admin_id s with
  | (Raise e, s') =>
      committed s' = committed s
      ∧ ∀ order,
          orders (working s) !! order_id = Some order →
          (∃ m, e = AttributeError m)
          ∧ (opt_str_truthy transaction_id = true
             ∨ (confirms payment_status order ∧ o_admin_notes order = None))
  | (Ok r, s') =>
      ∃ order,
        orders (working s) !! order_id = Some order
        ∧ opt_str_truthy transaction_id = false
        ∧ (confirms payment_status order → is_Some (o_admin_notes order))
        ∧ payment_updated s order_id order payment_status admin_id r s'
  end.
Proof.
  unfold OrderService.update_payment_status. unfold bind at 1, get_db at 1.
  cbv beta iota.
  destruct (orders (working s) !! order_id) as [order|] eqn:Horder; [|done].
  unfold bind at 1, update_order at 1, modify_db at 1. cbv beta iota.
  unfold bind at 1.
  destruct (opt_str_truthy transaction_id) eqn:Htid.
  { cbn. split; [done|]. intros ? [= <-]. split; [by eexists | by left]. }
  unfold ret at 1. cbv beta iota.
  set (s1 := {| committed := committed s;
                working := with_orders (alter (set_payment_status payment_status)
                                          order_id) (working s) |}).
  assert (Horder1 : orders (working s1) !! order_id
                    = Some (set_payment_status payment_status order)).
  { cbn. by rewrite lookup_alter_eq, Horder. }
  unfold bind at 1.
  case_bool_decide as Hpaid; [case_bool_decide as Hpending|].
  - pose proof (update_order_status_run order_id OrderStatus.CONFIRMED admin_id
                  None s1) as Hrun.
    unfold bind at 1.
    destruct (OrderService.update_order_status _ _ _ _ s1) as [[r1|e] s2].
    + destruct Hrun as (order1 & Ho1 & _ & _ & Hnotes & Hupd).
      assert (order1 = set_payment_status payment_status order) as -> by congruence.
      destruct Hupd as (_ & Hcm & Hos & Hh & Hp & Hl & Hoi & Hc & Hci).
      subst s1. cbn in Hcm, Hos, Hh, Hp, Hl, Hoi, Hc, Hci.
      unfold ret at 1, bind, db_commit, get_db, ret. cbn.
      destruct Hnotes as [Hn|Hn]; [done|].
      exists order. split; [done|]. split; [done|]. split; [done|].
      unfold payment_updated, paid_order. cbv zeta.
      rewrite (bool_decide_eq_true_2 (confirms payment_status order)) by done.
      cbn [working committed]. rewrite !Hos, lookup_insert_eq. cbn.
      split; [done|]. split; [done|].
      split; [by rewrite (alter_as_insert _ _ _ _ Horder), insert_insert_eq|].
      split; [by rewrite Hh, Hpending|].
      by repeat split.
    + destruct Hrun as [Hcm Hfail]. split; [done|].
      intros ? [= <-]. destruct (Hfail _ Horder1) as [Hattr Hcause].
      { cbn. rewrite Hpending. apply (bool_decide_unpack _). vm_compute. exact I. }
      split; [done|]. right. split; [done|].
      destruct Hcause as [Hts|Hn].
      * exfalso. revert Hts. apply not_timestamped; intros H; vm_compute in H;
          discriminate.
      * destruct (o_admin_notes order) eqn:Hold; [|done].
        exfalso. apply Hn. right. cbn. by rewrite Hold.
  - subst s1. unfold ret at 1, bind, db_commit, get_db, ret. cbn.
    rewrite lookup_alter_eq, Horder. cbn.
    exists order. split; [done|]. split; [done|].
    split; [by intros [_ ?]|].
    unfold payment_updated, paid_order.
    rewrite (bool_decide_eq_false_2 (confirms payment_status order))
      by (by intros [_ ?]).
    cbn. rewrite app_nil_r, (alter_as_insert _ _ _ _ Horder).
    by repeat split.
  - subst s1. unfold ret at 1, bind, db_commit, get_db, ret. cbn.
    rewrite lookup_alter_eq, Horder. cbn.
    exists order. split; [done|]. split; [done|].
    split; [by intros [? _]|].
    unfold payment_updated, paid_order.
    rewrite (bool_decide_eq_false_2 (confirms payment_status order))
      by (by intros [? _]).
    cbn. rewrite app_nil_r, (alter_as_insert _ _ _ _ Horder).
    by repeat split.
Qed.

(** X3. A payment update without transaction id is recorded and committed.
    For an existing order, no transaction id, and (when the payment is
    "paid" on a pending order) notes assigned earlier on the instance:
    [update_payment_status] returns the order with the new payment status
    and commits it.  Unless the payment confirms the order, the order status
    and the status history stay as they are (the payment status is
    independent of the order status); when it does, the order becomes
    CONFIRMED and the history gains the row (pending, confirmed, admin).
    Products, ledger, order items and carts are untouched. *)
Theorem payment_update_recorded s order_id order payment_status transaction_id admin_id :
  orders (working s) !! order_id = Some order →
  opt_str_truthy transaction_id = false →
  (confirms payment_status order → is_Some (o_admin_notes order)) →
  ∃ r s',
    OrderService.update_payment_status order_id payment_status transaction_id
      admin_id s = (Ok r, s')
    ∧ payment_updated s order_id order payment_status admin_id r s'
    ∧ (¬ confirms payment_status order →
       o_status r.2 = o_status order
       ∧ o_payment_status r.2 = payment_status
       ∧ order_status_history (working s') = order_status_history (working s)).
Proof.
  intros Horder Htid Hnotes.
  pose proof (update_payment_status_run order_id payment_status transaction_id
                admin_id s) as Hrun.
  destruct (OrderService.update_payment_status _ _ _ _ s) as [[r|e] s'].
  - destruct Hrun as (order' & Horder' & _ & _ & Hupd).
    assert (order' = order) as -> by congruence.
    exists r, s'. split; [done|]. split; [done|].
    intros Hnot. destruct Hupd as (-> & _ & _ & Hh & _).
    unfold paid_order in *.
    rewrite (bool_decide_eq_false_2 _ Hnot) in *. cbn.
    by rewrite Hh, app_nil_r.
  - destruct Hrun as [_ Hfail].
    destruct (Hfail order Horder) as [_ [?|[Hc Hn]]]; [congruence|].
    specialize (Hnotes Hc). rewrite Hn in Hnotes. by destruct Hnotes.
Qed.

Lemma payment_update_recorded_witness :
  let s := clean_session (ordered_store OrderStatus.PENDING 0) in
  ∃ r s',
    OrderService.update_payment_status 1 PaymentStatus.FAILED None None s = (Ok r, s')
    ∧ payment_updated s 1 (widget_order OrderStatus.PENDING 0) PaymentStatus.FAILED
        None r s'
    ∧ (¬ confirms PaymentStatus.FAILED (widget_order OrderStatus.PENDING 0) →
       o_status r.2 = o_status (widget_order OrderStatus.PENDING 0)
       ∧ o_payment_status r.2 = PaymentStatus.FAILED
       ∧ order_status_history (working s') = order_status_history (working s)).
Proof.
  apply (payment_update_recorded (clean_session (ordered_store OrderStatus.PENDING 0))).
  - reflexivity.
  - reflexivity.
  - intros [H _]. vm_compute in H. discriminate.
Defined.

(** X4. The payment updates that never go through.  For an existing order,
    when a transaction id is given ([payment_transaction_id] is a read-only
    property of [Order]), or when the payment is "paid" on a pending order
    on which no admin notes were assigned (the confirmation goes through
    [update_order_status] without notes): [update_payment_status] raises an
    [AttributeError] and the database is unchanged, the payment status
    included. *)
Theorem payment_update_attribute_error s order_id order payment_status
    transaction_id admin_id :
  orders (working s) !! order_id = Some order →
  opt_str_truthy transaction_id = true
  ∨ (confirms payment_status order ∧ o_admin_notes order = None) →
  ∃ m s',
    OrderService.update_payment_status order_id payment_status transaction_id
      admin_id s = (Raise (AttributeError m), s')
    ∧ committed s' = committed s.
Proof.
  intros Horder Hcause.
  pose proof (update_payment_status_run order_id payment_status transaction_id
                admin_id s) as Hrun.
  destruct (OrderService.update_payment_status _ _ _ _ s) as [[r|e] s'].
  - destruct Hrun as (order' & Horder' & Htid & Hnotes & _).
    assert (order' = order) as -> by congruence.
    destruct Hcause as [?|[Hc Hn]]; [congruence|].
    specialize (Hnotes Hc). rewrite Hn in Hnotes. by destruct Hnotes.
  - destruct Hrun as [Hcm Hfail].
    destruct (Hfail order Horder) as [[m ->] _]. by exists m, s'.
Qed.

Lemma payment_update_attribute_error_witness :
  let s := clean_session (ordered_store OrderStatus.PENDING 0) in
  ∃ m s',
    OrderService.update_payment_status 1 PaymentStatus.PAID None (Some 99) s
    = (Raise (AttributeError m), s')
    ∧ committed s' = committed s.
Proof.
  apply (payment_update_attribute_error
           (clean_session (ordered_store OrderStatus.PENDING 0)) 1
           (widget_order OrderStatus.PENDING 0)).
  - reflexivity.
  - right. by split.
Defined.

(** ** The status history *)

Lemma follow_app from l1 l2 :
  follow from (l1 ++ l2) = follow from l1 ≫= λ mid, follow mid l2.
Proof.
  revert from. induction l1 as [|h l1 IH]; intros from; cbn; [done|].
  case_bool_decide; [apply IH | done].
Qed.

(** An order changes status (or keeps it) and its rows are appended. *)
Lemma history_step st st' order_id o o' rows :
  history_tracks_status st →
  orders st !! order_id = Some o →
  orders st' = <[order_id := o']> (orders st) →
  order_status_history st' = order_status_history st ++ rows →
  Forall (λ h, h_order_id h = order_id) rows →
  follow (Some (o_status o)) rows = Some (Some (o_status o')) →
  history_tracks_status st'.
Proof.
  intros [Hfk Htrail] Ho Hos Hh Hrows Hfollow. split.
  - intros h. rewrite Hh, Hos, elem_of_app. intros [Hin|Hin].
    + destruct (decide (h_order_id h = order_id)) as [->|Hne].
      * rewrite lookup_insert_eq. by eexists.
      * rewrite lookup_insert_ne by done. by apply Hfk.
    + rewrite list.Forall_forall in Hrows. rewrite (Hrows h Hin), lookup_insert_eq.
      by eexists.
  - intros oid x. rewrite Hos. unfold status_trail. rewrite Hh, list.filter_app.
    destruct (decide (oid = order_id)) as [->|Hne].
    + rewrite lookup_insert_eq. intros [= <-].
      rewrite (filter_all _ rows) by done.
      rewrite follow_app. fold (status_trail st order_id).
      rewrite (Htrail _ _ Ho). cbn. done.
    + rewrite lookup_insert_ne by done. intros Hx.
      rewrite (filter_none _ rows), app_nil_r.
      * by apply Htrail.
      * eapply list.Forall_impl; [exact Hrows|]. cbn. intros h ->. done.
Qed.

(** An order is created under a fresh key with the row of its creation. *)
Lemma history_new st st' order_id o' changed_by :
  history_tracks_status st →
  orders st !! order_id = None →
  orders st' = <[order_id := o']> (orders st) →
  order_status_history st'
  = order_status_history st ++ [initial_row order_id changed_by] →
  o_status o' = OrderStatus.PENDING →
  history_tracks_status st'.
Proof.
  intros [Hfk Htrail] Ho Hos Hh Hstatus. split.
  - intros h. rewrite Hh, Hos, elem_of_app. intros [Hin|Hin].
    + rewrite lookup_insert_ne; [by apply Hfk|].
      intros Heq. specialize (Hfk h Hin). rewrite <- Heq, Ho in Hfk.
      by destruct Hfk.
    + apply list_elem_of_singleton in Hin as ->. cbn.
      rewrite lookup_insert_eq. by eexists.
  - intros oid x. rewrite Hos. unfold status_trail. rewrite Hh, list.filter_app.
    destruct (decide (oid = order_id)) as [->|Hne].
    + rewrite lookup_insert_eq. intros [= <-].
      rewrite (filter_none _ (order_status_history st)).
      * cbn. rewrite decide_True by done. cbn. by rewrite Hstatus.
      * apply list.Forall_forall. intros h Hin Heq.
        specialize (Hfk h Hin). rewrite Heq, Ho in Hfk. by destruct Hfk.
    + rewrite lookup_insert_ne by done. intros Hx. cbn.
      rewrite decide_False by (cbn; congruence). rewrite app_nil_r.
      by apply Htrail.
Qed.

Lemma order_created_history changed_by lines s r s' :
  history_tracks_status (working s) →
  order_created changed_by lines s r s' →
  history_tracks_status (committed s').
Proof.
  intros Hinv (Hcm & Hid & Hos & Hstatus & Hh & _). rewrite Hcm.
  eapply history_new; [exact Hinv | | exact Hos | exact Hh | exact Hstatus].
  rewrite Hid. apply next_id_fresh.
Qed.

(** [cancel_order] raises only before it changes anything. *)
Lemma cancel_order_raise now order_id user_id reason is_admin s e s' :
  OrderService.cancel_order now order_id user_id reason is_admin s = (Raise e, s') →
  s' = s.
Proof.
  intros Hrun. unfold OrderService.cancel_order in Hrun.
  unfold bind at 1, get_db at 1 in Hrun.
  destruct (orders (working s) !! order_id) as [order|]; [|by injection Hrun as _ <-].
  destruct (negb is_admin && negb (bool_decide (o_user_id order = Some user_id)));
    [by injection Hrun as _ <-|].
  destruct (negb (is_cancellable order)); [by injection Hrun as _ <-|].
  destruct (negb is_admin && OrderService.window_expired now (o_created_at order));
    [by injection Hrun as _ <-|].
  destruct (release_loop_run order_id (items_of_order (working s) order_id) s)
    as (s1 & logs & Hloop & _).
  rewrite (bind_ok _ _ _ _ _ Hloop) in Hrun.
  unfold update_order, OrderService._record_status_change, bind, modify_db,
    db_commit, get_db, ret in Hrun. discriminate.
Qed.

(** X5. The status history is an unbroken chain, whatever the services do.
    When in the database and through the session every history row belongs
    to an order and the rows of each order, oldest first, lead from its
    creation (from_status NULL) through matching from/to statuses to the
    status the order now has, then the same holds of the database after any
    call of [create_order_from_cart], [create_guest_order], [cancel_order],
    [update_order_status] or [update_payment_status], whether it returns or
    raises. *)
Theorem services_keep_status_history s :
  history_tracks_status (committed s) →
  history_tracks_status (working s) →
  (∀ now order_number user_id order_data,
     history_tracks_status (committed
       (OrderService.create_order_from_cart now order_number user_id order_data s).2))
  ∧ (∀ now order_number order_data,
       history_tracks_status (committed
         (OrderService.create_guest_order now order_number order_data s).2))
  ∧ (∀ now order_id user_id reason is_admin,
       history_tracks_status (committed
         (OrderService.cancel_order now order_id user_id reason is_admin s).2))
  ∧ (∀ order_id new_status admin_id notes,
       history_tracks_status (committed
         (OrderService.update_order_status order_id new_status admin_id notes s).2))
  ∧ (∀ order_id payment_status transaction_id admin_id,
       history_tracks_status (committed
         (OrderService.update_payment_status order_id payment_status transaction_id
            admin_id s).2)).
Proof.
  intros Hcm Hw. split; [|split; [|split; [|split]]].
  - intros now order_number user_id order_data.
    destruct (OrderService.create_order_from_cart now order_number user_id order_data s)
      as [[r|e] s'] eqn:Hrun; cbn.
    + apply create_order_from_cart_ok in Hrun as [cart_id Hcreated].
      by eapply order_created_history.
    + apply create_order_from_cart_raise in Hrun as [-> _]. done.
  - intros now order_number order_data.
    destruct (OrderService.create_guest_order now order_number order_data s)
      as [[r|e] s'] eqn:Hrun; cbn.
    + apply create_guest_order_ok in Hrun. by eapply order_created_history.
    + apply create_guest_order_raise in Hrun as [-> _]. done.
  - intros now order_id user_id reason is_admin.
    destruct (OrderService.cancel_order now order_id user_id reason is_admin s)
      as [[r|e] s'] eqn:Hrun; cbn.
    + apply cancel_order_ok_inv in Hrun
        as (order & new_logs & Horder & (_ & -> & Hos & Hh & _)).
      eapply history_step; [exact Hw | exact Horder | exact Hos | exact Hh | |].
      * by repeat constructor.
      * cbn. by rewrite bool_decide_eq_true_2.
    + by apply cancel_order_raise in Hrun as ->.
  - intros order_id new_status admin_id notes.
    pose proof (update_order_status_run order_id new_status admin_id notes s) as Hrun.
    destruct (OrderService.update_order_status _ _ _ _ s) as [[r|e] s']; cbn.
    + destruct Hrun as (order & Horder & _ & _ & _ & (_ & -> & Hos & Hh & _)).
      eapply history_step; [exact Hw | exact Horder | exact Hos | exact Hh | |].
      * by repeat constructor.
      * cbn. by rewrite bool_decide_eq_true_2.
    + destruct Hrun as [-> _]. done.
  - intros order_id payment_status transaction_id admin_id.
    pose proof (update_payment_status_run order_id payment_status transaction_id
                  admin_id s) as Hrun.
    destruct (OrderService.update_payment_status _ _ _ _ s) as [[r|e] s']; cbn.
    + destruct Hrun as (order & Horder & _ & _ & (_ & -> & Hos & Hh & _)).
      eapply history_step; [exact Hw | exact Horder | exact Hos | exact Hh | |].
      * case_bool_decide; by repeat constructor.
      * unfold paid_order. case_bool_decide as Hc; cbn; [|done].
        destruct Hc as [_ ->]. by rewrite bool_decide_eq_true_2.
    + destruct Hrun as [-> _]. done.
Qed.

Lemma tracked_store_history : history_tracks_status tracked_store.
Proof.
  split.
  - intros h Hin. apply list_elem_of_singleton in Hin as ->. by eexists.
  - intros order_id o Ho.
    destruct (decide (order_id = 1)) as [->|Hne].
    + vm_compute in Ho. injection Ho as <-. reflexivity.
    + cbn in Ho. by rewrite lookup_insert_ne, lookup_empty in Ho.
Qed.

Lemma services_keep_status_history_witness :
  let s := clean_session tracked_store in
  history_tracks_status (committed
    (OrderService.cancel_order 5 1 7 None false s).2)
  ∧ history_tracks_status (committed
      (OrderService.update_order_status 1 OrderStatus.CONFIRMED (Some 99)
         (Some "ok") s).2).
Proof.
  pose proof (services_keep_status_history (clean_session tracked_store)
                tracked_store_history tracked_store_history)
    as (_ & _ & Hcancel & Hupdate & _).
  split; [apply Hcancel | apply Hupdate].
Defined.

(** ** Stock never goes below zero *)

Section loop_invariant.
Context {A : Type} (P : Session → Prop) (body : A → M unit).

Hypothesis body_keeps : ∀ x s, P s → P (body x s).2.

Lemma for_each_keeps items s : P s → P (for_each items body s).2.
Proof.
  revert s. induction items as [|x rest IH]; intros s Hs; cbn; [done|].
  unfold bind. pose proof (body_keeps x s Hs) as Hx.
  destruct (body x s) as [[[]|e] s1]; cbn in Hx; [by apply IH | done].
Qed.
End loop_invariant.

Lemma stocks_nonneg_products st st' :
  products st' = products st → stocks_nonneg st → stocks_nonneg st'.
Proof. intros Hp H pid p. rewrite Hp. apply H. Qed.

Lemma stocks_nonneg_insert st st' pid p n :
  stocks_nonneg st → 0 ≤ n →
  products st' = <[pid := set_stock p n]> (products st) →
  stocks_nonneg st'.
Proof.
  intros H Hn Hp k x. rewrite Hp. destruct (decide (k = pid)) as [->|Hne].
  - rewrite lookup_insert_eq. by intros [= <-].
  - rewrite lookup_insert_ne by done. apply H.
Qed.

Lemma reserve_stock_direct_nonneg product_id quantity order_id s :
  stocks_nonneg (working s) →
  stocks_nonneg (working
    (OrderService._reserve_stock_direct product_id quantity order_id s).2).
Proof.
  intros H. unfold OrderService._reserve_stock_direct, bind, get_db. cbn.
  destruct (products (working s) !! product_id) as [p|] eqn:Hp; [|done].
  destruct (p_stock p <? quantity) eqn:Hlt; [done|]. cbn.
  apply Z.ltb_ge in Hlt.
  eapply stocks_nonneg_insert; [exact H | | reflexivity]. lia.
Qed.

Lemma reserve_stock_nonneg cart_item order_id s :
  stocks_nonneg (working s) →
  stocks_nonneg (working (OrderService._reserve_stock cart_item order_id s).2).
Proof.
  intros H. unfold OrderService._reserve_stock, bind, get_db. cbn.
  destruct (products (working s) !! ci_product_id cart_item) as [p|] eqn:Hp; [|done].
  destruct (p_stock p <? ci_quantity cart_item) eqn:Hlt; [done|]. cbn.
  apply Z.ltb_ge in Hlt.
  eapply stocks_nonneg_insert; [exact H | | reflexivity]. lia.
Qed.

Lemma place_cart_line_nonneg order_id cart_item s :
  stocks_nonneg (working s) →
  stocks_nonneg (working (OrderService.place_cart_line order_id cart_item s).2).
Proof.
  intros H. unfold OrderService.place_cart_line. unfold bind at 1, get_db at 1.
  cbv beta iota.
  destruct (OrderService._create_order_item (working s) order_id cart_item)
    as [item|e]; cbn [lift_result]; [|done].
  unfold bind at 1, ret at 1. cbv beta iota.
  unfold bind at 1, modify_db at 1. cbv beta iota.
  by apply reserve_stock_nonneg.
Qed.

Lemma place_guest_line_nonneg order_id item_data s :
  stocks_nonneg (working s) →
  stocks_nonneg (working (OrderService.place_guest_line order_id item_data s).2).
Proof.
  intros H. unfold OrderService.place_guest_line. unfold bind at 1, modify_db at 1.
  cbv beta iota. by apply reserve_stock_direct_nonneg.
Qed.

Lemma create_order_from_cart_try_nonneg now order_number user_id order_data cart_id
    items s :
  stocks_nonneg (working s) →
  stocks_nonneg (working
    (OrderService.create_order_from_cart_try now order_number user_id order_data
       cart_id items s).2).
Proof.
  intros H. unfold OrderService.create_order_from_cart_try.
  unfold bind at 1, get_db at 1. cbv beta iota.
  destruct (OrderService._calculate_order_totals (working s) items) as [totals|e];
    cbn [lift_result]; [|done].
  unfold bind at 1, ret at 1. cbv beta iota zeta.
  unfold bind at 1, modify_db at 1. cbv beta iota.
  unfold bind at 1.
  match goal with |- context [for_each items ?body ?s1] =>
    pose proof (for_each_keeps (λ s, stocks_nonneg (working s)) body
                  (place_cart_line_nonneg _) items s1 H) as Hloop;
    destruct (for_each items body s1) as [[[]|e] [cm2 st2]]
  end; [|exact Hloop].
  cbn in Hloop.
  unfold OrderService._record_status_change, CartService.mark_cart_converted,
    bind, modify_db, db_commit, get_db, ret. cbn. exact Hloop.
Qed.

Lemma create_guest_order_try_nonneg now order_number order_data items totals s :
  stocks_nonneg (working s) →
  stocks_nonneg (working
    (OrderService.create_guest_order_try now order_number order_data items totals s).2).
Proof.
  intros H. unfold OrderService.create_guest_order_try.
  unfold bind at 1, get_db at 1. cbv beta iota zeta.
  unfold bind at 1, modify_db at 1. cbv beta iota.
  unfold bind at 1.
  match goal with |- context [for_each items ?body ?s1] =>
    pose proof (for_each_keeps (λ s, stocks_nonneg (working s)) body
                  (place_guest_line_nonneg _) items s1 H) as Hloop;
    destruct (for_each items body s1) as [[[]|e] [cm2 st2]]
  end; [|exact Hloop].
  cbn in Hloop.
  unfold OrderService._record_status_change,
    bind, modify_db, db_commit, get_db, ret. cbn. exact Hloop.
Qed.

(** A [try] block that keeps the stocks from going negative, under a
    handler that rolls back. *)
Lemma try_except_nonneg {A} (body : M A) (f : exn → exn) s :
  session_nonneg s →
  stocks_nonneg (working (body s).2) →
  match body s with
  | (Raise _, s') => committed s' = committed s
  | (Ok r, s') => committed s' = working s'
  end →
  session_nonneg (try_except body (λ e, db_rollback ;;; raise (f e)) s).2.
Proof.
  intros [Hcm Hw] Hbody Hrun. unfold try_except.
  destruct (body s) as [[r|e] s1]; cbn in *.
  - split; [by rewrite Hrun | done].
  - unfold bind, db_rollback, raise. cbn. by rewrite Hrun.
Qed.

Lemma ordered_quantity_nonneg pid items :
  Forall (λ it, 0 ≤ oi_quantity it) items → 0 ≤ ordered_quantity pid items.
Proof.
  induction 1 as [|it items Hit _ IH]; cbn; [done|]. case_bool_decide; lia.
Qed.

Lemma stocks_moved_nonneg delta st st' :
  stocks_moved delta st st' → (∀ pid, 0 ≤ delta pid) →
  stocks_nonneg st → stocks_nonneg st'.
Proof.
  intros Hmv Hd H pid p'. rewrite Hmv.
  destruct (products st !! pid) as [p|] eqn:Hp; [|done].
  intros [= <-]. cbn. specialize (H pid p Hp). specialize (Hd pid). lia.
Qed.

(** X6. No stock goes below zero.  When no product has a negative stock,
    in the database and through the session, none has after a call of
    [create_order_from_cart], [create_guest_order], [update_stock] or
    [reserve_stock], whatever the arguments and the outcome; nor after
    [cancel_order] when no order item has a negative quantity, nor after
    [release_stock] of a quantity that is not negative. *)
Theorem services_keep_stock_nonneg s :
  session_nonneg s →
  (∀ now order_number user_id order_data,
     session_nonneg
       (OrderService.create_order_from_cart now order_number user_id order_data s).2)
  ∧ (∀ now order_number order_data,
       session_nonneg
         (OrderService.create_guest_order now order_number order_data s).2)
  ∧ (∀ now order_id user_id reason is_admin,
       Forall (λ it, 0 ≤ oi_quantity it) (order_items (working s)) →
       session_nonneg
         (OrderService.cancel_order now order_id user_id reason is_admin s).2)
  ∧ (∀ product_id change_quantity reason admin_id,
       session_nonneg
         (InventoryService.update_stock product_id change_quantity reason admin_id s).2)
  ∧ (∀ product_id quantity order_id,
       session_nonneg
         (InventoryService.reserve_stock product_id quantity order_id s).2)
  ∧ (∀ product_id quantity order_id,
       0 ≤ quantity →
       session_nonneg
         (InventoryService.release_stock product_id quantity order_id s).2).
Proof.
  intros Hs. pose proof Hs as [Hcm Hw].
  split; [|split; [|split; [|split; [|split]]]].
  - intros now order_number user_id order_data.
    destruct (create_order_from_cart_cases now order_number user_id order_data s)
      as [[e ->]|(cart_id & cart & _ & ->)]; [done|].
    apply try_except_nonneg; [done | by apply create_order_from_cart_try_nonneg |].
    pose proof (create_order_from_cart_try_run now order_number user_id order_data
                  cart_id (items_of_cart (working s) cart_id) s) as Htry.
    destruct (OrderService.create_order_from_cart_try _ _ _ _ _ _ s) as [[r|e] s'];
      [|done].
    by destruct Htry as [[? _] _].
  - intros now order_number order_data.
    destruct (create_guest_order_cases now order_number order_data s)
      as [[e ->]|(validated & totals & _ & ->)]; [done|].
    apply try_except_nonneg; [done | by apply create_guest_order_try_nonneg |].
    pose proof (create_guest_order_try_run now order_number order_data
                  validated totals s) as Htry.
    destruct (OrderService.create_guest_order_try _ _ _ _ _ s) as [[r|e] s'];
      [|done].
    by destruct Htry as [[? _] _].
  - intros now order_id user_id reason is_admin Hitems.
    destruct (OrderService.cancel_order now order_id user_id reason is_admin s)
      as [[r|e] s'] eqn:Hrun; cbn.
    + apply cancel_order_ok_inv in Hrun
        as (order & new_logs & _ & (_ & Hcm' & _ & _ & _ & _ & _ & Hmv & _)).
      assert (stocks_nonneg (working s')).
      { eapply stocks_moved_nonneg; [exact Hmv | | exact Hw].
        intros pid. apply ordered_quantity_nonneg.
        apply list.Forall_forall. intros it Hit.
        apply list_elem_of_filter in Hit as [_ Hit].
        rewrite list.Forall_forall in Hitems. by apply Hitems. }
      split; [by rewrite Hcm' | done].
    + by apply cancel_order_raise in Hrun as ->.
  - intros product_id change_quantity reason admin_id.
    unfold InventoryService.update_stock, bind, get_db. cbn.
    destruct (products (working s) !! product_id) as [p|] eqn:Hp; [|done].
    destruct (p_stock p + change_quantity <? 0) eqn:Hlt; [done|]. cbn.
    apply Z.ltb_ge in Hlt.
    split; (eapply stocks_nonneg_insert; [exact Hw | | reflexivity]); lia.
  - intros product_id quantity order_id.
    unfold InventoryService.reserve_stock, bind, get_db. cbn.
    destruct (products (working s) !! product_id) as [p|] eqn:Hp; [|done].
    destruct (p_stock p <? quantity) eqn:Hlt; [done|]. cbn.
    apply Z.ltb_ge in Hlt.
    split; (eapply stocks_nonneg_insert; [exact Hw | | reflexivity]); lia.
  - intros product_id quantity order_id Hq.
    unfold InventoryService.release_stock, bind, get_db. cbn.
    destruct (products (working s) !! product_id) as [p|] eqn:Hp; [|done]. cbn.
    specialize (Hw product_id p Hp) as Hstock.
    split; (eapply stocks_nonneg_insert; [exact Hw | | reflexivity]); lia.
Qed.

Lemma widget_store_nonneg : stocks_nonneg widget_store.
Proof.
  intros pid p Hp. destruct (decide (pid = 1)) as [->|Hne].
  - vm_compute in Hp. injection Hp as <-. cbn. lia.
  - cbn in Hp. by rewrite lookup_insert_ne, lookup_empty in Hp.
Qed.

Lemma services_keep_stock_nonneg_witness :
  let s := clean_session widget_store in
  session_nonneg (InventoryService.update_stock 1 (-6) "recount" (Some 99) s).2
  ∧ session_nonneg (InventoryService.reserve_stock 1 5 (Some 1) s).2.
Proof.
  pose proof (services_keep_stock_nonneg (clean_session widget_store)
                (conj widget_store_nonneg widget_store_nonneg))
    as (_ & _ & _ & Hupdate & Hreserve & _).
  split; [apply Hupdate | apply Hreserve].
Defined.

(** A successful [create_order_from_cart] is a successful run of its [try]
    block on the lines of the user's active cart. *)
Lemma create_order_from_cart_ok_try now order_number user_id order_data s r s1 :
  OrderService.create_order_from_cart now order_number user_id order_data s
  = (Ok r, s1) →
  ∃ cart_id cart,
    CartService.get_cart (Some user_id) None s = (Ok (Some (cart_id, cart)), s)
    ∧ OrderService.create_order_from_cart_try now order_number user_id order_data
        cart_id (items_of_cart (working s) cart_id) s = (Ok r, s1).
Proof.
  intros Hcreate.
  destruct (create_order_from_cart_cases now order_number user_id order_data s)
    as [[e He]|(cart_id & cart & Hcart & Hcase)]; [congruence|].
  rewrite Hcase in Hcreate. exists cart_id, cart. split; [done|].
  unfold try_except in Hcreate.
  destruct (OrderService.create_order_from_cart_try _ _ _ _ _ _ s) as [[r0|e] s0].
  - by injection Hcreate as <- <-.
  - unfold bind, db_rollback, raise in Hcreate. discriminate.
Qed.

Lemma create_order_from_cart_ok_nonneg now order_number user_id order_data s r s1 :
  OrderService.create_order_from_cart now order_number user_id order_data s
  = (Ok r, s1) →
  stocks_nonneg (working s) → stocks_nonneg (working s1).
Proof.
  intros Hcreate H.
  apply create_order_from_cart_ok_try in Hcreate as (cart_id & cart & _ & Htry).
  pose proof (create_order_from_cart_try_nonneg now order_number user_id order_data
                cart_id (items_of_cart (working s) cart_id) s H) as Hnn.
  by rewrite Htry in Hnn.
Qed.

Lemma create_guest_order_ok_nonneg now order_number order_data s r s1 :
  OrderService.create_guest_order now order_number order_data s = (Ok r, s1) →
  stocks_nonneg (working s) → stocks_nonneg (working s1).
Proof.
  intros Hcreate H.
  destruct (create_guest_order_cases now order_number order_data s)
    as [[e He]|(validated & totals & Hlines & Hcase)]; [congruence|].
  rewrite Hcase in Hcreate.
  pose proof (create_guest_order_try_nonneg now order_number order_data
                validated totals s H) as Hnn.
  unfold try_except in Hcreate.
  destruct (OrderService.create_guest_order_try _ _ _ _ _ s) as [[r0|e] s0].
  - by injection Hcreate as <- <-.
  - unfold bind, db_rollback, raise in Hcreate. discriminate.
Qed.

(** The items of a new order are those its creation added. *)
Lemma order_created_items changed_by lines s r s1 :
  no_dangling_items (working s) →
  order_created changed_by lines s r s1 →
  item_key <$> items_of_order (working s1) r.1
  = (λ l, (r.1, Some l.1, l.2)) <$> lines.
Proof.
  intros Hfk (_ & Hid & _ & _ & _ & ((new_items & Hoi & Hkeys) & _) & _).
  unfold items_of_order. rewrite Hoi, list.filter_app.
  rewrite filter_none, filter_all; [done | by eapply item_keys_order |].
  apply list.Forall_forall. intros it Hit Heq.
  apply Hfk in Hit as [o Ho]. rewrite Heq, Hid, next_id_fresh in Ho. done.
Qed.

Lemma order_created_within_stock changed_by lines s r s1 pid p :
  no_dangling_items (working s) →
  order_created changed_by lines s r s1 →
  stocks_nonneg (working s1) →
  products (working s) !! pid = Some p →
  let held := ordered_quantity pid (items_of_order (working s1) r.1) in
  held ≤ p_stock p
  ∧ products (committed s1) !! pid = Some (set_stock p (p_stock p - held)).
Proof.
  intros Hfk Hcreated Hnn Hp held.
  pose proof (order_created_items _ _ _ _ _ Hfk Hcreated) as Hkeys.
  destruct Hcreated as (Hcm & _ & _ & _ & _ & (_ & _ & Hmv & _) & _).
  assert (Hheld : held = lines_quantity pid lines).
  { by apply (ordered_quantity_lines r.1). }
  specialize (Hmv pid). rewrite Hp in Hmv. cbn in Hmv.
  specialize (Hnn _ _ Hmv). cbn in Hnn.
  split; [lia|]. rewrite Hcm, Hmv, Hheld. reflexivity.
Qed.

(** X7. An order never holds more than was in stock.  After a successful
    [create_order_from_cart] or [create_guest_order], in a session where no
    stock was negative (and every order item belongs to an order): for
    every product, the quantity the items of the new order hold of it is at
    most the stock it had before the call, and its stock in the database is
    lower by exactly that quantity. *)
Theorem order_within_stock now order_number s r s1 :
  no_dangling_items (working s) →
  stocks_nonneg (working s) →
  (∃ user_id order_data,
     OrderService.create_order_from_cart now order_number user_id order_data s
     = (Ok r, s1))
  ∨ (∃ order_data,
       OrderService.create_guest_order now order_number order_data s = (Ok r, s1)) →
  ∀ pid p,
    products (working s) !! pid = Some p →
    let held := ordered_quantity pid (items_of_order (working s1) r.1) in
    held ≤ p_stock p
    ∧ products (committed s1) !! pid = Some (set_stock p (p_stock p - held)).
Proof.
  intros Hfk Hnn [(user_id & order_data & Hcreate)|(order_data & Hcreate)] pid p Hp.
  - pose proof (create_order_from_cart_ok_nonneg _ _ _ _ _ _ _ Hcreate Hnn) as Hnn1.
    apply create_order_from_cart_ok in Hcreate as [cart_id Hcreated].
    by eapply order_created_within_stock.
  - pose proof (create_guest_order_ok_nonneg _ _ _ _ _ _ Hcreate Hnn) as Hnn1.
    apply create_guest_order_ok in Hcreate.
    by eapply order_created_within_stock.
Qed.

Lemma checkout_store_nonneg : stocks_nonneg checkout_store.
Proof. intros pid p Hp. by apply (widget_store_nonneg pid). Qed.

Lemma order_within_stock_witness :
  let s := clean_session checkout_store in
  let c := OrderService.create_order_from_cart 1000 "ORD-1" 7 checkout_data s in
  let r := ok_or (0, widget_order EmptyString 0) c.1 in
  let held := ordered_quantity 1 (items_of_order (working c.2) r.1) in
  held ≤ p_stock widget
  ∧ products (committed c.2) !! 1 = Some (set_stock widget (p_stock widget - held)).
Proof.
  apply (order_within_stock 1000 "ORD-1" (clean_session checkout_store)).
  - exact checkout_store_no_dangling.
  - exact checkout_store_nonneg.
  - left. exists 7, checkout_data. vm_compute. reflexivity.
  - reflexivity.
Defined.

(** ** Clearing a cart, its summary, promo codes *)

Lemma filter_cart_other (l : list CartItem) cart_id other :
  other ≠ cart_id →
  filter (λ it, ci_cart_id it = other) (filter (λ it, ci_cart_id it ≠ cart_id) l)
  = filter (λ it, ci_cart_id it = other) l.
Proof.
  intros Hne. induction l as [|it l IH]; [done|].
  rewrite (filter_cons (λ it, ci_cart_id it ≠ cart_id)).
  destruct (decide (ci_cart_id it ≠ cart_id)) as [Hk|Hk].
  - rewrite !filter_cons. destruct (decide (ci_cart_id it = other)); by rewrite IH.
  - rewrite filter_cons. rewrite decide_False; [done|].
    intros Heq. apply Hk. congruence.
Qed.

Lemma filter_cart_same (l : list CartItem) cart_id :
  filter (λ it, ci_cart_id it = cart_id) (filter (λ it, ci_cart_id it ≠ cart_id) l)
  = [].
Proof.
  apply filter_none. apply list.Forall_forall. intros it Hit.
  by apply list_elem_of_filter in Hit as [Hit _].
Qed.

Lemma store_totals_cleared c :
  CartService.store_totals (dec 0) (CartService.clear_totals c)
  = CartService.clear_totals c.
Proof.
  unfold CartService.store_totals, CartService.clear_totals. cbn.
  rewrite dec_or_zero_id, cart_shipping_of.
  rewrite bool_decide_eq_false_2.
  2:{ intros [H _]. by apply Qclt_not_eq in H. }
  assert (Htax : (dec 0 * CartService.TAX_RATE)%Qc = dec 0) by (rewrite dec_0; ring).
  assert (Htotal : (dec 0 + dec 0 + dec 0 - dec 0)%Qc = dec 0) by (rewrite dec_0; ring).
  by rewrite Htax, Htotal, numeric_12_2_dec.
Qed.

Lemma store_totals_fixed st cart_id c :
  carts st !! cart_id = Some (CartService.clear_totals c) →
  with_carts (alter (CartService.store_totals (dec 0)) cart_id) st = st.
Proof.
  intros Hc. destruct st. unfold with_carts. cbn in *. f_equal.
  apply map_eq. intros k. destruct (decide (k = cart_id)) as [->|Hne].
  - by rewrite lookup_alter_eq, Hc; cbn; rewrite store_totals_cleared.
  - by rewrite lookup_alter_ne.
Qed.

(** X8. [clear_cart] empties the cart and nothing else.  For an existing
    cart it returns [True] and commits: the cart has no line left, the
    lines of every other cart are as before, the stored subtotal, tax,
    total and discount of the cart are zero, and products, orders, order
    items and ledger are untouched.  The stored totals are then those a
    recomputation gives: [_update_cart_totals] changes nothing. *)
Theorem clear_cart_empties s cart_id c :
  carts (working s) !! cart_id = Some c →
  ∃ s',
    CartService.clear_cart cart_id s = (Ok true, s')
    ∧ cart_cleared s cart_id c s'
    ∧ CartService._update_cart_totals cart_id s' = (Ok tt, s').
Proof.
  intros Hc.
  exists (clean_session
    (with_carts (alter CartService.clear_totals cart_id)
       (with_cart_items (filter (λ it, ci_cart_id it ≠ cart_id)) (working s)))).
  split; [reflexivity|]. split.
  - unfold cart_cleared, items_of_cart. cbn.
    split; [done|]. split; [apply filter_cart_same|].
    split; [intros other Hne; by apply filter_cart_other|].
    split; [by apply alter_as_insert|]. done.
  - rewrite (update_cart_totals_run _ _ (dec 0)).
    2:{ unfold items_of_cart. cbn. by rewrite filter_cart_same. }
    cbn [working clean_session]. rewrite (store_totals_fixed _ _ c); [done|].
    cbn. by rewrite lookup_alter_eq, Hc.
Qed.

Lemma clear_cart_empties_witness :
  let s := clean_session (cart_store (dec 10)) in
  ∃ s',
    CartService.clear_cart 1 s = (Ok true, s')
    ∧ cart_cleared s 1 (widget_cart (dec 10)) s'
    ∧ CartService._update_cart_totals 1 s' = (Ok tt, s').
Proof.
  apply (clear_cart_empties (clean_session (cart_store (dec 10)))).
  reflexivity.
Defined.

Lemma shipping_estimate_of subtotal :
  (if dec_truthy subtotal
      && bool_decide (subtotal < CartService.FREE_SHIPPING_THRESHOLD)%Qc
      && bool_decide (dec 0 < subtotal)%Qc
   then CartService.SHIPPING_COST else dec 0)
  = CartService.shipping_of subtotal.
Proof.
  unfold CartService.shipping_of, dec_truthy.
  case_bool_decide as Hz; cbn; [|done].
  subst subtotal. rewrite andb_comm.
  rewrite (bool_decide_eq_false_2 (dec 0 < dec 0)%Qc); [done|].
  intros H. by apply Qclt_not_eq in H.
Qed.

(** X9. The cart summary adds up.  For an existing cart whose lines all
    have a price, S being Σ(price × quantity) over them:
    [get_cart_summary] recomputes and stores the totals and returns what
    the [Numeric(12, 2)] columns keep of them: the subtotal S and the tax
    S × 0.18, each rounded to two decimals; as shipping estimate the flat
    fee when the stored subtotal is positive and below the free-shipping
    threshold and zero otherwise; the stored discount; the number of items;
    and as total S + S × 0.18 + shipping − discount rounded to two decimals,
    the shipping being the one counted on S.  Where the rounding of the tax
    is all the rounding there is (S and the discount in whole hundredths, S
    not negative, the discount at most S + shipping), the returned total is
    exactly subtotal + tax + shipping estimate − discount. *)
Theorem cart_summary_adds_up s cart_id c subtotal :
  carts (working s) !! cart_id = Some c →
  lines_total (working s) (items_of_cart (working s) cart_id) = Some subtotal →
  ∃ sm s',
    CartService.get_cart_summary cart_id s = (Ok sm, s')
    ∧ cs_subtotal sm = numeric_12_2 subtotal
    ∧ cs_tax_amount sm = numeric_12_2 (subtotal * dec_ratio 18 100)
    ∧ cs_shipping_estimate sm = CartService.shipping_of (numeric_12_2 subtotal)
    ∧ cs_discount_amount sm = c_discount_amount c
    ∧ cs_item_count sm = CartService.item_count (working s) cart_id
    ∧ cs_total sm
      = numeric_12_2 (subtotal + subtotal * dec_ratio 18 100
                      + CartService.shipping_of subtotal - c_discount_amount c)
    ∧ (two_decimals subtotal → two_decimals (c_discount_amount c) →
       (dec 0 ≤ subtotal)%Qc →
       (c_discount_amount c ≤ subtotal + CartService.shipping_of subtotal)%Qc →
       summary_adds_up sm)
    ∧ committed s' = working s'
    ∧ carts (working s') !! cart_id = Some (CartService.store_totals subtotal c).
Proof.
  intros Hc Hsub. unfold CartService.get_cart_summary.
  rewrite (bind_ok _ _ _ _ _ (update_cart_totals_run _ _ _ Hsub)).
  unfold bind, get_db. cbn. rewrite lookup_alter_eq, Hc. cbn.
  eexists _, _. split; [reflexivity|]. cbn.
  rewrite !dec_or_zero_id, shipping_estimate_of.
  rewrite lookup_alter_eq, Hc.
  split; [done|]. split; [done|]. split; [done|]. split; [done|].
  split; [done|]. split; [done|]. split; [|done].
  intros Hs Hd Hpos Hle. unfold summary_adds_up. cbn.
  rewrite (numeric_12_2_exact subtotal) by done.
  apply numeric_12_2_total; try done.
  rewrite cart_shipping_of. apply two_decimals_shipping.
Qed.

Lemma cart_summary_adds_up_witness :
  let s := clean_session (cart_store (dec 10)) in
  ∃ sm s',
    CartService.get_cart_summary 1 s = (Ok sm, s')
    ∧ cs_subtotal sm = numeric_12_2 (dec 200)
    ∧ cs_tax_amount sm = numeric_12_2 (dec 200 * dec_ratio 18 100)
    ∧ cs_shipping_estimate sm = CartService.shipping_of (numeric_12_2 (dec 200))
    ∧ cs_discount_amount sm = c_discount_amount (widget_cart (dec 10))
    ∧ cs_item_count sm = CartService.item_count (working s) 1
    ∧ cs_total sm
      = numeric_12_2 (dec 200 + dec 200 * dec_ratio 18 100
                      + CartService.shipping_of (dec 200)
                      - c_discount_amount (widget_cart (dec 10)))
    ∧ summary_adds_up sm
    ∧ committed s' = working s'
    ∧ carts (working s') !! 1
      = Some (CartService.store_totals (dec 200) (widget_cart (dec 10))).
Proof.
  destruct (cart_summary_adds_up (clean_session (cart_store (dec 10))) 1
              (widget_cart (dec 10)) (dec 200) eq_refl (cart_store_lines_total _))
    as (sm & s' & Hrun & Hsub & Htax & Hship & Hdisc & Hcount & Htotal & Hadds
        & Hcommit & Hcart).
  exists sm, s'. repeat split; try done.
  apply Hadds.
  - apply two_decimals_dec.
  - apply two_decimals_dec.
  - by vm_compute.
  - by vm_compute.
Defined.

(** X10. Any promo code is accepted and none gives a discount.  For an
    existing cart whose lines all have a price and any string of at most
    50 characters (the length the schema and the column allow),
    [apply_promo_code] reports success with the message "Promo code
    applied" and commits: the cart carries the code, its discount is what
    it was, and its totals are the recomputed ones, stored as their
    [Numeric(12, 2)] columns keep them: subtotal, tax (18% of the
    subtotal) and total (subtotal + 18% of the subtotal + shipping −
    discount), each rounded to two decimals. *)
Theorem promo_code_gives_no_discount s cart_id c subtotal promo_code :
  carts (working s) !! cart_id = Some c →
  lines_total (working s) (items_of_cart (working s) cart_id) = Some subtotal →
  fits_string_50 promo_code →
  ∃ s' c',
    CartService.apply_promo_code cart_id promo_code s
    = (Ok (true, "Promo code applied"), s')
    ∧ carts (working s') !! cart_id = Some c'
    ∧ c_promo_code c' = Some promo_code
    ∧ c_discount_amount c' = c_discount_amount c
    ∧ totals_as_computed subtotal c c'
    ∧ cart_items (working s') = cart_items (working s)
    ∧ committed s' = working s'.
Proof.
  intros Hc Hsub _. unfold CartService.apply_promo_code.
  unfold bind at 1, modify_db at 1. cbv beta iota.
  unfold bind at 1, db_commit at 1. cbv beta iota.
  unfold bind at 1.
  rewrite (update_cart_totals_run _ _ subtotal).
  2:{ cbn [working]. erewrite lines_total_products; [exact Hsub | reflexivity]. }
  cbn. eexists _, _. split; [reflexivity|]. cbn.
  rewrite !lookup_alter_eq, Hc. cbn.
  split; [reflexivity|]. split; [done|]. split; [done|].
  split; [|done].
  apply (store_totals_computed subtotal (CartService.set_promo_code promo_code c)).
Qed.

Lemma promo_code_gives_no_discount_witness :
  let s := clean_session (cart_store (dec 0)) in
  ∃ s' c',
    CartService.apply_promo_code 1 "HALF-PRICE" s
    = (Ok (true, "Promo code applied"), s')
    ∧ carts (working s') !! 1 = Some c'
    ∧ c_promo_code c' = Some "HALF-PRICE"
    ∧ c_discount_amount c' = c_discount_amount (widget_cart (dec 0))
    ∧ totals_as_computed (dec 200) (widget_cart (dec 0)) c'
    ∧ cart_items (working s') = cart_items (working s)
    ∧ committed s' = working s'.
Proof.
  apply (promo_code_gives_no_discount (clean_session (cart_store (dec 0)))).
  - reflexivity.
  - apply cart_store_lines_total.
  - unfold fits_string_50. cbn. lia.
Defined.

(** ** What happens once *)

Lemma query_first_Some {V} (m : gmap Z V) (P : Z → V → bool) k v :
  query_first m P = Some (k, v) → m !! k = Some v ∧ P k v = true.
Proof.
  unfold query_first. intros H. apply find_some in H as [Hin HP].
  split; [|done]. apply elem_of_map_to_list. by apply list_elem_of_In.
Qed.

Lemma query_first_None {V} (m : gmap Z V) (P : Z → V → bool) :
  (∀ k v, m !! k = Some v → P k v = false) → query_first m P = None.
Proof.
  intros H. unfold query_first.
  destruct (find _ _) as [[k v]|] eqn:Hfind; [|done].
  apply query_first_Some in Hfind as [Hk HP]. rewrite (H _ _ Hk) in HP. done.
Qed.

(** X11. A cancellation is final.  After a successful [cancel_order], every
    further [cancel_order] of that order raises (403 for a user who is
    neither its owner nor an admin, else 400 "cannot be cancelled") and
    every [update_order_status] of it raises the invalid-transition error,
    all of them leaving the session exactly as it was: no stock is released
    twice. *)
Theorem cancellation_is_final s now order_id user_id reason is_admin r s1 :
  OrderService.cancel_order now order_id user_id reason is_admin s = (Ok r, s1) →
  (∀ now' user_id' reason' is_admin',
     OrderService.cancel_order now' order_id user_id' reason' is_admin' s1
     = (Raise (if bool_decide (may_act_on r.2 user_id' is_admin')
               then NotCancellable OrderStatus.CANCELLED else Forbidden), s1))
  ∧ (∀ new_status admin_id notes,
       OrderService.update_order_status order_id new_status admin_id notes s1
       = (Raise (InvalidTransition OrderStatus.CANCELLED new_status), s1)).
Proof.
  intros Hcancel.
  apply cancel_order_ok_inv in Hcancel
    as (order & new_logs & Horder & (-> & _ & Hos & _)).
  assert (Ho1 : orders (working s1) !! order_id
                = Some (cancelled_order now user_id reason order)).
  { by rewrite Hos, lookup_insert_eq. }
  split.
  - intros now' user_id' reason' is_admin'.
    cancel_order_start Ho1. cbn [snd].
    unfold may_act_on. destruct is_admin'; cbn [negb andb].
    + rewrite bool_decide_eq_true_2 by (by left). reflexivity.
    + case_bool_decide as Howner; cbn [negb].
      * rewrite bool_decide_eq_true_2 by (by right). reflexivity.
      * rewrite bool_decide_eq_false_2; [done|]. by intros [?|?].
  - intros new_status admin_id notes.
    unfold OrderService.update_order_status. unfold bind at 1, get_db at 1.
    cbv beta iota. rewrite Ho1. reflexivity.
Qed.

Lemma cancellation_is_final_witness :
  let s := clean_session (ordered_store OrderStatus.PENDING 0) in
  let c := OrderService.cancel_order 5 1 7 None false s in
  let r := ok_or (0, widget_order EmptyString 0) c.1 in
  (∀ now' user_id' reason' is_admin',
     OrderService.cancel_order now' 1 user_id' reason' is_admin' c.2
     = (Raise (if bool_decide (may_act_on r.2 user_id' is_admin')
               then NotCancellable OrderStatus.CANCELLED else Forbidden), c.2))
  ∧ (∀ new_status admin_id notes,
       OrderService.update_order_status 1 new_status admin_id notes c.2
       = (Raise (InvalidTransition OrderStatus.CANCELLED new_status), c.2)).
Proof.
  apply (cancellation_is_final (clean_session (ordered_store OrderStatus.PENDING 0))
           5 1 7 None false).
  vm_compute. reflexivity.
Defined.

Lemma get_cart_user_Some user_id s cart_id cart :
  CartService.get_cart (Some user_id) None s = (Ok (Some (cart_id, cart)), s) →
  carts (working s) !! cart_id = Some cart
  ∧ c_user_id cart = Some user_id
  ∧ c_status cart = CartStatus.ACTIVE.
Proof.
  unfold CartService.get_cart, bind, get_db. cbn.
  destruct (negb (user_id =? 0)); [|done]. cbn. intros [= Hq].
  apply query_first_Some in Hq as [Hk HP]. cbn in HP.
  apply andb_true_iff in HP as [Hu Hs].
  apply bool_decide_eq_true in Hu, Hs. done.
Qed.

Lemma get_cart_user_None user_id s :
  (∀ k c, carts (working s) !! k = Some c →
          c_user_id c = Some user_id → c_status c ≠ CartStatus.ACTIVE) →
  CartService.get_cart (Some user_id) None s = (Ok None, s).
Proof.
  intros H. unfold CartService.get_cart, bind, get_db. cbn.
  destruct (negb (user_id =? 0)); [|done]. cbn.
  rewrite query_first_None; [done|]. intros k c Hk. cbn.
  case_bool_decide as Hu; [|done]. cbn. apply bool_decide_eq_false_2. by eapply H.
Qed.

(** X12. A cart is checked out once.  After a successful
    [create_order_from_cart], the cart the order was made from is
    CONVERTED in the database and [get_cart] does not return it any more;
    when the user had no other active cart, every further
    [create_order_from_cart] of that user raises "Cart is empty" (400) and
    leaves the session exactly as it was. *)
Theorem cart_checked_out_once now order_number user_id order_data s r s1 :
  OrderService.create_order_from_cart now order_number user_id order_data s
  = (Ok r, s1) →
  ∃ cart_id cart,
    CartService.get_cart (Some user_id) None s = (Ok (Some (cart_id, cart)), s)
    ∧ carts (committed s1) !! cart_id
      = Some (CartService.set_cart_status CartStatus.CONVERTED cart)
    ∧ (∀ cart', CartService.get_cart (Some user_id) None s1
                ≠ (Ok (Some (cart_id, cart')), s1))
    ∧ (only_active_cart (working s) user_id cart_id →
       ∀ now' order_number' order_data',
         OrderService.create_order_from_cart now' order_number' user_id order_data' s1
         = (Raise CartIsEmpty, s1)).
Proof.
  intros Hcreate.
  apply create_order_from_cart_ok_try in Hcreate as (cart_id & cart & Hcart & Htry).
  pose proof (create_order_from_cart_try_run now order_number user_id order_data
                cart_id (items_of_cart (working s) cart_id) s) as Hrun.
  rewrite Htry in Hrun. destruct Hrun as [(Hcm & _) Hcarts].
  pose proof (get_cart_user_Some _ _ _ _ Hcart) as (Hk & Hu & Hactive).
  assert (Hk1 : carts (working s1) !! cart_id
                = Some (CartService.set_cart_status CartStatus.CONVERTED cart)).
  { by rewrite Hcarts, lookup_alter_eq, Hk. }
  exists cart_id, cart. split; [done|]. split; [by rewrite Hcm|]. split.
  - intros cart' Hget. apply get_cart_user_Some in Hget as (Hk' & _ & Hactive').
    rewrite Hk1 in Hk'. injection Hk' as <-. cbn in Hactive'. discriminate.
  - intros Honly now' order_number' order_data'.
    assert (Hnone : CartService.get_cart (Some user_id) None s1 = (Ok None, s1)).
    { apply get_cart_user_None.
      intros k c. rewrite Hcarts. destruct (decide (k = cart_id)) as [->|Hne].
      - rewrite lookup_alter_eq, Hk. intros [= <-] _. cbn. discriminate.
      - rewrite lookup_alter_ne by done. intros Hkc Huc Hac.
        apply Hne. by eapply Honly. }
    unfold OrderService.create_order_from_cart.
    by rewrite (bind_ok _ _ _ _ _ Hnone).
Qed.

Lemma checkout_store_only_cart : only_active_cart checkout_store 7 1.
Proof.
  intros k c Hk _ _. destruct (decide (k = 1)) as [|Hne]; [done|].
  cbn in Hk. by rewrite lookup_insert_ne, lookup_empty in Hk.
Qed.

Lemma cart_checked_out_once_witness :
  let s := clean_session checkout_store in
  let c := OrderService.create_order_from_cart 1000 "ORD-1" 7 checkout_data s in
  ∃ cart_id cart,
    CartService.get_cart (Some 7) None s = (Ok (Some (cart_id, cart)), s)
    ∧ carts (committed c.2) !! cart_id
      = Some (CartService.set_cart_status CartStatus.CONVERTED cart)
    ∧ (∀ cart', CartService.get_cart (Some 7) None c.2
                ≠ (Ok (Some (cart_id, cart')), c.2))
    ∧ (only_active_cart (working s) 7 cart_id →
       ∀ now' order_number' order_data',
         OrderService.create_order_from_cart now' order_number' 7 order_data' c.2
         = (Raise CartIsEmpty, c.2)).
Proof.
  apply (cart_checked_out_once 1000 "ORD-1" 7 checkout_data
           (clean_session checkout_store)
           (ok_or (0, widget_order EmptyString 0)
              (OrderService.create_order_from_cart 1000 "ORD-1" 7 checkout_data
                 (clean_session checkout_store)).1)).
  vm_compute. reflexivity.
Defined.

(** ** Checkout *)

Lemma issues_of_item_nil st it :
  CartService.issues_of_item st it = [] ↔ line_available st it.
Proof.
  unfold CartService.issues_of_item, line_available.
  destruct (products st !! ci_product_id it) as [p|]; [|split; [done | by intros (? & ? & _)]].
  destruct (p_is_active p) eqn:Hactive; cbn.
  - destruct (_ <? _) eqn:Hlt.
    + apply Z.ltb_lt in Hlt. split; [done|].
      intros (p' & [= <-] & _ & Hle). lia.
    + apply Z.ltb_ge in Hlt. split; [|done]. intros _. by exists p.
  - split; [done|]. intros (p' & [= <-] & ? & _). congruence.
Qed.

Lemma issues_nil st items :
  concat (map (CartService.issues_of_item st) items) = []
  ↔ Forall (line_available st) items.
Proof.
  induction items as [|it items IH]; cbn; [by split|].
  rewrite list.Forall_cons, <- IH, <- issues_of_item_nil.
  split.
  - intros H. by apply app_eq_nil in H.
  - intros [-> ->]. done.
Qed.

(** X13. What the checkout validation says.  [validate_cart_for_checkout]
    never changes the session.  It answers valid exactly when the cart has
    lines and, for every line, the product exists, is active, and has the
    quantity in stock (the variation's stock when the line names a variation
    that tracks its own); and it answers valid exactly when it reports no
    issue. *)
Theorem checkout_validation s cart_id :
  ∃ valid issues,
    CartService.validate_cart_for_checkout cart_id s = (Ok (valid, issues), s)
    ∧ (valid = true
       ↔ items_of_cart (working s) cart_id ≠ []
         ∧ Forall (line_available (working s)) (items_of_cart (working s) cart_id))
    ∧ (valid = true ↔ issues = []).
Proof.
  unfold CartService.validate_cart_for_checkout, bind, get_db. cbn -[concat].
  destruct (items_of_cart (working s) cart_id) as [|it items] eqn:Hitems.
  - eexists _, _. split; [reflexivity|]. split; [by split; [|intros [? _]] | done].
  - eexists _, _. split; [reflexivity|].
    rewrite bool_decide_eq_true, length_zero_iff_nil.
    split; [|done].
    change (CartService.issues_of_item (working s) it
            :: map (CartService.issues_of_item (working s)) items)
      with (map (CartService.issues_of_item (working s)) (it :: items)).
    rewrite issues_nil. by split; [|intros [_ ?]].
Qed.

Lemma validate_passes s cart_id :
  items_of_cart (working s) cart_id ≠ [] →
  Forall (line_available (working s)) (items_of_cart (working s) cart_id) →
  CartService.validate_cart_for_checkout cart_id s = (Ok (true, []), s).
Proof.
  intros Hne Hall. apply issues_nil in Hall.
  unfold CartService.validate_cart_for_checkout, bind, get_db. cbn -[concat].
  destruct (items_of_cart (working s) cart_id) as [|it items]; [done|].
  change (CartService.issues_of_item (working s) it
          :: map (CartService.issues_of_item (working s)) items)
    with (map (CartService.issues_of_item (working s)) (it :: items)).
  by rewrite Hall.
Qed.

Lemma lines_quantity_nonneg pid (lines : list (Z * Z)) :
  Forall (λ l, 0 ≤ l.2) lines → 0 ≤ lines_quantity pid lines.
Proof.
  induction 1 as [|[k q] lines Hq _ IH]; cbn in *; [done|]. case_bool_decide; lia.
Qed.

Section reservation_progress.
Context {A : Type} (line_of : A → Z * Z) (body : A → M unit).

Hypothesis body_progress : ∀ x s p,
  products (working s) !! (line_of x).1 = Some p →
  (line_of x).2 ≤ p_stock p →
  ∃ s', body x s = (Ok tt, s')
        ∧ products (working s')
          = <[(line_of x).1 := set_stock p (p_stock p - (line_of x).2)]>
              (products (working s)).

Lemma reservation_loop_succeeds items s :
  lines_in_stock (working s) (line_of <$> items) →
  ∃ s', for_each items body s = (Ok tt, s').
Proof.
  revert s. induction items as [|x rest IH]; intros s [Hall Hsum].
  { by eexists. }
  rewrite fmap_cons in Hall, Hsum. apply list.Forall_cons in Hall as [[Hq [p Hp]] Hrest].
  destruct (line_of x) as [pid q] eqn:Hx. cbn in Hq, Hp.
  assert (Hnn : ∀ k, 0 ≤ lines_quantity k (line_of <$> rest)).
  { intros k. apply lines_quantity_nonneg.
    eapply list.Forall_impl; [exact Hrest|]. by intros ? [? _]. }
  pose proof (Hsum pid p Hp) as Hpid. cbn in Hpid.
  rewrite bool_decide_eq_true_2 in Hpid by done.
  destruct (body_progress x s p) as (s1 & Hbody & Hp1).
  { by rewrite Hx. } { rewrite Hx. cbn. specialize (Hnn pid). lia. }
  rewrite Hx in Hp1. cbn in Hp1.
  destruct (IH s1) as [s' Hloop].
  { split.
    - eapply list.Forall_impl; [exact Hrest|]. intros l [Hl Hex]. split; [done|].
      rewrite Hp1. destruct (decide (l.1 = pid)) as [->|Hne].
      + rewrite lookup_insert_eq. by eexists.
      + by rewrite lookup_insert_ne.
    - intros k p'. rewrite Hp1. destruct (decide (k = pid)) as [->|Hne].
      + rewrite lookup_insert_eq. intros [= <-]. cbn. lia.
      + rewrite lookup_insert_ne by done. intros Hk.
        specialize (Hsum k p' Hk). cbn in Hsum.
        rewrite bool_decide_eq_false_2 in Hsum by done. lia. }
  exists s'. cbn [for_each]. by rewrite (bind_ok _ _ _ _ _ Hbody).
Qed.
End reservation_progress.

Lemma unit_price_exists st it :
  is_Some (products st !! ci_product_id it) →
  ∃ price, unit_price_or_product_price st it = Ok price.
Proof.
  intros [p Hp]. unfold unit_price_or_product_price. rewrite Hp.
  destruct (ci_unit_price it) as [x|]; [destruct (dec_truthy x)|]; by eexists.
Qed.


Lemma place_guest_line_progress order_id item_data s p :
  products (working s) !! (validated_line item_data).1 = Some p →
  (validated_line item_data).2 ≤ p_stock p →
  ∃ s', OrderService.place_guest_line order_id item_data s = (Ok tt, s')
        ∧ products (working s')
          = <[(validated_line item_data).1
                := set_stock p (p_stock p - (validated_line item_data).2)]>
              (products (working s)).
Proof.
  cbn. intros Hp Hq.
  unfold OrderService.place_guest_line, OrderService._reserve_stock_direct,
    bind, get_db, modify_db. cbn.
  rewrite Hp. apply Z.ltb_ge in Hq. rewrite Hq. cbn. by eexists.
Qed.

Lemma order_sum_items_exists st items acc :
  Forall (λ it, is_Some (products st !! ci_product_id it)) items →
  ∃ subtotal, OrderService.sum_items st items acc = Ok subtotal.
Proof.
  intros Hall. revert acc. induction Hall as [|it items Hit _ IH]; intros acc; cbn.
  - by eexists.
  - destruct (unit_price_exists st it Hit) as [price ->]. apply IH.
Qed.


Lemma create_guest_order_try_succeeds now order_number order_data items totals s :
  lines_in_stock (working s) (validated_line <$> items) →
  ∃ r s',
    OrderService.create_guest_order_try now order_number order_data items totals s
    = (Ok r, s').
Proof.
  intros Hstock. unfold OrderService.create_guest_order_try.
  unfold bind at 1, get_db at 1. cbv beta iota zeta.
  unfold bind at 1, modify_db at 1. cbv beta iota.
  unfold bind at 1.
  match goal with |- context [for_each items ?body ?s1] =>
    destruct (reservation_loop_succeeds validated_line body
                (place_guest_line_progress _) items s1 Hstock) as [s2 ->]
  end.
  unfold OrderService._record_status_change,
    bind, modify_db, db_commit, get_db, ret. cbn. by eexists _, _.
Qed.




Lemma lines_in_stock_tail st l lines :
  lines_in_stock st (l :: lines) → lines_in_stock st lines.
Proof.
  intros [Hall Hsum]. apply list.Forall_cons in Hall as [[Hq _] Hrest].
  split; [done|]. intros pid p Hp. specialize (Hsum pid p Hp).
  destruct l as [k q]. cbn in *. case_bool_decide; lia.
Qed.

Lemma lines_in_stock_each st lines :
  lines_in_stock st lines →
  Forall (λ l, ∀ p, products st !! l.1 = Some p → l.2 ≤ p_stock p) lines.
Proof.
  induction lines as [|[k q] lines IH]; intros Hstock; [done|].
  constructor; [|by eapply IH, lines_in_stock_tail].
  cbn. intros p Hp. destruct Hstock as [Hall Hsum].
  specialize (Hsum k p Hp). cbn in Hsum.
  rewrite bool_decide_eq_true_2 in Hsum by done.
  apply list.Forall_cons in Hall as [_ Hrest].
  assert (0 ≤ lines_quantity k lines).
  { apply lines_quantity_nonneg. eapply list.Forall_impl; [exact Hrest|].
    by intros ? [? _]. }
  lia.
Qed.

Lemma validate_items_succeeds st items acc subtotal :
  Forall (product_on_sale st) items →
  Forall (λ l, ∀ p, products st !! l.1 = Some p → l.2 ≤ p_stock p)
    (guest_line <$> items) →
  ∃ validated total,
    OrderService.validate_items st items acc subtotal = Ok (validated, total).
Proof.
  intros Hsale. revert acc subtotal.
  induction Hsale as [|it items (p & Hp & Hactive) _ IH]; intros acc subtotal Hq; cbn.
  - by eexists _, _.
  - rewrite fmap_cons in Hq. apply list.Forall_cons in Hq as [Hit Hrest].
    rewrite Hp, Hactive. cbn.
    specialize (Hit p Hp). cbn in Hit. apply Z.ltb_ge in Hit. rewrite Hit.
    by apply IH.
Qed.




(** ** What an order is made of *)

Lemma unit_price_moved delta st st' it :
  stocks_moved delta st st' →
  unit_price_or_product_price st' it = unit_price_or_product_price st it.
Proof.
  intros Hmv. unfold unit_price_or_product_price. rewrite Hmv.
  by destruct (products st !! ci_product_id it).
Qed.

Lemma create_order_item_moved delta st st' order_id it :
  stocks_moved delta st st' →
  OrderService._create_order_item st' order_id it
  = OrderService._create_order_item st order_id it.
Proof.
  intros Hmv. unfold OrderService._create_order_item.
  by rewrite (unit_price_moved _ _ _ _ Hmv).
Qed.

Lemma place_cart_line_item order_id cart_item s s' :
  OrderService.place_cart_line order_id cart_item s = (Ok tt, s') →
  ∃ item,
    OrderService._create_order_item (working s) order_id cart_item = Ok item
    ∧ order_items (working s') = order_items (working s) ++ [item].
Proof.
  unfold OrderService.place_cart_line. unfold bind at 1, get_db at 1.
  cbv beta iota.
  destruct (OrderService._create_order_item (working s) order_id cart_item)
    as [item|e]; cbn [lift_result]; [|done].
  unfold bind at 1, ret at 1. cbv beta iota.
  unfold bind at 1, modify_db at 1. cbv beta iota.
  unfold OrderService._reserve_stock, bind, get_db, modify_db. cbn.
  destruct (products (working s) !! ci_product_id cart_item) as [p|]; [|done].
  destruct (p_stock p <? ci_quantity cart_item); [done|].
  cbn. intros [= <-]. by exists item.
Qed.

Lemma cart_loop_items order_id items s s' :
  for_each items (OrderService.place_cart_line order_id) s = (Ok tt, s') →
  ∃ new_items,
    order_items (working s') = order_items (working s) ++ new_items
    ∧ Forall2 (λ ci item,
        OrderService._create_order_item (working s) order_id ci = Ok item)
        items new_items.
Proof.
  revert s. induction items as [|ci rest IH]; intros s.
  - cbn. intros [= <-]. exists []. by rewrite app_nil_r.
  - cbn [for_each]. unfold bind.
    pose proof (place_cart_line_run order_id ci s) as Hrun.
    destruct (OrderService.place_cart_line order_id ci s) as [[[]|e] s1] eqn:Hline;
      [|done].
    destruct Hrun as (_ & _ & _ & _ & Hmv & _).
    apply place_cart_line_item in Hline as (item & Hitem & Hoi).
    intros Hrest. apply IH in Hrest as (new_items & Hoi' & Hall).
    exists (item :: new_items). split.
    + by rewrite Hoi', Hoi, <- app_assoc.
    + constructor; [done|].
      eapply Forall2_impl; [exact Hall|]. cbn. intros ci' item' <-.
      symmetry. by eapply create_order_item_moved.
Qed.

Lemma unit_price_line_price st it price :
  unit_price_or_product_price st it = Ok price → line_price st it = Some price.
Proof.
  unfold unit_price_or_product_price, line_price, dec_truthy.
  destruct (ci_unit_price it) as [x|].
  - case_bool_decide; cbn.
    + destruct (products st !! ci_product_id it); cbn; congruence.
    + congruence.
  - destruct (products st !! ci_product_id it); cbn; congruence.
Qed.

Lemma create_order_item_of_line st order_id ci item :
  OrderService._create_order_item st order_id ci = Ok item →
  item_of_line st order_id ci item.
Proof.
  unfold OrderService._create_order_item.
  destruct (unit_price_or_product_price st ci) as [price|e] eqn:Hprice; [|done].
  intros [= <-]. unfold item_of_line. cbn.
  do 4 (split; [done|]). by apply unit_price_line_price.
Qed.

(** The sum the order is priced with is the sum over the items made. *)
Lemma order_sum_items_subtotal st order_id items new_items acc subtotal :
  OrderService.sum_items st items acc = Ok subtotal →
  Forall2 (λ ci item, OrderService._create_order_item st order_id ci = Ok item)
    items new_items →
  items_subtotal acc new_items = subtotal.
Proof.
  intros Hsum Hall. revert acc Hsum.
  induction Hall as [|ci item items new_items Hitem _ IH]; intros acc; cbn.
  - congruence.
  - unfold OrderService._create_order_item in Hitem.
    destruct (unit_price_or_product_price st ci) as [price|e]; [|done].
    injection Hitem as <-. cbn. apply IH.
Qed.

(** The amounts of the order row and the items a successful [try] block
    of [create_order_from_cart] makes. *)
Lemma create_order_from_cart_try_detail now order_number user_id order_data cart_id
    items s r s' :
  OrderService.create_order_from_cart_try now order_number user_id order_data
    cart_id items s = (Ok r, s') →
  ∃ totals new_items,
    OrderService._calculate_order_totals (working s) items = Ok totals
    ∧ o_total_amount r.2 = numeric_12_2 (t_total totals)
    ∧ o_tax_amount r.2 = numeric_12_2 (t_tax totals)
    ∧ o_shipping_cost r.2 = numeric_12_2 (t_shipping totals)
    ∧ o_discount_amount r.2 = dec 0
    ∧ order_items (working s') = order_items (working s) ++ new_items
    ∧ Forall2 (λ ci item,
        OrderService._create_order_item (working s) r.1 ci = Ok item)
        items new_items.
Proof.
  unfold OrderService.create_order_from_cart_try.
  unfold bind at 1, get_db at 1. cbv beta iota.
  destruct (OrderService._calculate_order_totals (working s) items) as [totals|e];
    cbn [lift_result]; [|done].
  unfold bind at 1, ret at 1. cbv beta iota zeta.
  unfold bind at 1, modify_db at 1. cbv beta iota.
  unfold bind at 1.
  match goal with |- context [for_each items ?body ?s1] =>
    pose proof (reservation_loop_run cart_line _ body
                  (place_cart_line_run _) items s1) as Hloop;
    pose proof (cart_loop_items (next_id (orders (working s))) items s1) as Hitems;
    destruct (for_each items body s1) as [[[]|e] [cm2 st2]]
  end; [|done].
  cbn in Hloop. destruct Hloop as (-> & (_ & _ & _ & _ & Ho & _) & _).
  destruct (Hitems _ eq_refl) as (new_items & Hoi & Hall). cbn in Hoi.
  unfold OrderService._record_status_change, CartService.mark_cart_converted,
    bind, modify_db, db_commit, get_db, ret. cbn in *.
  rewrite Ho, lookup_insert_eq. cbn. intros [= <- <-]. cbn.
  exists totals, new_items. by repeat split.
Qed.

Lemma place_guest_line_item order_id item_data s s' :
  OrderService.place_guest_line order_id item_data s = (Ok tt, s') →
  order_items (working s')
  = order_items (working s) ++ [guest_item order_id item_data].
Proof.
  unfold OrderService.place_guest_line, OrderService._reserve_stock_direct,
    bind, get_db, modify_db. cbn.
  destruct (products (working s) !! vi_product_id item_data) as [p|]; [|done].
  destruct (p_stock p <? vi_quantity item_data); [done|].
  cbn. by intros [= <-].
Qed.

Lemma guest_loop_items order_id items s s' :
  for_each items (OrderService.place_guest_line order_id) s = (Ok tt, s') →
  order_items (working s')
  = order_items (working s) ++ (guest_item order_id <$> items).
Proof.
  revert s. induction items as [|vi rest IH]; intros s.
  - cbn. intros [= <-]. by rewrite app_nil_r.
  - cbn [for_each]. unfold bind.
    destruct (OrderService.place_guest_line order_id vi s) as [[[]|e] s1] eqn:Hline;
      [|done].
    apply place_guest_line_item in Hline. intros Hrest. apply IH in Hrest.
    by rewrite Hrest, Hline, fmap_cons, <- app_assoc.
Qed.

Lemma create_guest_order_try_detail now order_number order_data items totals s r s' :
  OrderService.create_guest_order_try now order_number order_data items totals s
  = (Ok r, s') →
  o_total_amount r.2 = numeric_12_2 (t_total totals)
  ∧ o_tax_amount r.2 = numeric_12_2 (t_tax totals)
  ∧ o_shipping_cost r.2 = numeric_12_2 (t_shipping totals)
  ∧ o_discount_amount r.2 = dec 0
  ∧ order_items (working s')
    = order_items (working s) ++ (guest_item r.1 <$> items).
Proof.
  unfold OrderService.create_guest_order_try.
  unfold bind at 1, get_db at 1. cbv beta iota zeta.
  unfold bind at 1, modify_db at 1. cbv beta iota.
  unfold bind at 1.
  match goal with |- context [for_each items ?body ?s1] =>
    pose proof (reservation_loop_run validated_line _ body
                  (place_guest_line_run _) items s1) as Hloop;
    pose proof (guest_loop_items (next_id (orders (working s))) items s1) as Hitems;
    destruct (for_each items body s1) as [[[]|e] [cm2 st2]]
  end; [|done].
  cbn in Hloop. destruct Hloop as (-> & (_ & _ & _ & _ & Ho & _) & _).
  specialize (Hitems _ eq_refl). cbn in Hitems.
  unfold OrderService._record_status_change,
    bind, modify_db, db_commit, get_db, ret. cbn in *.
  rewrite Ho, lookup_insert_eq. cbn. intros [= <- <-]. cbn.
  by repeat split.
Qed.

(** What the validation of the lines of a guest order returns: one
    validated line per line, at the price of its product, and their sum. *)
Lemma validate_items_detail st items acc subtotal validated total :
  OrderService.validate_items st items acc subtotal = Ok (validated, total) →
  ∃ new_lines,
    validated = acc ++ new_lines
    ∧ Forall2 (λ it vi, ∀ order_id,
        item_of_guest_line st order_id it (guest_item order_id vi)) items new_lines
    ∧ items_subtotal subtotal (guest_item 0 <$> new_lines) = total.
Proof.
  revert acc subtotal. induction items as [|it rest IH]; intros acc subtotal; cbn.
  - intros [= <- <-]. exists []. by rewrite app_nil_r.
  - destruct (products st !! oic_product_id it) as [p|] eqn:Hp; [|done].
    destruct (negb (p_is_active p)); [done|].
    destruct (p_stock p <? oic_quantity it); [done|].
    intros H. apply IH in H as (new_lines & -> & Hall & Hsum).
    eexists (_ :: new_lines). split; [by rewrite <- app_assoc|].
    split; [|exact Hsum].
    constructor; [|done]. intros order_id. unfold item_of_guest_line. cbn.
    by rewrite Hp.
Qed.

Lemma items_subtotal_guest acc order_id order_id' (lines : list ValidatedItem) :
  items_subtotal acc (guest_item order_id <$> lines)
  = items_subtotal acc (guest_item order_id' <$> lines).
Proof.
  revert acc. induction lines as [|vi lines IH]; intros acc; cbn; [done|]. apply IH.
Qed.

(** The new order has exactly the items its creation added. *)
Lemma new_order_items st st' order_id (new_items : list OrderItem) :
  no_dangling_items st →
  orders st !! order_id = None →
  order_items st' = order_items st ++ new_items →
  Forall (λ it, oi_order_id it = order_id) new_items →
  items_of_order st' order_id = new_items.
Proof.
  intros Hfk Hfresh Hoi Hall. unfold items_of_order.
  rewrite Hoi, list.filter_app, filter_none, filter_all; [done..|].
  apply list.Forall_forall. intros it Hit Heq.
  apply Hfk in Hit as [o Ho]. rewrite Heq, Hfresh in Ho. done.
Qed.

(** The shipping cost of an order, as its column keeps it. *)
Lemma order_shipping_kept subtotal :
  numeric_12_2 (if bool_decide (subtotal < OrderService.FREE_SHIPPING_THRESHOLD)%Qc
                then OrderService.SHIPPING_COST else dec 0)
  = (if bool_decide (subtotal < dec 50000)%Qc then dec 5000 else dec 0).
Proof.
  unfold OrderService.FREE_SHIPPING_THRESHOLD, OrderService.SHIPPING_COST.
  case_bool_decide; apply numeric_12_2_dec.
Qed.

(** The amounts of an order without items: [Order.subtotal] is zero. *)
Lemma empty_order_amounts :
  (numeric_12_2 (dec 0 + dec 0 * dec_ratio 18 100 + dec 5000) - dec 5000
   - numeric_12_2 (dec 0 * dec_ratio 18 100) + dec 0)%Qc = dec 0.
Proof. apply Qc_is_canon. reflexivity. Qed.

Lemma order_subtotal_items st order_id o subtotal :
  items_subtotal (dec 0) (items_of_order st order_id) = subtotal →
  o_tax_amount o = numeric_12_2 (subtotal * dec_ratio 18 100) →
  o_shipping_cost o
  = (if bool_decide (subtotal < dec 50000)%Qc then dec 5000 else dec 0) →
  o_discount_amount o = dec 0 →
  o_total_amount o
  = numeric_12_2 (subtotal + subtotal * dec_ratio 18 100 + o_shipping_cost o) →
  order_subtotal st order_id o = subtotal.
Proof.
  intros Hsub Htax Hship Hdiscount Htotal. unfold order_subtotal.
  destruct (items_of_order st order_id) as [|it items]; [|done].
  cbn in Hsub. subst subtotal.
  rewrite Htotal, Htax, Hdiscount, Hship.
  rewrite bool_decide_eq_true_2 by done. apply empty_order_amounts.
Qed.

Lemma totals_consistent st order_id o subtotal :
  items_subtotal (dec 0) (items_of_order st order_id) = subtotal →
  o_tax_amount o = numeric_12_2 (subtotal * dec_ratio 18 100) →
  o_shipping_cost o
  = (if bool_decide (subtotal < dec 50000)%Qc then dec 5000 else dec 0) →
  o_discount_amount o = dec 0 →
  o_total_amount o
  = numeric_12_2 (subtotal + subtotal * dec_ratio 18 100 + o_shipping_cost o) →
  order_amounts_consistent st order_id o.
Proof.
  intros Hsub Htax Hship Hdisc Htotal. unfold order_amounts_consistent.
  rewrite (order_subtotal_items _ _ _ subtotal) by done.
  cbv zeta. done.
Qed.

Lemma create_guest_order_ok_try now order_number order_data s r s1 :
  OrderService.create_guest_order now order_number order_data s = (Ok r, s1) →
  ∃ validated subtotal totals,
    OrderService.validate_items (working s) (g_items order_data) [] (dec 0)
    = Ok (validated, subtotal)
    ∧ OrderService._validate_and_calculate_items (working s) (g_items order_data)
      = Ok (validated, totals)
    ∧ OrderService.create_guest_order_try now order_number order_data validated
        totals s = (Ok r, s1).
Proof.
  intros Hcreate. unfold OrderService.create_guest_order in Hcreate.
  unfold bind at 1, get_db at 1 in Hcreate. cbv beta iota in Hcreate.
  unfold OrderService._validate_and_calculate_items in *.
  destruct (OrderService.validate_items (working s) (g_items order_data) [] (dec 0))
    as [[validated subtotal]|e] eqn:Hval; cbn [lift_result] in Hcreate; [|done].
  unfold bind at 1, ret at 1 in Hcreate. cbv beta iota in Hcreate.
  cbn [fst snd] in Hcreate. unfold try_except in Hcreate.
  destruct (OrderService.create_guest_order_try _ _ _ _ _ s) as [[r0|e] s0] eqn:Htry.
  - injection Hcreate as <- <-. by eexists validated, subtotal, _.
  - unfold bind, db_rollback, raise in Hcreate. discriminate.
Qed.

Lemma created_items_order st order_id items new_items :
  Forall2 (λ ci item, OrderService._create_order_item st order_id ci = Ok item)
    items new_items →
  Forall (λ it, oi_order_id it = order_id) new_items.
Proof.
  induction 1 as [|ci item items new_items Hitem _ IH]; constructor; [|done].
  by apply create_order_item_of_line in Hitem as [? _].
Qed.

(** X16. The items of an order are its lines, at the price of the moment.
    When every order item belongs to an order: after a successful
    [create_order_from_cart] the new order has one item per line of the
    user's active cart, in order, with the product, variation and quantity
    of the line and, as price, the snapshot [unit_price] of the line when
    that is set and not zero (whatever the product costs now), else the
    current price of the product; after a successful [create_guest_order]
    it has one item per requested line, at the current price of the
    product. *)
Theorem order_items_from_lines now order_number s r s1 :
  no_dangling_items (working s) →
  (∀ user_id order_data,
     OrderService.create_order_from_cart now order_number user_id order_data s
     = (Ok r, s1) →
     ∃ cart_id cart,
       CartService.get_cart (Some user_id) None s = (Ok (Some (cart_id, cart)), s)
       ∧ Forall2 (item_of_line (working s) r.1)
           (items_of_cart (working s) cart_id)
           (items_of_order (committed s1) r.1))
  ∧ (∀ order_data,
       OrderService.create_guest_order now order_number order_data s = (Ok r, s1) →
       Forall2 (item_of_guest_line (working s) r.1)
         (g_items order_data)
         (items_of_order (committed s1) r.1)).
Proof.
  intros Hfk. split.
  - intros user_id order_data Hcreate.
    apply create_order_from_cart_ok_try in Hcreate as (cart_id & cart & Hcart & Htry).
    pose proof (create_order_from_cart_try_run now order_number user_id order_data
                  cart_id (items_of_cart (working s) cart_id) s) as Hrun.
    rewrite Htry in Hrun. destruct Hrun as [(Hcm & Hid & _) _].
    apply create_order_from_cart_try_detail in Htry
      as (totals & new_items & _ & _ & _ & _ & _ & Hoi & Hall).
    exists cart_id, cart. split; [done|]. rewrite Hcm.
    rewrite (new_order_items (working s) _ _ new_items Hfk); [| |done|].
    + eapply Forall2_impl; [exact Hall|]. intros ci item.
      apply create_order_item_of_line.
    + rewrite Hid. apply next_id_fresh.
    + by eapply created_items_order.
  - intros order_data Hcreate.
    apply create_guest_order_ok_try in Hcreate
      as (validated & subtotal & totals & Hval & _ & Htry).
    pose proof (create_guest_order_try_run now order_number order_data
                  validated totals s) as Hrun.
    rewrite Htry in Hrun. destruct Hrun as [(Hcm & Hid & _) _].
    apply create_guest_order_try_detail in Htry as (_ & _ & _ & _ & Hoi).
    apply validate_items_detail in Hval as (new_lines & -> & Hall & _).
    rewrite app_nil_l in Hoi. rewrite Hcm.
    rewrite (new_order_items (working s) _ _ (guest_item r.1 <$> new_lines) Hfk);
      [| |done|].
    + apply Forall2_fmap_r. eapply Forall2_impl; [exact Hall|]. cbn.
      intros it vi H. apply H.
    + rewrite Hid. apply next_id_fresh.
    + apply list.Forall_fmap. by apply list.Forall_true.
Qed.

Lemma order_items_from_lines_witness :
  let s := clean_session checkout_store in
  let c := OrderService.create_order_from_cart 1000 "ORD-1" 7 checkout_data s in
  let r := ok_or (0, widget_order EmptyString 0) c.1 in
  ∃ cart_id cart,
    CartService.get_cart (Some 7) None s = (Ok (Some (cart_id, cart)), s)
    ∧ Forall2 (item_of_line (working s) r.1)
        (items_of_cart (working s) cart_id)
        (items_of_order (committed c.2) r.1).
Proof.
  destruct (order_items_from_lines 1000 "ORD-1" (clean_session checkout_store)
              (ok_or (0, widget_order EmptyString 0)
                 (OrderService.create_order_from_cart 1000 "ORD-1" 7 checkout_data
                    (clean_session checkout_store)).1)
              (OrderService.create_order_from_cart 1000 "ORD-1" 7 checkout_data
                 (clean_session checkout_store)).2
              checkout_store_no_dangling) as [Hcart _].
  apply (Hcart 7 checkout_data). vm_compute. reflexivity.
Defined.

(** X17. The amounts of a new order follow from its items.  When every
    order item belongs to an order: after a successful
    [create_order_from_cart] or [create_guest_order], [Order.subtotal] of
    the new order is Σ(price × quantity) over its items; its tax is 18% of
    that subtotal rounded to two decimals, as the [Numeric(12, 2)] column
    keeps it; its shipping cost is the flat fee when the subtotal is below
    the free-shipping threshold (also for a subtotal of zero) and zero
    otherwise; its discount is zero; and its total is subtotal + 18% of the
    subtotal + shipping, rounded to two decimals.  Where the subtotal is in
    whole hundredths and not negative, the total is subtotal + tax +
    shipping of the stored amounts, so that both ways [Order.subtotal] has
    of computing the subtotal agree. *)
Theorem order_amounts_from_items now order_number s r s1 :
  no_dangling_items (working s) →
  (∃ user_id order_data,
     OrderService.create_order_from_cart now order_number user_id order_data s
     = (Ok r, s1))
  ∨ (∃ order_data,
       OrderService.create_guest_order now order_number order_data s = (Ok r, s1)) →
  let subtotal := order_subtotal (committed s1) r.1 r.2 in
  order_amounts_consistent (committed s1) r.1 r.2
  ∧ subtotal = items_subtotal (dec 0) (items_of_order (committed s1) r.1)
  ∧ (two_decimals subtotal → (dec 0 ≤ subtotal)%Qc →
     o_total_amount r.2 = (subtotal + o_tax_amount r.2 + o_shipping_cost r.2)%Qc
     ∧ subtotal = (o_total_amount r.2 - o_shipping_cost r.2 - o_tax_amount r.2
                   + o_discount_amount r.2)%Qc).
Proof.
  intros Hfk Hcreate.
  assert (∃ subtotal,
            items_subtotal (dec 0) (items_of_order (committed s1) r.1) = subtotal
            ∧ o_tax_amount r.2 = numeric_12_2 (subtotal * OrderService.TAX_RATE)
            ∧ o_shipping_cost r.2
              = numeric_12_2
                  (if bool_decide (subtotal < OrderService.FREE_SHIPPING_THRESHOLD)%Qc
                   then OrderService.SHIPPING_COST else dec 0)
            ∧ o_discount_amount r.2 = dec 0
            ∧ o_total_amount r.2
              = numeric_12_2
                  (subtotal + subtotal * OrderService.TAX_RATE
                   + (if bool_decide
                           (subtotal < OrderService.FREE_SHIPPING_THRESHOLD)%Qc
                      then OrderService.SHIPPING_COST else dec 0)))
    as (subtotal & Hsub & Htax & Hship & Hdisc & Htotal).
  { destruct Hcreate as [(user_id & order_data & Hcreate)|(order_data & Hcreate)].
    - apply create_order_from_cart_ok_try in Hcreate
        as (cart_id & cart & Hcart & Htry).
      pose proof (create_order_from_cart_try_run now order_number user_id order_data
                    cart_id (items_of_cart (working s) cart_id) s) as Hrun.
      rewrite Htry in Hrun. destruct Hrun as [(Hcm & Hid & _) _].
      apply create_order_from_cart_try_detail in Htry
        as (totals & new_items & Htotals & Ht & Htx & Hsh & Hd & Hoi & Hall).
      unfold OrderService._calculate_order_totals in Htotals.
      destruct (OrderService.sum_items (working s) _ (dec 0)) as [subtotal|e]
        eqn:Hsum; [|done].
      injection Htotals as <-. cbn in Ht, Htx, Hsh.
      exists subtotal. rewrite Hcm.
      rewrite (new_order_items (working s) _ _ new_items Hfk); [| |done|].
      + split; [by eapply order_sum_items_subtotal|]. done.
      + rewrite Hid. apply next_id_fresh.
      + by eapply created_items_order.
    - apply create_guest_order_ok_try in Hcreate
        as (validated & subtotal & totals & Hval & Htotals & Htry).
      pose proof (create_guest_order_try_run now order_number order_data
                    validated totals s) as Hrun.
      rewrite Htry in Hrun. destruct Hrun as [(Hcm & Hid & _) _].
      apply create_guest_order_try_detail in Htry as (Ht & Htx & Hsh & Hd & Hoi).
      unfold OrderService._validate_and_calculate_items in Htotals.
      rewrite Hval in Htotals. injection Htotals as <-. cbn in Ht, Htx, Hsh.
      apply validate_items_detail in Hval as (new_lines & -> & _ & Hsum).
      rewrite app_nil_l in Hoi. exists subtotal. rewrite Hcm.
      rewrite (new_order_items (working s) _ _ (guest_item r.1 <$> new_lines) Hfk);
        [| |done|].
      + split; [by rewrite (items_subtotal_guest _ _ 0)|]. done.
      + rewrite Hid. apply next_id_fresh.
      + apply list.Forall_fmap. by apply list.Forall_true. }
  rewrite order_shipping_kept in Hship.
  change OrderService.TAX_RATE with (dec_ratio 18 100) in Htax, Htotal.
  change OrderService.FREE_SHIPPING_THRESHOLD with (dec 50000) in Htotal.
  change OrderService.SHIPPING_COST with (dec 5000) in Htotal.
  rewrite <- Hship in Htotal.
  pose proof (totals_consistent _ _ _ _ Hsub Htax Hship Hdisc Htotal) as Hamounts.
  assert (Hitems : order_subtotal (committed s1) r.1 r.2 = subtotal)
    by (by apply order_subtotal_items).
  cbv zeta. rewrite Hitems.
  split; [done|]. split; [done|].
  intros Htwo Hpos.
  assert (Hkept : o_total_amount r.2
                  = (subtotal + o_tax_amount r.2 + o_shipping_cost r.2)%Qc).
  { rewrite Htotal, Htax.
    replace (subtotal + subtotal * dec_ratio 18 100 + o_shipping_cost r.2)%Qc
      with (subtotal + subtotal * dec_ratio 18 100 + o_shipping_cost r.2 - dec 0)%Qc
      by (rewrite dec_0; ring).
    rewrite numeric_12_2_total; [rewrite dec_0; ring|done| |apply two_decimals_dec|done|].
    - rewrite Hship. apply two_decimals_shipping.
    - apply Qcplus_nonneg; [done|].
      rewrite Hship. case_bool_decide; by vm_compute. }
  split; [done|]. rewrite Hkept, Hdisc, dec_0. ring.
Qed.

Lemma order_amounts_from_items_witness :
  let s := clean_session checkout_store in
  let c := OrderService.create_order_from_cart 1000 "ORD-1" 7 checkout_data s in
  let r := ok_or (0, widget_order EmptyString 0) c.1 in
  let subtotal := order_subtotal (committed c.2) r.1 r.2 in
  order_amounts_consistent (committed c.2) r.1 r.2
  ∧ subtotal = items_subtotal (dec 0) (items_of_order (committed c.2) r.1)
  ∧ o_total_amount r.2 = (subtotal + o_tax_amount r.2 + o_shipping_cost r.2)%Qc
  ∧ subtotal = (o_total_amount r.2 - o_shipping_cost r.2 - o_tax_amount r.2
                + o_discount_amount r.2)%Qc.
Proof.
  intros s c r subtotal.
  destruct (order_amounts_from_items 1000 "ORD-1" s r c.2
              checkout_store_no_dangling) as (Hamounts & Hitems & Hadds).
  { left. exists 7, checkout_data. vm_compute. reflexivity. }
  split; [exact Hamounts|]. split; [exact Hitems|].
  apply Hadds.
  - exists 20000. apply Qc_is_canon. reflexivity.
  - by vm_compute.
Defined.

(** ** Paging through the orders of a user *)

Lemma concat_pages {A} (l : list A) k m :
  concat ((λ i, take k (drop (i * k) l)) <$> seq 0 m) = take (m * k) l.
Proof.
  induction m as [|m IH]; [done|].
  rewrite seq_S, fmap_app, concat_app, IH. cbn. rewrite app_nil_r.
  rewrite take_take_drop. f_equal. lia.
Qed.

Lemma page_offset (i : nat) (k : positive) :
  Z.to_nat ((Z.pos (Pos.of_succ_nat i) - 1) * Z.pos k) = (i * Pos.to_nat k)%nat.
Proof. lia. Qed.

Lemma pages_cover (n : nat) (k : positive) :
  (n ≤ Z.to_nat ((Z.of_nat n + Z.pos k - 1) / Z.pos k) * Pos.to_nat k)%nat.
Proof.
  pose proof (Z.div_mod (Z.of_nat n + Z.pos k - 1) (Z.pos k)) as Hdm.
  pose proof (Z.mod_pos_bound (Z.of_nat n + Z.pos k - 1) (Z.pos k)) as Hmod.
  assert (0 ≤ (Z.of_nat n + Z.pos k - 1) / Z.pos k) by (apply Z.div_pos; lia).
  nia.
Qed.

Lemma page_before_last (p : Z) (n : nat) (k : positive) :
  p < (Z.of_nat n + Z.pos k - 1) / Z.pos k ↔ p * Z.pos k < Z.of_nat n.
Proof.
  pose proof (Z.div_mod (Z.of_nat n + Z.pos k - 1) (Z.pos k)) as Hdm.
  pose proof (Z.mod_pos_bound (Z.of_nat n + Z.pos k - 1) (Z.pos k)) as Hmod.
  split; intros H; nia.
Qed.

Lemma page_nonempty {A} (l : list A) k off :
  (0 < k)%nat → take k (drop off l) ≠ [] ↔ (off < length l)%nat.
Proof.
  intros Hk. rewrite <- length_zero_iff_nil, length_take, length_drop. lia.
Qed.

Lemma fmap_nonempty {A B} (f : A → B) (l : list A) : f <$> l ≠ [] ↔ l ≠ [].
Proof. by destruct l. Qed.

Lemma user_orders_listed st user_id status_filter kv :
  kv ∈ OrderService.user_orders st user_id status_filter
  ↔ listed st user_id status_filter kv.
Proof.
  unfold OrderService.user_orders, listed. rewrite list_elem_of_filter.
  destruct kv as [k o]. rewrite elem_of_map_to_list. cbn. tauto.
Qed.

#[local] Instance newer_first_total : Total newer_first.
Proof. intros a b. unfold newer_first. lia. Qed.

(** X18. Paging through the orders of a user shows each of them once,
    newest first.  [get_user_orders] does not change the session.  The
    orders it pages through are exactly the orders of the user (in the
    status asked for, when a filter is given), each once, in descending
    order of creation time.  Whatever the page: [total] is their number;
    the items of the pages 1 to [total_pages], one after the other, are
    their summaries in that order; a page has at most [page_size] items;
    [has_next] holds exactly when the next page is not empty, and
    [has_prev] exactly when the page is not the first. *)
Theorem user_orders_paged s user_id page_size status_filter :
  ∃ all : list (Z * Order),
    (∀ kv, kv ∈ all ↔ listed (working s) user_id status_filter kv)
    ∧ NoDup all
    ∧ Sorted newer_first all
    ∧ ∀ page,
        let list_page p :=
          OrderService.list_user_orders (working s) user_id p page_size
            status_filter in
        OrderService.get_user_orders user_id page page_size status_filter s
        = (Ok (list_page page), s)
        ∧ lr_total (list_page page) = Z.of_nat (length all)
        ∧ first_pages (working s) user_id page_size status_filter
            (Z.to_nat (lr_total_pages (list_page page)))
          = OrderService.summary_of (working s) <$> all
        ∧ (length (lr_items (list_page page)) ≤ Pos.to_nat page_size)%nat
        ∧ (lr_has_next (list_page page) = true
           ↔ lr_items (list_page (page + 1)%positive) ≠ [])
        ∧ (lr_has_prev (list_page page) = true ↔ page ≠ 1%positive).
Proof.
  set (query := OrderService.user_orders (working s) user_id status_filter).
  pose proof (merge_sort_Permutation newer_first query) as Hperm.
  exists (order_by_created_at_desc query). unfold order_by_created_at_desc.
  split; [|split; [|split]].
  - intros kv. rewrite Hperm. apply user_orders_listed.
  - rewrite Hperm. apply NoDup_filter, NoDup_map_to_list.
  - apply Sorted_merge_sort, _.
  - intros page. cbv zeta.
    assert (Hlen : length (merge_sort newer_first query) = length query).
    { by rewrite Hperm. }
    split; [reflexivity|]. split; [by cbn; rewrite Hlen|]. split; [|split; [|split]].
    + unfold first_pages, OrderService.list_user_orders. cbn.
      fold query. unfold order_by_created_at_desc.
      erewrite list_fmap_ext.
      2:{ intros i x _. rewrite page_offset, fmap_take, fmap_drop. reflexivity. }
      rewrite concat_pages. apply take_ge. rewrite length_fmap, Hlen.
      apply pages_cover.
    + cbn. rewrite length_fmap, length_take. lia.
    + cbn. fold query. unfold order_by_created_at_desc.
      rewrite Z.ltb_lt, page_before_last.
      rewrite fmap_nonempty, page_nonempty by lia. rewrite Hlen. lia.
    + cbn. rewrite Z.ltb_lt. lia.
Qed.

(** ** The inventory service *)

Lemma inventory_reserve_run s product_id quantity order_id p :
  products (working s) !! product_id = Some p →
  quantity ≤ p_stock p →
  InventoryService.reserve_stock product_id quantity order_id s
  = (Ok (set_stock p (p_stock p - quantity)),
     clean_session
       (db_add_log
          {| l_product_id := product_id; l_change_quantity := - quantity;
             l_new_stock := p_stock p - quantity; l_reason := "order_reservation";
             l_admin_id := None; l_order_id := order_id |}
          (with_products <[product_id := set_stock p (p_stock p - quantity)]>
             (working s)))).
Proof.
  intros Hp Hle. unfold InventoryService.reserve_stock, bind, get_db. cbn.
  rewrite Hp. apply Z.ltb_ge in Hle. by rewrite Hle.
Qed.

Lemma inventory_release_run s product_id quantity order_id p :
  products (working s) !! product_id = Some p →
  InventoryService.release_stock product_id quantity order_id s
  = (Ok (set_stock p (p_stock p + quantity)),
     clean_session
       (db_add_log
          {| l_product_id := product_id; l_change_quantity := quantity;
             l_new_stock := p_stock p + quantity;
             l_reason := if opt_int_truthy order_id then "order_cancellation"
                         else "admin_release";
             l_admin_id := None; l_order_id := order_id |}
          (with_products <[product_id := set_stock p (p_stock p + quantity)]>
             (working s)))).
Proof.
  intros Hp. unfold InventoryService.release_stock, bind, get_db. cbn.
  by rewrite Hp.
Qed.

(** X19. Reserving through the inventory service, and giving back.
    [reserve_stock] raises 404 for a product that does not exist and 400,
    naming the available quantity, for one that has less than the quantity
    in stock, both without touching the session.  Otherwise it lowers the
    stock by the quantity, writes the ledger entry and commits; a
    [release_stock] of the same quantity then restores the products exactly
    and adds the opposite entry. *)
Theorem inventory_reserve_release s product_id quantity order_id :
  (products (working s) !! product_id = None →
   InventoryService.reserve_stock product_id quantity order_id s
   = (Raise (HTTPException 404 MsgProductNotFound), s))
  ∧ (∀ p, products (working s) !! product_id = Some p →
       (p_stock p < quantity →
        InventoryService.reserve_stock product_id quantity order_id s
        = (Raise (HTTPException 400
                    (MsgInsufficientStockAvailable (p_name p) (p_stock p))), s))
       ∧ (quantity ≤ p_stock p →
          ∃ reserved s1 released s2,
            InventoryService.reserve_stock product_id quantity order_id s
            = (Ok reserved, s1)
            ∧ InventoryService.release_stock product_id quantity order_id s1
              = (Ok released, s2)
            ∧ reserved_and_released s product_id quantity p reserved s1
                released s2)).
Proof.
  split; [|intros p Hp; split].
  - intros Hp. unfold InventoryService.reserve_stock, bind, get_db. cbn.
    by rewrite Hp.
  - intros Hlt. unfold InventoryService.reserve_stock, bind, get_db. cbn.
    rewrite Hp. apply Z.ltb_lt in Hlt. by rewrite Hlt.
  - intros Hle.
    eexists _, _, _, _. split; [by apply inventory_reserve_run|].
    split; [apply inventory_release_run; cbn; by rewrite lookup_insert_eq|].
    unfold reserved_and_released. cbn.
    split; [done|]. split; [by rewrite lookup_insert_eq|].
    split; [destruct p; unfold set_stock; cbn; f_equal; lia|].
    split.
    { rewrite insert_insert_eq. apply map_eq. intros k.
      destruct (decide (k = product_id)) as [->|Hne].
      - rewrite lookup_insert_eq, Hp. destruct p. unfold set_stock. cbn.
        do 2 f_equal. lia.
      - by rewrite lookup_insert_ne. }
    split; [done|].
    eexists _, _. rewrite <- app_assoc. split; [reflexivity|]. cbn.
    repeat split; lia.
Qed.

Lemma inventory_reserve_release_witness :
  let s := clean_session widget_store in
  InventoryService.reserve_stock 1 6 (Some 1) s
  = (Raise (HTTPException 400 (MsgInsufficientStockAvailable "Widget" 5)), s)
  ∧ ∃ reserved s1 released s2,
      InventoryService.reserve_stock 1 2 (Some 1) s = (Ok reserved, s1)
      ∧ InventoryService.release_stock 1 2 (Some 1) s1 = (Ok released, s2)
      ∧ reserved_and_released s 1 2 widget reserved s1 released s2.
Proof.
  split.
  - destruct (inventory_reserve_release (clean_session widget_store) 1 6 (Some 1))
      as [_ H].
    destruct (H widget eq_refl) as [Hlt _]. apply Hlt. vm_compute. reflexivity.
  - destruct (inventory_reserve_release (clean_session widget_store) 1 2 (Some 1))
      as [_ H].
    destruct (H widget eq_refl) as [_ Hle]. apply Hle. vm_compute. discriminate.
Defined.

(** ** Looking an order up *)

Lemma create_order_from_cart_try_owner now order_number user_id order_data cart_id
    items s r s' :
  OrderService.create_order_from_cart_try now order_number user_id order_data
    cart_id items s = (Ok r, s') →
  o_user_id r.2 = Some user_id.
Proof.
  unfold OrderService.create_order_from_cart_try.
  unfold bind at 1, get_db at 1. cbv beta iota.
  destruct (OrderService._calculate_order_totals (working s) items) as [totals|e];
    cbn [lift_result]; [|done].
  unfold bind at 1, ret at 1. cbv beta iota zeta.
  unfold bind at 1, modify_db at 1. cbv beta iota.
  unfold bind at 1.
  match goal with |- context [for_each items ?body ?s1] =>
    pose proof (reservation_loop_run cart_line _ body
                  (place_cart_line_run _) items s1) as Hloop;
    destruct (for_each items body s1) as [[[]|e] [cm2 st2]]
  end; [|done].
  cbn in Hloop. destruct Hloop as (-> & (_ & _ & _ & _ & Ho & _) & _).
  unfold OrderService._record_status_change, CartService.mark_cart_converted,
    bind, modify_db, db_commit, get_db, ret. cbn in *.
  rewrite Ho, lookup_insert_eq. cbn. by intros [= <- <-].
Qed.

Lemma create_guest_order_try_owner now order_number order_data items totals s r s' :
  OrderService.create_guest_order_try now order_number order_data items totals s
  = (Ok r, s') →
  o_user_id r.2 = None.
Proof.
  unfold OrderService.create_guest_order_try.
  unfold bind at 1, get_db at 1. cbv beta iota zeta.
  unfold bind at 1, modify_db at 1. cbv beta iota.
  unfold bind at 1.
  match goal with |- context [for_each items ?body ?s1] =>
    pose proof (reservation_loop_run validated_line _ body
                  (place_guest_line_run _) items s1) as Hloop;
    destruct (for_each items body s1) as [[[]|e] [cm2 st2]]
  end; [|done].
  cbn in Hloop. destruct Hloop as (-> & (_ & _ & _ & _ & Ho & _) & _).
  unfold OrderService._record_status_change,
    bind, modify_db, db_commit, get_db, ret. cbn in *.
  rewrite Ho, lookup_insert_eq. cbn. by intros [= <- <-].
Qed.

Lemma get_order_found s order_id order user_id :
  orders (working s) !! order_id = Some order →
  OrderService.get_order order_id user_id s
  = if opt_int_truthy user_id && negb (bool_decide (o_user_id order = user_id))
    then (Raise OrderNotFound, s) else (Ok (order_id, order), s).
Proof.
  intros Ho. unfold OrderService.get_order, bind, get_db, query_by_id. cbn.
  rewrite Ho. destruct (opt_int_truthy user_id); cbn; [|done].
  by case_bool_decide.
Qed.

Lemma get_cart_user_truthy user_id s cart :
  CartService.get_cart (Some user_id) None s = (Ok (Some cart), s) → user_id ≠ 0.
Proof.
  unfold CartService.get_cart, bind, get_db. cbn. intros H ->. cbn in H. done.
Qed.

(** X20. An order is found by whom it belongs to.  After a successful
    [create_order_from_cart] for a user, [get_order] on the new id returns
    the order to that user and to a caller that gives no user, and answers
    any other user with 404 "Order not found", as for an order that does not
    exist.  After a successful [create_guest_order], [get_order] returns
    the order to a caller that gives no user and answers every user with
    404.  A user id of 0 counts as none given.  [get_order] never changes the
    session. *)
Theorem created_order_found now order_number s r s1 :
  (∀ user_id order_data,
     OrderService.create_order_from_cart now order_number user_id order_data s
     = (Ok r, s1) →
     OrderService.get_order r.1 (Some user_id) s1 = (Ok r, s1)
     ∧ ∀ other,
         OrderService.get_order r.1 other s1
         = if bool_decide (other = None ∨ other = Some 0 ∨ other = Some user_id)
           then (Ok r, s1) else (Raise OrderNotFound, s1))
  ∧ (∀ order_data,
       OrderService.create_guest_order now order_number order_data s = (Ok r, s1) →
       ∀ other,
         OrderService.get_order r.1 other s1
         = if bool_decide (other = None ∨ other = Some 0)
           then (Ok r, s1) else (Raise OrderNotFound, s1)).
Proof.
  split.
  - intros user_id order_data Hcreate.
    apply create_order_from_cart_ok_try in Hcreate as (cart_id & cart & Hcart & Htry).
    pose proof (get_cart_user_truthy _ _ _ Hcart) as Hnz.
    pose proof (create_order_from_cart_try_owner _ _ _ _ _ _ _ _ _ Htry) as Howner.
    pose proof (create_order_from_cart_try_run now order_number user_id order_data
                  cart_id (items_of_cart (working s) cart_id) s) as Hrun.
    rewrite Htry in Hrun. destruct Hrun as [(_ & _ & Hos & _) _].
    assert (Ho : orders (working s1) !! r.1 = Some r.2).
    { by rewrite Hos, lookup_insert_eq. }
    assert (Hget : ∀ other,
              OrderService.get_order r.1 other s1
              = if bool_decide (other = None ∨ other = Some 0 ∨ other = Some user_id)
                then (Ok r, s1) else (Raise OrderNotFound, s1)).
    { intros other. rewrite (get_order_found _ _ _ _ Ho), Howner.
      destruct r as [oid o]. cbn [fst snd].
      destruct other as [u|]; cbn [opt_int_truthy andb].
      - destruct (Z.eqb_spec u 0) as [->|Hu]; cbn [negb andb];
          repeat case_bool_decide; try done; intuition congruence.
      - repeat case_bool_decide; try done; intuition congruence. }
    split; [|exact Hget].
    rewrite Hget. by rewrite bool_decide_eq_true_2; [|right; right].
  - intros order_data Hcreate.
    apply create_guest_order_ok_try in Hcreate
      as (validated & subtotal & totals & _ & _ & Htry).
    pose proof (create_guest_order_try_owner _ _ _ _ _ _ _ _ Htry) as Howner.
    pose proof (create_guest_order_try_run now order_number order_data
                  validated totals s) as Hrun.
    rewrite Htry in Hrun. destruct Hrun as [(_ & _ & Hos & _) _].
    assert (Ho : orders (working s1) !! r.1 = Some r.2).
    { by rewrite Hos, lookup_insert_eq. }
    intros other. rewrite (get_order_found _ _ _ _ Ho), Howner.
    destruct r as [oid o]. cbn [fst snd].
    destruct other as [u|]; cbn [opt_int_truthy andb].
    + destruct (Z.eqb_spec u 0) as [->|Hu]; cbn [negb andb];
        repeat case_bool_decide; try done; intuition congruence.
    + repeat case_bool_decide; try done; intuition congruence.
Qed.

Lemma created_order_found_witness :
  let s := clean_session checkout_store in
  let c := OrderService.create_order_from_cart 1000 "ORD-1" 7 checkout_data s in
  let r := ok_or (0, widget_order EmptyString 0) c.1 in
  OrderService.get_order r.1 (Some 7) c.2 = (Ok r, c.2)
  ∧ OrderService.get_order r.1 (Some 8) c.2 = (Raise OrderNotFound, c.2).
Proof.
  destruct (created_order_found 1000 "ORD-1" (clean_session checkout_store)
              (ok_or (0, widget_order EmptyString 0)
                 (OrderService.create_order_from_cart 1000 "ORD-1" 7 checkout_data
                    (clean_session checkout_store)).1)
              (OrderService.create_order_from_cart 1000 "ORD-1" 7 checkout_data
                 (clean_session checkout_store)).2) as [Hcart _].
  destruct (Hcart 7 checkout_data) as [Hown Hother]; [vm_compute; reflexivity|].
  split; [exact Hown | exact (Hother (Some 8))].
Defined.

(** ** Orders that are refused *)

Lemma validate_items_app st ok rest acc subtotal :
  Forall (line_orderable st) ok →
  ∃ acc' subtotal',
    OrderService.validate_items st (ok ++ rest) acc subtotal
    = OrderService.validate_items st rest acc' subtotal'.
Proof.
  intros Hok. revert acc subtotal.
  induction Hok as [|it ok (p & Hp & Hactive & Hq) _ IH]; intros acc subtotal; cbn.
  - by eexists _, _.
  - rewrite Hp, Hactive. cbn. apply Z.ltb_ge in Hq. rewrite Hq. apply IH.
Qed.

(** X21. The first line of a guest order that cannot be ordered decides.
    When the lines before it pass the validation (product there and active,
    quantity within its stock), [create_guest_order] raises for that line,
    with the status code of the error and without touching the session:
    404 naming the product id when the product does not exist, 400 naming
    the product when it is not active, 400 naming the product and the
    available quantity when it has less in stock than the line asks. *)
Theorem guest_order_rejected now order_number order_data s ok bad rest :
  g_items order_data = ok ++ bad :: rest →
  Forall (line_orderable (working s)) ok →
  let create := OrderService.create_guest_order now order_number order_data s in
  (products (working s) !! oic_product_id bad = None →
   create = (Raise (OrderError (MsgProductIdNotFound (oic_product_id bad))
                      HTTP_404_NOT_FOUND), s))
  ∧ (∀ p, products (working s) !! oic_product_id bad = Some p →
       (p_is_active p = false →
        create = (Raise (OrderError (MsgProductNotAvailable (p_name p))
                           HTTP_400_BAD_REQUEST), s))
       ∧ (p_is_active p = true → p_stock p < oic_quantity bad →
          create = (Raise (OrderError
                             (MsgInsufficientStockAvailable (p_name p) (p_stock p))
                             HTTP_400_BAD_REQUEST), s))).
Proof.
  intros Hitems Hok create.
  destruct (validate_items_app (working s) ok (bad :: rest) [] (dec 0) Hok)
    as (acc & subtotal & Hval).
  assert (Hrun : ∀ e,
            OrderService.validate_items (working s) (bad :: rest) acc subtotal
            = Raise e →
            create = (Raise e, s)).
  { intros e He. subst create. unfold OrderService.create_guest_order.
    unfold bind at 1, get_db at 1. cbv beta iota.
    unfold OrderService._validate_and_calculate_items.
    by rewrite Hitems, Hval, He. }
  split; [|intros p Hp; split].
  - intros Hp. apply Hrun. cbn. by rewrite Hp.
  - intros Hactive. apply Hrun. cbn. by rewrite Hp, Hactive.
  - intros Hactive Hlt. apply Hrun. cbn. rewrite Hp, Hactive. cbn.
    apply Z.ltb_lt in Hlt. by rewrite Hlt.
Qed.

Lemma guest_order_rejected_witness :
  let s := clean_session widget_store in
  OrderService.create_guest_order 1000 "ORD-1" widget_and_unknown s
  = (Raise (OrderError (MsgProductIdNotFound 2) HTTP_404_NOT_FOUND), s).
Proof.
  destruct (guest_order_rejected 1000 "ORD-1" widget_and_unknown
              (clean_session widget_store)
              [{| oic_product_id := 1; oic_variation_id := None; oic_quantity := 1 |}]
              {| oic_product_id := 2; oic_variation_id := None; oic_quantity := 1 |}
              []) as [Hmissing _].
  - reflexivity.
  - repeat constructor. exists widget. repeat split. vm_compute. discriminate.
  - apply Hmissing. reflexivity.
Defined.

Lemma place_cart_line_raise order_id cart_item s e s' :
  is_Some (products (working s) !! ci_product_id cart_item) →
  OrderService.place_cart_line order_id cart_item s = (Raise e, s') →
  ∃ name, e = InsufficientStockFor name.
Proof.
  intros [p Hp].
  destruct (unit_price_exists (working s) cart_item) as [price Hprice]; [by eexists|].
  unfold OrderService.place_cart_line, OrderService._create_order_item,
    OrderService._reserve_stock, bind, get_db, modify_db. cbn.
  rewrite Hprice. cbn. rewrite Hp.
  destruct (p_stock p <? ci_quantity cart_item); [|done].
  intros [= <- _]. by eexists.
Qed.

Lemma place_guest_line_raise order_id item_data s e s' :
  is_Some (products (working s) !! vi_product_id item_data) →
  OrderService.place_guest_line order_id item_data s = (Raise e, s') →
  ∃ name, e = InsufficientStockFor name.
Proof.
  intros [p Hp].
  unfold OrderService.place_guest_line, OrderService._reserve_stock_direct,
    bind, get_db, modify_db. cbn.
  rewrite Hp. destruct (p_stock p <? vi_quantity item_data); [|done].
  intros [= <- _]. by eexists.
Qed.

Section reservation_failure.
Context {A : Type} (line_of : A → Z * Z) (order_id : Z) (body : A → M unit).

Hypothesis body_run : ∀ x s,
  match body x s with
  | (Raise _, s') => committed s' = committed s
  | (Ok _, s') =>
      committed s' = committed s
      ∧ lines_reserved order_id [line_of x] (working s) (working s')
  end.

Hypothesis body_raise : ∀ x s e s',
  is_Some (products (working s) !! (line_of x).1) →
  body x s = (Raise e, s') → ∃ name, e = InsufficientStockFor name.

Lemma reservation_loop_raise items s e s' :
  Forall (λ x, is_Some (products (working s) !! (line_of x).1)) items →
  for_each items body s = (Raise e, s') →
  ∃ name, e = InsufficientStockFor name.
Proof.
  revert s. induction items as [|x rest IH]; intros s Hall; [done|].
  apply list.Forall_cons in Hall as [Hx Hrest].
  cbn [for_each]. unfold bind.
  pose proof (body_run x s) as Hrun. pose proof (body_raise x s) as Hraise.
  destruct (body x s) as [[[]|e0] s1].
  - destruct Hrun as (_ & _ & _ & _ & Hmv & _). apply IH.
    eapply list.Forall_impl; [exact Hrest|]. intros y Hy.
    by apply (stocks_moved_is_Some _ _ _ _ Hmv).
  - intros [= <- <-]. by eapply Hraise.
Qed.
End reservation_failure.

Lemma create_order_from_cart_try_raise now order_number user_id order_data cart_id
    items s e s' :
  Forall (λ it, is_Some (products (working s) !! ci_product_id it)) items →
  OrderService.create_order_from_cart_try now order_number user_id order_data
    cart_id items s = (Raise e, s') →
  ∃ name, e = InsufficientStockFor name.
Proof.
  intros Hall. unfold OrderService.create_order_from_cart_try.
  unfold bind at 1, get_db at 1. cbv beta iota.
  unfold OrderService._calculate_order_totals.
  destruct (order_sum_items_exists (working s) items (dec 0) Hall) as [subtotal ->].
  cbn [lift_result]. unfold bind at 1, ret at 1. cbv beta iota zeta.
  unfold bind at 1, modify_db at 1. cbv beta iota.
  unfold bind at 1.
  match goal with |- context [for_each items ?body ?s1] =>
    pose proof (reservation_loop_raise cart_line _ body (place_cart_line_run _)
                  (place_cart_line_raise _) items s1) as Hloop;
    destruct (for_each items body s1) as [[[]|e0] s2]
  end.
  - unfold OrderService._record_status_change, CartService.mark_cart_converted,
      bind, modify_db, db_commit, get_db, ret. done.
  - intros [= <- <-]. by eapply Hloop.
Qed.

Lemma create_guest_order_try_raise now order_number order_data items totals s e s' :
  Forall (λ it, is_Some (products (working s) !! vi_product_id it)) items →
  OrderService.create_guest_order_try now order_number order_data items totals s
  = (Raise e, s') →
  ∃ name, e = InsufficientStockFor name.
Proof.
  intros Hall. unfold OrderService.create_guest_order_try.
  unfold bind at 1, get_db at 1. cbv beta iota zeta.
  unfold bind at 1, modify_db at 1. cbv beta iota.
  unfold bind at 1.
  match goal with |- context [for_each items ?body ?s1] =>
    pose proof (reservation_loop_raise validated_line _ body (place_guest_line_run _)
                  (place_guest_line_raise _) items s1) as Hloop;
    destruct (for_each items body s1) as [[[]|e0] s2]
  end.
  - unfold OrderService._record_status_change,
      bind, modify_db, db_commit, get_db, ret. done.
  - intros [= <- <-]. by eapply Hloop.
Qed.

(** A [try] block that cannot return, and raises only [InsufficientStockFor],
    under the handler of order creation. *)
Lemma try_except_oversold {A} (body : M A) (wrap : message → message) s :
  (∀ r s1, body s ≠ (Ok r, s1)) →
  (∀ e s1, body s = (Raise e, s1) →
           committed s1 = committed s ∧ ∃ name, e = InsufficientStockFor name) →
  ∃ name s',
    try_except body
      (λ e, db_rollback ;;;
            raise (OrderError (wrap (str_exn e)) HTTP_500_INTERNAL_SERVER_ERROR)) s
    = (Raise (OrderError (wrap (MsgInsufficientStockFor name))
                HTTP_500_INTERNAL_SERVER_ERROR), s')
    ∧ rolled_back s s'.
Proof.
  intros Hok Hraise. unfold try_except.
  destruct (body s) as [[r|e] s1] eqn:Hbody; [by destruct (Hok r s1)|].
  destruct (Hraise e s1 eq_refl) as [Hcm [name ->]].
  exists name. eexists. unfold bind, db_rollback, raise. cbn.
  split; [reflexivity|]. by split.
Qed.

Lemma order_created_not_oversold changed_by lines s r s1 :
  order_created changed_by lines s r s1 →
  stocks_nonneg (working s1) →
  ¬ oversold (working s) lines.
Proof.
  intros (_ & _ & _ & _ & _ & (_ & _ & Hmv & _) & _) Hnn (pid & p & Hp & Hlt).
  specialize (Hmv pid). rewrite Hp in Hmv. cbn in Hmv.
  specialize (Hnn _ _ Hmv). cbn in Hnn. lia.
Qed.

(** X22. An order that asks more than there is in stock is rolled back.
    In a session without negative stock: when a cart passes every check
    before the order is written (active cart with lines, every line valid,
    address of the user), but its lines ask of some product more in all
    than it has in stock, [create_order_from_cart] raises "Failed to create
    order: Insufficient stock for <product>" with status 500 and rolls
    back; and when every line of a guest order passes the validation but
    the lines ask of some product more in all than it has,
    [create_guest_order] raises "Failed to create guest order: Insufficient
    stock for <product>" with status 500 and rolls back.  Database and
    session are then as the database was before the call. *)
Theorem oversold_order_rolled_back now order_number s :
  stocks_nonneg (working s) →
  (∀ user_id order_data cart_id cart,
     CartService.get_cart (Some user_id) None s = (Ok (Some (cart_id, cart)), s) →
     items_of_cart (working s) cart_id ≠ [] →
     Forall (line_available (working s)) (items_of_cart (working s) cart_id) →
     own_address (working s) user_id (oc_address_id order_data) →
     oversold (working s) (cart_line <$> items_of_cart (working s) cart_id) →
     ∃ name s',
       OrderService.create_order_from_cart now order_number user_id order_data s
       = (Raise (OrderError (MsgFailedToCreateOrder (MsgInsufficientStockFor name))
                   HTTP_500_INTERNAL_SERVER_ERROR), s')
       ∧ rolled_back s s')
  ∧ (∀ order_data,
       Forall (line_orderable (working s)) (g_items order_data) →
       oversold (working s) (guest_line <$> g_items order_data) →
       ∃ name s',
         OrderService.create_guest_order now order_number order_data s
         = (Raise (OrderError
                     (MsgFailedToCreateGuestOrder (MsgInsufficientStockFor name))
                     HTTP_500_INTERNAL_SERVER_ERROR), s')
         ∧ rolled_back s s').
Proof.
  intros Hnn. split.
  - intros user_id order_data cart_id cart Hcart Hne Havail (a & Ha & Howner) Hover.
    assert (Hcreate :
              OrderService.create_order_from_cart now order_number user_id order_data s
              = try_except
                  (OrderService.create_order_from_cart_try now order_number user_id
                     order_data cart_id (items_of_cart (working s) cart_id))
                  (λ e, db_rollback ;;;
                        raise (OrderError (MsgFailedToCreateOrder (str_exn e))
                                 HTTP_500_INTERNAL_SERVER_ERROR)) s).
    { unfold OrderService.create_order_from_cart.
      rewrite (bind_ok _ _ _ _ _ Hcart).
      unfold bind at 1, get_db at 1. cbv beta iota zeta.
      rewrite bool_decide_eq_false_2 by done.
      rewrite (bind_ok _ _ _ _ _ (validate_passes _ _ Hne Havail)). cbn [fst negb].
      unfold query_by_id. by rewrite Ha, bool_decide_eq_true_2 by done. }
    rewrite Hcreate. apply (try_except_oversold _ MsgFailedToCreateOrder).
    + intros r s1 Htry.
      pose proof (create_order_from_cart_try_nonneg now order_number user_id
                    order_data cart_id (items_of_cart (working s) cart_id) s Hnn)
        as Hnn1.
      pose proof (create_order_from_cart_try_run now order_number user_id order_data
                    cart_id (items_of_cart (working s) cart_id) s) as Hrun.
      rewrite Htry in Hnn1, Hrun. destruct Hrun as [Hcreated _].
      by eapply order_created_not_oversold.
    + intros e s1 Htry.
      pose proof (create_order_from_cart_try_run now order_number user_id order_data
                    cart_id (items_of_cart (working s) cart_id) s) as Hrun.
      rewrite Htry in Hrun. split; [done|].
      eapply create_order_from_cart_try_raise; [|exact Htry].
      eapply list.Forall_impl; [exact Havail|]. intros it (p & Hp & _). by eexists.
  - intros order_data Hok Hover.
    destruct (validate_items_succeeds (working s) (g_items order_data) [] (dec 0))
      as (validated & total & Hval).
    { eapply list.Forall_impl; [exact Hok|]. intros it (p & Hp & Hactive & _).
      by exists p. }
    { apply list.Forall_fmap. eapply list.Forall_impl; [exact Hok|].
      intros it (p & Hp & _ & Hq) p' Hp'. cbn in *. congruence. }
    pose proof (validate_items_lines _ _ _ _ _ _ Hval) as Hlines. cbn in Hlines.
    unfold OrderService.create_guest_order.
    unfold bind at 1, get_db at 1. cbv beta iota.
    unfold OrderService._validate_and_calculate_items. rewrite Hval.
    cbn [lift_result]. unfold bind at 1, ret at 1. cbv beta iota. cbn [fst snd].
    apply (try_except_oversold _ MsgFailedToCreateGuestOrder).
    + intros r s1 Htry.
      match type of Htry with
      | OrderService.create_guest_order_try _ _ _ _ ?t _ = _ =>
          pose proof (create_guest_order_try_nonneg now order_number order_data
                        validated t s Hnn) as Hnn1;
          pose proof (create_guest_order_try_run now order_number order_data
                        validated t s) as Hrun
      end.
      rewrite Htry in Hnn1, Hrun. destruct Hrun as [Hcreated _].
      rewrite Hlines in Hcreated. by eapply order_created_not_oversold.
    + intros e s1 Htry.
      match type of Htry with
      | OrderService.create_guest_order_try _ _ _ _ ?t _ = _ =>
          pose proof (create_guest_order_try_run now order_number order_data
                        validated t s) as Hrun
      end.
      rewrite Htry in Hrun. split; [done|].
      eapply create_guest_order_try_raise; [|exact Htry].
      apply list.Forall_forall. intros vi Hvi.
      assert (Hin : validated_line vi ∈ guest_line <$> g_items order_data).
      { rewrite <- Hlines. by apply list_elem_of_fmap_2. }
      apply list_elem_of_fmap in Hin as (it & Heq & Hit).
      rewrite list.Forall_forall in Hok. destruct (Hok it Hit) as (p & Hp & _).
      injection Heq as Hpid _. exists p. by rewrite Hpid.
Qed.

Lemma oversold_order_rolled_back_witness :
  let s := clean_session widget_store in
  ∃ name s',
    OrderService.create_guest_order 1000 "ORD-1" twice_three_widgets s
    = (Raise (OrderError
                (MsgFailedToCreateGuestOrder (MsgInsufficientStockFor name))
                HTTP_500_INTERNAL_SERVER_ERROR), s')
    ∧ rolled_back s s'.
Proof.
  destruct (oversold_order_rolled_back 1000 "ORD-1" (clean_session widget_store)
              widget_store_nonneg) as [_ Hguest].
  apply Hguest.
  - repeat constructor; exists widget; repeat split; vm_compute; discriminate.
  - exists 1, widget. split; [reflexivity|]. vm_compute. reflexivity.
Defined.

(** ** One order after the other *)

(** One unit is ordered while there is one: the stock goes down by one. *)
Lemma one_unit_accepted now order_number order_data s product_id p :
  one_unit_of product_id order_data →
  stocks_nonneg (working s) →
  products (working s) !! product_id = Some p →
  p_is_active p = true →
  1 ≤ p_stock p →
  ∃ r s',
    OrderService.create_guest_order now order_number order_data s = (Ok r, s')
    ∧ stocks_nonneg (working s')
    ∧ products (working s') !! product_id = Some (set_stock p (p_stock p - 1)).
Proof.
  intros [variation_id Hitems] Hnn Hp Hactive Hstock.
  assert (Hsale : Forall (product_on_sale (working s)) (g_items order_data)).
  { rewrite Hitems. repeat constructor. by exists p. }
  assert (Hlines : lines_in_stock (working s) (guest_line <$> g_items order_data)).
  { rewrite Hitems. split.
    - repeat constructor; [done | by eexists].
    - intros pid p' Hp'. cbn. case_bool_decide as Heq.
      + cbn in Heq. subst pid. assert (p' = p) as -> by congruence. lia.
      + specialize (Hnn pid p' Hp'). lia. }
  destruct (validate_items_succeeds (working s) (g_items order_data) [] (dec 0)
              Hsale (lines_in_stock_each _ _ Hlines)) as (validated & total & Hval).
  pose proof (validate_items_lines _ _ _ _ _ _ Hval) as Hvl. cbn in Hvl.
  assert (Hcreate : ∃ r s',
            OrderService.create_guest_order now order_number order_data s
            = (Ok r, s')).
  { unfold OrderService.create_guest_order.
    unfold bind at 1, get_db at 1. cbv beta iota.
    unfold OrderService._validate_and_calculate_items. rewrite Hval.
    cbn [lift_result]. unfold bind at 1, ret at 1. cbv beta iota. cbn [fst snd].
    match goal with
    | |- context [OrderService.create_guest_order_try _ _ _ _ ?t] =>
        destruct (create_guest_order_try_succeeds now order_number order_data
                    validated t s) as (r & s' & Htry); [by rewrite Hvl|]
    end.
    exists r, s'. unfold try_except. by rewrite Htry. }
  destruct Hcreate as (r & s' & Hcreate). exists r, s'. split; [done|].
  split; [by eapply create_guest_order_ok_nonneg|].
  apply create_guest_order_ok in Hcreate
    as (_ & _ & _ & _ & _ & (_ & _ & Hmv & _) & _).
  rewrite Hmv, Hp, Hitems. cbn. rewrite bool_decide_eq_true_2 by done.
  do 2 f_equal.
Qed.

(** None is ordered when there is none: the session is as it was. *)
Lemma one_unit_refused now order_number order_data s product_id p :
  one_unit_of product_id order_data →
  products (working s) !! product_id = Some p →
  p_is_active p = true →
  p_stock p < 1 →
  ∃ e, OrderService.create_guest_order now order_number order_data s = (Raise e, s).
Proof.
  intros [variation_id Hitems] Hp Hactive Hstock.
  unfold OrderService.create_guest_order, bind, get_db.
  unfold OrderService._validate_and_calculate_items. rewrite Hitems. cbn.
  rewrite Hp, Hactive. cbn. apply Z.ltb_lt in Hstock. rewrite Hstock.
  by eexists.
Qed.

(** X24. Orders placed one after the other never take more than the stock.
    In a session without negative stock, for an active product with stock
    S: of N guest orders of one unit of it, placed one after the other
    under order numbers that differ from each other and from those of the
    orders there are (order numbers and payment method of at most 50
    characters; when the line names a variation, an existing one), exactly
    min(N, S) are accepted, and the stock is then S − min(N, S). *)
Theorem orders_in_turn_exhaust_stock order_data tickets s product_id p :
  one_unit_of product_id order_data →
  NoDup tickets.*2 →
  Forall (λ order_number,
            order_row_accepted (working s) order_number
              (g_payment_method order_data) None) tickets.*2 →
  Forall (λ it, variation_known (working s) (oic_variation_id it))
    (g_items order_data) →
  stocks_nonneg (working s) →
  products (working s) !! product_id = Some p →
  p_is_active p = true →
  let outcome := guest_orders_in_turn order_data tickets s in
  outcome.1 = (length tickets `min` Z.to_nat (p_stock p))%nat
  ∧ p_stock <$> products (working outcome.2) !! product_id
    = Some (p_stock p - Z.of_nat outcome.1).
Proof.
  intros Hone _ _ _. revert s p.
  induction tickets as [|[now order_number] rest IH]; intros s p Hnn Hp Hactive.
  { cbn. rewrite Hp. cbn. split; [done|]. f_equal. lia. }
  pose proof (Hnn _ _ Hp) as Hstock0.
  cbn [guest_orders_in_turn length].
  destruct (decide (1 ≤ p_stock p)) as [Hstock|Hstock].
  - destruct (one_unit_accepted now order_number order_data s product_id p)
      as (r & s' & -> & Hnn' & Hp'); [done..|].
    specialize (IH s' _ Hnn' Hp' Hactive). cbv zeta in IH.
    destruct (guest_orders_in_turn order_data rest s') as [accepted s''].
    cbn [fst snd] in *. destruct IH as [Hacc Hst].
    cbn [p_stock set_stock] in Hacc, Hst.
    split; [lia|]. rewrite Hst. f_equal. lia.
  - destruct (one_unit_refused now order_number order_data s product_id p)
      as [e ->]; [done.. | lia |].
    specialize (IH s p Hnn Hp Hactive). cbv zeta in IH.
    destruct (guest_orders_in_turn order_data rest s) as [accepted s''].
    cbn [fst snd] in *. destruct IH as [Hacc Hst].
    split; [lia | done].
Qed.

Lemma widget_store_accepts order_number payment_method :
  fits_string_50 order_number → fits_string_50 payment_method →
  order_row_accepted widget_store order_number payment_method None.
Proof.
  intros Hn Hm. split; [|done].
  intros k o Hk. cbn in Hk. by rewrite lookup_empty in Hk.
Qed.

Lemma orders_in_turn_exhaust_stock_witness :
  let tickets := [(1000, "ORD-1"); (1001, "ORD-2"); (1002, "ORD-3"); (1003, "ORD-4");
                  (1004, "ORD-5"); (1005, "ORD-6"); (1006, "ORD-7")] in
  let outcome := guest_orders_in_turn one_widget tickets (clean_session widget_store) in
  outcome.1 = (length tickets `min` Z.to_nat (p_stock widget))%nat
  ∧ p_stock <$> products (working outcome.2) !! 1
    = Some (p_stock widget - Z.of_nat outcome.1).
Proof.
  apply (orders_in_turn_exhaust_stock one_widget _ (clean_session widget_store) 1 widget).
  - by exists None.
  - apply (bool_decide_unpack _). vm_compute. reflexivity.
  - rewrite list.Forall_fmap.
    repeat (apply list.Forall_cons; split;
            [apply widget_store_accepts; unfold fits_string_50; cbn; lia|]).
    constructor.
  - repeat constructor. by intros ? ?.
  - exact widget_store_nonneg.
  - reflexivity.
  - reflexivity.
Defined.

(** ** Two orders at once

    Every request runs in a session of its own ([get_db] opens one per
    request): of two requests of which neither has committed when the other
    reads, both read the rows as committed before. *)

(** C5. Two orders at once take the last unit twice.  One widget is in
    stock; users 7 and 8 each have one in their cart.  When both check out
    from the rows as committed, each [create_order_from_cart] finds a stock
    of 1 in [_reserve_stock], sets it to 0 and commits its order of one
    widget: two orders are accepted for one unit, where the second
    checkout is refused when it starts from what the first has committed.
    The same holds of two guest orders, which reserve through
    [_reserve_stock_direct]: nothing locks the product row or checks a
    version between the read and the write. *)
Theorem concurrent_orders_oversell :
  let st := last_unit_store in
  p_stock <$> products st !! 1 = Some 1
  ∧ (∃ r1 s1 r2 s2,
       OrderService.create_order_from_cart 1000 "ORD-1" 7 checkout_data
         (clean_session st) = (Ok r1, s1)
       ∧ OrderService.create_order_from_cart 1000 "ORD-2" 8 checkout_data_8
           (clean_session st) = (Ok r2, s2)
       ∧ committed s1 = working s1
       ∧ committed s2 = working s2
       ∧ ordered_quantity 1 (items_of_order (committed s1) r1.1) = 1
       ∧ ordered_quantity 1 (items_of_order (committed s2) r2.1) = 1
       ∧ p_stock <$> products (committed s1) !! 1 = Some 0
       ∧ p_stock <$> products (committed s2) !! 1 = Some 0
       ∧ OrderService.create_order_from_cart 1000 "ORD-2" 8 checkout_data_8
           (clean_session (committed s1))
         = (Raise (CheckoutIssues [IssueOnlyInStock "Widget" 0 1]),
            clean_session (committed s1)))
  ∧ (∃ r1 s1 r2 s2,
       OrderService.create_guest_order 1000 "ORD-1" one_widget (clean_session st)
       = (Ok r1, s1)
       ∧ OrderService.create_guest_order 1000 "ORD-2" one_widget (clean_session st)
         = (Ok r2, s2)
       ∧ committed s1 = working s1
       ∧ committed s2 = working s2
       ∧ ordered_quantity 1 (items_of_order (committed s1) r1.1) = 1
       ∧ ordered_quantity 1 (items_of_order (committed s2) r2.1) = 1
       ∧ p_stock <$> products (committed s1) !! 1 = Some 0
       ∧ p_stock <$> products (committed s2) !! 1 = Some 0
       ∧ OrderService.create_guest_order 1000 "ORD-2" one_widget
           (clean_session (committed s1))
         = (Raise (OrderError (MsgInsufficientStockAvailable "Widget" 0)
                     HTTP_400_BAD_REQUEST), clean_session (committed s1))).
Proof.
  intros st. split; [reflexivity|].
  split; eexists _, _, _, _.
  - split; [vm_compute; reflexivity|].
    split; [vm_compute; reflexivity|].
    repeat split; vm_compute; reflexivity.
  - split; [vm_compute; reflexivity|].
    split; [vm_compute; reflexivity|].
    repeat split; vm_compute; reflexivity.
Qed.

(** ** Where the status machine leads *)

Lemma dispatched_step from mid :
  dispatched from →
  mid ∈ OrderService._get_valid_status_transitions from →
  dispatched mid.
Proof.
  unfold dispatched. rewrite !elem_of_cons, elem_of_nil.
  intros [->|[->|[->|[->|[]]]]];
    (match goal with
     | |- _ ∈ ?l → _ => let l' := eval vm_compute in l in change l with l'
     end);
    rewrite ?elem_of_cons, elem_of_nil; intros H;
    repeat (destruct H as [->|H]); try done;
    repeat (first [left; reflexivity | right]).
Qed.

Lemma dispatched_closed from to :
  reachable from to → dispatched from → dispatched to.
Proof.
  induction 1 as [|from mid to Hstep _ IH]; [done|].
  intros Hfrom. apply IH. by eapply dispatched_step.
Qed.

Lemma dispatched_not_cancellable order :
  dispatched (o_status order) → is_cancellable order = false.
Proof.
  unfold dispatched, is_cancellable. rewrite !elem_of_cons, elem_of_nil.
  intros [->|[->|[->|[->|[]]]]]; by vm_compute.
Qed.

Lemma terminal_closed from to :
  OrderService._get_valid_status_transitions from = [] →
  reachable from to → to = from.
Proof.
  intros Hnone Hreach. destruct Hreach as [|from mid to Hstep _]; [done|].
  rewrite Hnone in Hstep. by apply elem_of_nil in Hstep.
Qed.

(** X25. A shipped order is past cancelling.  Whatever sequence of
    transitions that [_get_valid_status_transitions] allows is followed
    from SHIPPED, the status stays among shipped, out for delivery,
    delivered and refunded; from CANCELLED and from REFUNDED no transition
    leads anywhere, nor from a status the table does not know.  For an order
    in a status reached from SHIPPED, [cancel_order] raises whoever asks
    (403 for a user who is neither owner nor admin, else 400 "cannot be
    cancelled") and leaves the session as it was. *)
Theorem shipped_is_past_cancelling :
  (∀ status, reachable OrderStatus.SHIPPED status → dispatched status)
  ∧ (∀ status, reachable OrderStatus.CANCELLED status → status = OrderStatus.CANCELLED)
  ∧ (∀ status, reachable OrderStatus.REFUNDED status → status = OrderStatus.REFUNDED)
  ∧ (∀ from to,
       from ∉ fst <$> OrderService.transitions → reachable from to → to = from)
  ∧ (∀ s order_id order,
       orders (working s) !! order_id = Some order →
       reachable OrderStatus.SHIPPED (o_status order) →
       ∀ now user_id reason is_admin,
         OrderService.cancel_order now order_id user_id reason is_admin s
         = (Raise (if bool_decide (may_act_on order user_id is_admin)
                   then NotCancellable (o_status order) else Forbidden), s)).
Proof.
  split; [|split; [|split; [|split]]].
  - intros status Hreach. apply (dispatched_closed _ _ Hreach). by left.
  - intros status. by apply terminal_closed.
  - intros status. by apply terminal_closed.
  - intros from to Hunknown. apply terminal_closed.
    unfold OrderService._get_valid_status_transitions.
    induction OrderService.transitions as [|[k v] d IH]; [done|].
    cbn in *. apply not_elem_of_cons in Hunknown as [Hne Hrest].
    rewrite bool_decide_eq_false_2 by done. by apply IH.
  - intros s order_id order Horder Hreach now user_id reason is_admin.
    assert (Hnc : is_cancellable order = false).
    { apply dispatched_not_cancellable, (dispatched_closed _ _ Hreach). by left. }
    cancel_order_start Horder. rewrite Hnc. cbn [negb].
    unfold may_act_on. destruct is_admin; cbn [negb andb].
    + by rewrite bool_decide_eq_true_2; [|left].
    + case_bool_decide as Howner; cbn [negb].
      * by rewrite bool_decide_eq_true_2; [|right].
      * rewrite bool_decide_eq_false_2; [done|]. by intros [?|?].
Qed.

Lemma shipped_is_past_cancelling_witness :
  let s := clean_session (ordered_store OrderStatus.OUT_FOR_DELIVERY 0) in
  OrderService.cancel_order 5 1 7 None false s
  = (Raise (NotCancellable OrderStatus.OUT_FOR_DELIVERY), s).
Proof.
  destruct shipped_is_past_cancelling as (_ & _ & _ & _ & Hcancel).
  apply (Hcancel (clean_session (ordered_store OrderStatus.OUT_FOR_DELIVERY 0)) 1
           (widget_order OrderStatus.OUT_FOR_DELIVERY 0) eq_refl).
  eapply reachable_step; [|apply reachable_refl].
  apply (bool_decide_unpack _). vm_compute. exact I.
Defined.

(** ** The limit on a cart line *)

Lemma update_cart_totals_items cart_id s :
  let s' := (CartService._update_cart_totals cart_id s).2 in
  cart_items (working s') = cart_items (working s)
  ∧ (committed s' = committed s ∨ committed s' = working s').
Proof.
  unfold CartService._update_cart_totals, bind, get_db, modify_db, db_commit. cbn.
  destruct (CartService.sum_items _ _ _); cbn; split; auto.
Qed.

(** The end of [add_item]: commit, recompute the totals, return. *)
Lemma add_item_end_within_limit cm st cart_id (item : CartItem) :
  lines_within_limit st →
  session_within_limit
    ((db_commit ;;; CartService._update_cart_totals cart_id ;;; ret item)
       {| committed := cm; working := st |}).2.
Proof.
  intros Hst. unfold bind at 1, db_commit at 1. cbv beta iota. unfold bind at 1.
  match goal with |- context [CartService._update_cart_totals ?c ?s0] =>
    pose proof (update_cart_totals_items c s0) as [Hitems Hcm];
    destruct (CartService._update_cart_totals c s0) as [[[]|e] s1]
  end; cbn in *; unfold session_within_limit, lines_within_limit in *;
    rewrite Hitems; (split; [|done]); destruct Hcm as [->| ->]; by rewrite ?Hitems.
Qed.

Lemma Forall_filtered {A} (P Q : A → Prop) `{∀ x, Decision (Q x)} (l : list A) :
  Forall P l → Forall P (filter Q l).
Proof.
  rewrite !list.Forall_forall. intros Hl x Hx.
  apply list_elem_of_filter in Hx as [_ Hx]. by apply Hl.
Qed.

(** X26. No cart line goes over the limit.  When no cart line holds more
    than [MAX_QUANTITY_PER_ITEM] (10) units, in the database and through
    the session, none does after [add_item], whatever is asked and whether
    it returns or raises; nor after [clear_cart], [apply_promo_code] or
    [get_cart_summary]. *)
Theorem cart_lines_within_limit s :
  session_within_limit s →
  (∀ cart_id item_data,
     session_within_limit (CartService.add_item cart_id item_data s).2)
  ∧ (∀ cart_id, session_within_limit (CartService.clear_cart cart_id s).2)
  ∧ (∀ cart_id promo_code,
       session_within_limit (CartService.apply_promo_code cart_id promo_code s).2)
  ∧ (∀ cart_id, session_within_limit (CartService.get_cart_summary cart_id s).2).
Proof.
  intros Hs. pose proof Hs as [Hcm Hw]. split; [|split; [|split]].
  - intros cart_id item_data. unfold CartService.add_item.
    unfold bind at 1, get_db at 1. cbv beta iota.
    destruct (query_by_id _ _ _) as [product|]; [|done].
    unfold bind at 1.
    match goal with |- context [match ?m s with _ => _ end] =>
      assert (Hv : ∃ r, m s = (r, s)) by
        (destruct (opt_int_truthy _); [destruct (_ ≫= _)|]; by eexists);
      destruct Hv as [[variation|e] ->]
    end; [|done].
    cbv zeta.
    match goal with |- context [CartService.MAX_QUANTITY_PER_ITEM <? ?q] =>
      destruct (Z.ltb_spec CartService.MAX_QUANTITY_PER_ITEM q) as [Hmax|Hmax]
    end; [done|].
    destruct (_ <? _); [done|].
    destruct (list_find _ _) as [[i it]|].
    + unfold bind at 1, modify_db at 1. cbv beta iota.
      apply add_item_end_within_limit. unfold lines_within_limit. cbn.
      by apply Forall_insert.
    + unfold bind at 1, modify_db at 1. cbv beta iota.
      apply add_item_end_within_limit. unfold lines_within_limit. cbn.
      apply list.Forall_app. split; [done|]. by repeat constructor.
  - intros cart_id. cbn. unfold session_within_limit, lines_within_limit. cbn.
    split; by apply Forall_filtered.
  - intros cart_id promo_code. unfold CartService.apply_promo_code.
    unfold bind at 1, modify_db at 1. cbv beta iota.
    match goal with |- context [(?m ;;; ?k) ?s0] =>
      change ((m ;;; k) s0) with
        ((db_commit ;;; CartService._update_cart_totals cart_id ;;;
          ret (true, "Promo code applied")) s0)
    end.
    unfold bind at 1, db_commit at 1. cbv beta iota. unfold bind at 1.
    match goal with |- context [CartService._update_cart_totals ?c ?s0] =>
      pose proof (update_cart_totals_items c s0) as [Hitems Hcm'];
      destruct (CartService._update_cart_totals c s0) as [[[]|e] s1]
    end; cbn in *; unfold session_within_limit, lines_within_limit in *;
      rewrite Hitems; (split; [|done]); destruct Hcm' as [->| ->];
      by rewrite ?Hitems.
  - intros cart_id. unfold CartService.get_cart_summary. unfold bind at 1.
    pose proof (update_cart_totals_items cart_id s) as [Hitems Hcm'].
    destruct (CartService._update_cart_totals cart_id s) as [[[]|e] s1];
      cbn in Hitems, Hcm'.
    + unfold bind, get_db. cbn.
      assert (session_within_limit s1).
      { unfold session_within_limit, lines_within_limit in *. rewrite Hitems.
        split; [|done]. destruct Hcm' as [->| ->]; by rewrite ?Hitems. }
      by destruct (carts (working s1) !! cart_id).
    + cbn. unfold session_within_limit, lines_within_limit in *. rewrite Hitems.
      split; [|done]. destruct Hcm' as [->| ->]; by rewrite ?Hitems.
Qed.

Lemma cart_store_within_limit : lines_within_limit (cart_store (dec 0)).
Proof. repeat constructor. vm_compute. discriminate. Qed.

Lemma cart_lines_within_limit_witness :
  let s := clean_session (cart_store (dec 0)) in
  session_within_limit (CartService.add_item 1 add_eleven_widgets s).2
  ∧ session_within_limit (CartService.add_item 1 add_two_widgets s).2.
Proof.
  destruct (cart_lines_within_limit (clean_session (cart_store (dec 0)))
              (conj cart_store_within_limit cart_store_within_limit))
    as [Hadd _].
  split; apply Hadd.
Defined.

(** ** A checkout that is refused *)

Lemma validate_fails s cart_id :
  items_of_cart (working s) cart_id ≠ [] →
  ¬ Forall (line_available (working s)) (items_of_cart (working s) cart_id) →
  CartService.validate_cart_for_checkout cart_id s
  = (Ok (false, issues_of (working s) (items_of_cart (working s) cart_id)), s)
  ∧ issues_of (working s) (items_of_cart (working s) cart_id) ≠ [].
Proof.
  intros Hne Hbad. rewrite <- issues_nil in Hbad. fold (issues_of (working s)) in Hbad.
  split; [|done].
  unfold CartService.validate_cart_for_checkout, bind, get_db. cbn -[concat].
  destruct (items_of_cart (working s) cart_id) as [|it items] eqn:Hitems; [done|].
  change (CartService.issues_of_item (working s) it
          :: map (CartService.issues_of_item (working s)) items)
    with (map (CartService.issues_of_item (working s)) (it :: items)).
  fold (issues_of (working s) (it :: items)).
  rewrite bool_decide_eq_false_2; [done|].
  by rewrite length_zero_iff_nil.
Qed.

Lemma own_address_query st user_id address_id :
  is_Some (query_by_id (addresses st) address_id (λ a,
             bool_decide (a_user_id a = user_id)))
  ↔ own_address st user_id address_id.
Proof.
  unfold query_by_id, own_address.
  destruct (addresses st !! address_id) as [a|].
  - case_bool_decide as Ha.
    + split; [intros _; by exists a | by eexists].
    + split; [by intros [] | intros (a' & [= <-] & ?); done].
  - split; [by intros [] | by intros (? & ? & _)].
Qed.

(** X27. Why a checkout is refused, in the order of the checks.  Without
    touching the session, [create_order_from_cart] raises: "Cart is empty"
    (400) when the user has no active cart or the cart has no line; else
    400 with the issues the validation reports when some line fails it
    (product gone or inactive, quantity above the stock), whether or not the
    address is good; else "Shipping address not found" (404) when the
    address does not exist or belongs to another user. *)
Theorem checkout_refused now order_number user_id order_data s :
  (CartService.get_cart (Some user_id) None s = (Ok None, s) →
   OrderService.create_order_from_cart now order_number user_id order_data s
   = (Raise CartIsEmpty, s))
  ∧ (∀ cart_id cart,
       CartService.get_cart (Some user_id) None s = (Ok (Some (cart_id, cart)), s) →
       (items_of_cart (working s) cart_id = [] →
        OrderService.create_order_from_cart now order_number user_id order_data s
        = (Raise CartIsEmpty, s))
       ∧ (items_of_cart (working s) cart_id ≠ [] →
          ¬ Forall (line_available (working s)) (items_of_cart (working s) cart_id) →
          OrderService.create_order_from_cart now order_number user_id order_data s
          = (Raise (CheckoutIssues
                      (issues_of (working s) (items_of_cart (working s) cart_id))), s)
          ∧ issues_of (working s) (items_of_cart (working s) cart_id) ≠ [])
       ∧ (items_of_cart (working s) cart_id ≠ [] →
          Forall (line_available (working s)) (items_of_cart (working s) cart_id) →
          ¬ own_address (working s) user_id (oc_address_id order_data) →
          OrderService.create_order_from_cart now order_number user_id order_data s
          = (Raise AddressNotFound, s))).
Proof.
  split; [|intros cart_id cart Hcart; split; [|split]].
  - intros Hcart. unfold OrderService.create_order_from_cart.
    by rewrite (bind_ok _ _ _ _ _ Hcart).
  - intros Hnil. unfold OrderService.create_order_from_cart.
    rewrite (bind_ok _ _ _ _ _ Hcart).
    unfold bind at 1, get_db at 1. cbv beta iota zeta.
    by rewrite bool_decide_eq_true_2.
  - intros Hne Hbad. destruct (validate_fails s cart_id Hne Hbad) as [Hval Hissues].
    split; [|done]. unfold OrderService.create_order_from_cart.
    rewrite (bind_ok _ _ _ _ _ Hcart).
    unfold bind at 1, get_db at 1. cbv beta iota zeta.
    rewrite bool_decide_eq_false_2 by done.
    by rewrite (bind_ok _ _ _ _ _ Hval).
  - intros Hne Havail Haddr. unfold OrderService.create_order_from_cart.
    rewrite (bind_ok _ _ _ _ _ Hcart).
    unfold bind at 1, get_db at 1. cbv beta iota zeta.
    rewrite bool_decide_eq_false_2 by done.
    rewrite (bind_ok _ _ _ _ _ (validate_passes _ _ Hne Havail)). cbn [fst negb].
    rewrite <- own_address_query in Haddr.
    destruct (query_by_id _ _ _); [|done]. destruct Haddr. by eexists.
Qed.

Lemma checkout_refused_witness :
  let s := clean_session (cart_store (dec 0)) in
  OrderService.create_order_from_cart 1000 "ORD-1" 7 checkout_data s
  = (Raise AddressNotFound, s).
Proof.
  destruct (checkout_refused 1000 "ORD-1" 7 checkout_data
              (clean_session (cart_store (dec 0)))) as [_ Hcart].
  destruct (Hcart 1 (widget_cart (dec 0))) as (_ & _ & Haddr).
  - vm_compute. reflexivity.
  - apply Haddr.
    + vm_compute. discriminate.
    + repeat constructor. exists widget. repeat split. vm_compute. discriminate.
    + intros (a & Ha & _). vm_compute in Ha. discriminate.
Defined.
